(** * uc3m_travel: the hotel manager

    A shallow embedding of [hotel_manager.py] (classes [ValidateParameters],
    [HotelManager] and [GuestCheckout]) and of the attribute patterns of
    [attributes/], with the properties the specification states about them.

    Python values are modelled as they reach the code: a [str] is a list of
    code points, the content of a JSON file is a tree of [pyval], exceptions
    are the error side of [result], and the three store files and the clock
    are an explicit world threaded through every operation. *)

From Stdlib Require Import ZArith NArith List Bool String Ascii Lia.
From Stdlib Require Import SpecFloat Btauto.
Import ListNotations.

Set Implicit Arguments.
#[local] Set Warnings "-register-all".

(** ** Python data *)

(** A [str]: its code points. *)
Definition pystr := list N.

(** The [str] an ASCII literal of the source denotes. *)
Definition str (s : string) : pystr :=
  map N_of_ascii (list_ascii_of_string s).

Fixpoint pystr_eqb (a b : pystr) : bool :=
  match a, b with
  | [], [] => true
  | x :: a', y :: b' => (x =? y)%N && pystr_eqb a' b'
  | _, _ => false
  end.

(** The exceptions the program can meet.  [HotelManagementException] is the
    program's own and carries its message; the others are Python's. *)
Inductive exn : Type :=
| HotelManagementException (msg : string)
| TypeError
| KeyError (key : pystr)
| IndexError
| ValueError
| AttributeError
| OverflowError
| OSError
| FileNotFoundError
| JSONDecodeError
| UnicodeDecodeError
| RecursionError.

Inductive result (A : Type) : Type :=
| Ok (a : A)
| Raise (e : exn).

Arguments Ok {A} a.
Arguments Raise {A} e.

Definition rbind {A B} (r : result A) (f : A -> result B) : result B :=
  match r with
  | Ok a => f a
  | Raise e => Raise e
  end.

Declare Scope result_scope.
Delimit Scope result_scope with result.
Notation "x <- c ;; k" := (rbind c (fun x => k))
  (at level 61, c at next level, right associativity) : result_scope.
Notation "c ;;; k" := (rbind c (fun _ => k))
  (at level 61, right associativity) : result_scope.

(** The values the program handles.  [None], [bool], [int], [float] (an
    IEEE double), [str], [list] and [dict] (its items in insertion order,
    keys distinct) are what [json.load] can return and what [json.dump] can
    write.  [POther] is a value of any other type, which reaches the
    program only as an argument: a [decimal.Decimal], a
    [fractions.Fraction] or a [bytes] given as the number of days.  All the
    program does with such a value is [int()], which returns or raises
    [as_int]; it is taken to have no subscript by a [str], no iteration and
    no [append], and [json.dump] refuses it. *)
Inductive pyval : Type :=
| PNone
| PBool (b : bool)
| PInt (z : Z)
| PFloat (f : spec_float)
| PStr (s : pystr)
| PList (l : list pyval)
| PDict (d : list (pystr * pyval))
| POther (as_int : result Z).

(** The values [json.dump] writes: those with no value of another type
    inside. *)
Fixpoint json_value (v : pyval) : bool :=
  match v with
  | POther _ => false
  | PList l => forallb json_value l
  | PDict d => forallb (fun kv => json_value (snd kv)) d
  | _ => true
  end.

Fixpoint map_result {A B} (f : A -> result B) (l : list A) : result (list B) :=
  match l with
  | [] => Ok []
  | a :: l' =>
      (b <- f a ;; bs <- map_result f l' ;; Ok (b :: bs))%result
  end.

(** [v[key]] for a [str] key: a [dict] looks the key up and raises
    [KeyError] when it is missing; a [list] or a [str] wants an integer index
    and the other values are not subscriptable, both a [TypeError]. *)
Fixpoint dict_get (d : list (pystr * pyval)) (key : pystr) : option pyval :=
  match d with
  | [] => None
  | (k, v) :: d' => if pystr_eqb k key then Some v else dict_get d' key
  end.

Definition py_getitem (v : pyval) (key : pystr) : result pyval :=
  match v with
  | PDict d =>
      match dict_get d key with
      | Some x => Ok x
      | None => Raise (KeyError key)
      end
  | _ => Raise TypeError
  end.

(** [for item in v]: a [list] yields its elements, a [dict] its keys, a [str]
    its characters; nothing else is iterable. *)
Definition py_iter (v : pyval) : result (list pyval) :=
  match v with
  | PList l => Ok l
  | PDict d => Ok (map (fun kv => PStr (fst kv)) d)
  | PStr s => Ok (map (fun c => PStr [c]) s)
  | _ => Raise TypeError
  end.

(** [v.append(x)]: only a [list] has the method. *)
Definition py_append (v x : pyval) : result pyval :=
  match v with
  | PList l => Ok (PList (l ++ [x]))
  | _ => Raise AttributeError
  end.

(** ** Characters and numbers *)

Definition in_range (lo hi c : N) : bool := ((lo <=? c) && (c <=? hi))%N.

(** [[0-9]] *)
Definition ascii_digit (c : N) : bool := in_range 48 57 c.
(** [[A-Z]] *)
Definition ascii_upper (c : N) : bool := in_range 65 90 c.
(** [[a-zA-Z]] *)
Definition ascii_letter (c : N) : bool := in_range 97 122 c || in_range 65 90 c.
(** [[a-fA-F0-9]] *)
Definition hex_digit (c : N) : bool :=
  in_range 97 102 c || in_range 65 70 c || in_range 48 57 c.

(** The number a run of ASCII digits writes in base ten. *)
Definition decimal_value (s : pystr) : Z :=
  fold_left (fun acc c => acc * 10 + (Z.of_N c - 48))%Z s 0%Z.

(** [str(n)] for an [int]. *)
Fixpoint decimal_digits (fuel : nat) (n : Z) (acc : pystr) : pystr :=
  match fuel with
  | O => acc
  | S fuel' =>
      let acc' := Z.to_N (48 + n mod 10) :: acc in
      if (n <? 10)%Z then acc' else decimal_digits fuel' (n / 10) acc'
  end.

Definition str_of_int (z : Z) : pystr :=
  if (z <? 0)%Z
  then 45%N :: decimal_digits (S (Z.to_nat (Z.log2 (- z)))) (- z) []
  else decimal_digits (S (Z.to_nat (Z.log2 z))) z [].

(** [int(f)] for a [float]: truncation towards zero; an infinity is an
    [OverflowError], a NaN a [ValueError]. *)
Definition int_of_float (f : spec_float) : result Z :=
  match f with
  | S754_zero _ => Ok 0%Z
  | S754_infinity _ => Raise OverflowError
  | S754_nan => Raise ValueError
  | S754_finite s m e =>
      let a := if (0 <=? e)%Z then (Z.pos m * 2 ^ e)%Z else (Z.pos m / 2 ^ (- e))%Z in
      Ok (if s then (- a)%Z else a)
  end.

(** ** Regular expressions

    The fragment of [re] the program's patterns are written in, matched by
    exhaustive backtracking: the continuation [k] receives the position and
    the rest of the subject after each way [r] can match. *)
Inductive regex : Type :=
| Caret                                        (* ^ *)
| Dollar                                       (* $ *)
| Dot                                          (* . *)
| Chr (c : N)                                  (* a literal character *)
| Cls (p : N -> bool)                          (* a character class *)
| Cat (r1 r2 : regex)
| Alt (r1 r2 : regex)
| Rep (r : regex) (lo : nat) (hi : option nat) (* r{lo,hi}; r+ is r{1,} *)
| Ahead (r : regex).                           (* (?=r) *)

Definition one_char (p : N -> bool) (pos : nat) (s : pystr)
    (k : nat -> pystr -> bool) : bool :=
  match s with
  | c :: t => p c && k (S pos) t
  | [] => false
  end.

(** [$] without MULTILINE: the end of the subject, or just before a newline
    that ends it. *)
Definition at_dollar (s : pystr) : bool :=
  match s with
  | [] => true
  | [c] => (c =? 10)%N
  | _ => false
  end.

Definition below (n : nat) (hi : option nat) : bool :=
  match hi with
  | Some h => (n <? h)%nat
  | None => true
  end.

(** [r{lo,hi}] over a body matcher: after [n] iterations the match may stop
    when [lo <= n], or go on while [n] is below [hi].  [fuel] bounds the
    iterations: [hi] itself, or [lo] plus the length of the subject when the
    repetition is unbounded (an iteration past [lo] that consumes nothing
    opens no new way to match). *)
Fixpoint iterate (body : nat -> pystr -> (nat -> pystr -> bool) -> bool)
    (lo : nat) (hi : option nat) (k : nat -> pystr -> bool)
    (fuel n pos : nat) (s : pystr) {struct fuel} : bool :=
  ((lo <=? n)%nat && k pos s)
  || match fuel with
     | O => false
     | S fuel' =>
         below n hi
         && body pos s (fun p t => iterate body lo hi k fuel' (S n) p t)
     end.

Fixpoint rmatch (r : regex) (pos : nat) (s : pystr)
    (k : nat -> pystr -> bool) {struct r} : bool :=
  match r with
  | Caret => (pos =? 0)%nat && k pos s
  | Dollar => at_dollar s && k pos s
  | Dot => one_char (fun c => negb (c =? 10)%N) pos s k
  | Chr a => one_char (fun c => (c =? a)%N) pos s k
  | Cls p => one_char p pos s k
  | Cat r1 r2 => rmatch r1 pos s (fun p t => rmatch r2 p t k)
  | Alt r1 r2 => rmatch r1 pos s k || rmatch r2 pos s k
  | Ahead r1 => rmatch r1 pos s (fun _ _ => true) && k pos s
  | Rep r1 lo hi =>
      iterate (rmatch r1) lo hi k
        (match hi with
         | Some h => h
         | None => (lo + List.length s)%nat
         end) 0%nat pos s
  end.

(** [re.compile(r).fullmatch(s)]: some way of matching ends at the end of
    the subject. *)
Definition fullmatch (r : regex) (s : pystr) : bool :=
  rmatch r 0 s (fun _ t => match t with [] => true | _ => false end).

(** A sequence of patterns, a literal character and a literal word. *)
Fixpoint cats (rs : list regex) : regex :=
  match rs with
  | [] => Rep Dot 0 (Some 0%nat)
  | [r] => r
  | r :: rs' => Cat r (cats rs')
  end.

Definition chr (a : ascii) : regex := Chr (N_of_ascii a).
Definition word (w : string) : regex := cats (map Chr (str w)).
Definition exactly (n : nat) (r : regex) : regex := Rep r n (Some n).
Definition plus (r : regex) : regex := Rep r 1 None.

(** ** Dates and times *)

(** A naive [datetime] and the [date] it falls on. *)
Record datetime : Type := {
  year : Z; month : Z; day : Z;
  hour : Z; minute : Z; second : Z; microsecond : Z
}.

Record date : Type := { date_year : Z; date_month : Z; date_day : Z }.

(** [dt.date()] *)
Definition date_of (dt : datetime) : date :=
  {| date_year := year dt; date_month := month dt; date_day := day dt |}.

(** [d1 == d2] on dates *)
Definition date_eqb (d1 d2 : date) : bool :=
  ((date_year d1 =? date_year d2) && (date_month d1 =? date_month d2)
   && (date_day d1 =? date_day d2))%Z.

(** ** The stores and the world *)

(** What a file holds: text that is no JSON document (the empty file
    and the beginning of a document are such texts); the JSON document that
    [json.load] reads into the value [v]; bytes that are no UTF-8 text; a
    JSON document with an integer of more than 4300 digits, the
    interpreter's limit for the conversion; a JSON document nested deeper
    than the interpreter's recursion limit. *)
Inductive file : Type :=
| NotJson
| Json (v : pyval)
| NotUtf8
| HugeInt
| TooDeep.

(** The files the program opens: the three stores under [JSON_FILES_PATH]
    and the input file [guest_arrival] is given.  [guest_arrival] reads its
    input once, before it reads or writes any store, so an input path that
    names a store behaves as an input file with the store's content. *)
Inductive path : Type :=
| StoreReservation            (* JSON_FILES_PATH + "store_reservation.json" *)
| StoreCheckIn                (* JSON_FILES_PATH + "store_check_in.json" *)
| StoreCheckOut               (* JSON_FILES_PATH + "store_check_out.json" *)
| InputFile (name : pystr).

(** The file system: whether the directory [JSON_FILES_PATH] exists, the
    three stores ([None]: no such file) and the input files. *)
Record FS : Type := {
  json_dir : bool;
  store_reservation : option file;
  store_check_in : option file;
  store_check_out : option file;
  input_files : pystr -> option file
}.

Definition read_file (p : path) (f : FS) : option file :=
  match p with
  | StoreReservation => if json_dir f then store_reservation f else None
  | StoreCheckIn => if json_dir f then store_check_in f else None
  | StoreCheckOut => if json_dir f then store_check_out f else None
  | InputFile name => input_files f name
  end.

(** The file system with one store replaced. *)
Definition with_reservations (c : option file) (f : FS) : FS :=
  {| json_dir := json_dir f; store_reservation := c;
     store_check_in := store_check_in f;
     store_check_out := store_check_out f;
     input_files := input_files f |}.

Definition with_check_ins (c : option file) (f : FS) : FS :=
  {| json_dir := json_dir f; store_reservation := store_reservation f;
     store_check_in := c;
     store_check_out := store_check_out f;
     input_files := input_files f |}.

Definition with_check_outs (c : option file) (f : FS) : FS :=
  {| json_dir := json_dir f; store_reservation := store_reservation f;
     store_check_in := store_check_in f;
     store_check_out := c;
     input_files := input_files f |}.

Definition with_input (name : pystr) (c : option file) (f : FS) : FS :=
  {| json_dir := json_dir f; store_reservation := store_reservation f;
     store_check_in := store_check_in f;
     store_check_out := store_check_out f;
     input_files := fun n => if pystr_eqb n name then c else input_files f n |}.

(** [open(p, "w")] followed by [json.dump]: without the directory of the
    stores nothing is written. *)
Definition write_file (p : path) (c : file) (f : FS) : option FS :=
  match p with
  | StoreReservation =>
      if json_dir f then Some (with_reservations (Some c) f) else None
  | StoreCheckIn =>
      if json_dir f then Some (with_check_ins (Some c) f) else None
  | StoreCheckOut =>
      if json_dir f then Some (with_check_outs (Some c) f) else None
  | InputFile name => Some (with_input name (Some c) f)
  end.

(** The world an operation runs in: the file system and the number of times
    the clock has been read. *)
Record World : Type := { fs : FS; ticks : nat }.

(** A computation: it ends with a value or an exception, and in both cases
    leaves the world its effects produced so far. *)
Definition M (A : Type) : Type := World -> result A * World.

Definition ret {A} (a : A) : M A := fun w => (Ok a, w).
Definition raise {A} (e : exn) : M A := fun w => (Raise e, w).
Definition lift {A} (r : result A) : M A := fun w => (r, w).

Definition bind {A B} (m : M A) (f : A -> M B) : M B :=
  fun w =>
    match m w with
    | (Ok a, w') => f a w'
    | (Raise e, w') => (Raise e, w')
    end.

(** [try: m except ...: handler] *)
Definition try_except {A} (m : M A) (handler : exn -> M A) : M A :=
  fun w =>
    match m w with
    | (Ok a, w') => (Ok a, w')
    | (Raise e, w') => handler e w'
    end.

Declare Scope world_scope.
Delimit Scope world_scope with world.
Notation "x <- c ;; k" := (bind c (fun x => k))
  (at level 61, c at next level, right associativity) : world_scope.
Notation "' pat <- c ;; k" := (bind c (fun x => match x with pat => k end))
  (at level 61, pat pattern, c at next level, right associativity) : world_scope.
Notation "c ;;; k" := (bind c (fun _ => k))
  (at level 61, right associativity) : world_scope.

(** [with open(p, "r", encoding="utf-8") as file: json.load(file)]: the
    file is decoded when it is read, then parsed. *)
Definition json_load (p : path) : M pyval :=
  fun w =>
    match read_file p (fs w) with
    | None => (Raise FileNotFoundError, w)
    | Some NotJson => (Raise JSONDecodeError, w)
    | Some (Json v) => (Ok v, w)
    | Some NotUtf8 => (Raise UnicodeDecodeError, w)
    | Some HugeInt => (Raise ValueError, w)
    | Some TooDeep => (Raise RecursionError, w)
    end.

(** [with open(p, "w") as file: json.dump(v, file, indent=2)]: [open]
    fails when the directory is missing and otherwise empties the file;
    [json.dump] then writes the document piece by piece, and raises
    [TypeError] at the first value of another type, leaving the beginning
    of a document behind. *)
Definition json_dump (p : path) (v : pyval) : M unit :=
  fun w =>
    if json_value v
    then match write_file p (Json v) (fs w) with
         | None => (Raise FileNotFoundError, w)
         | Some f => (Ok tt, {| fs := f; ticks := ticks w |})
         end
    else match write_file p NotJson (fs w) with
         | None => (Raise FileNotFoundError, w)
         | Some f => (Raise TypeError, {| fs := f; ticks := ticks w |})
         end.

(** ** The program *)

Section HotelManager.

(** *** What the program takes from outside its sources *)

(** Python's runtime on the inputs this development does not fix:
    - [uni_decimal c]: [c] is a decimal digit ([\d]) other than [0]-[9];
    - [uni_space c]: [c] is whitespace ([\s]) other than the blank and the
      control characters tab to carriage return;
    - [builtin_int s]: [int(s)] for a [str] that is not a plain run of ASCII
      digits (signs, blanks, underscores, other digits);
    - [builtin_eq a b]: [a == b] when neither value is a [str]. *)
Variable uni_decimal : N -> bool.
Variable uni_space : N -> bool.
Variable builtin_int : pystr -> result Z.
Variable builtin_eq : pyval -> pyval -> bool.

(** The clock and the local time zone:
    - [clock n]: what [datetime.utcnow()] returns the [n]-th time it is read;
    - [fromtimestamp v]: [datetime.fromtimestamp(v)];
    - [timestamp dt]: [datetime.timestamp(dt)];
    - [strptime_dmy v]: [datetime.strptime(v, "%d/%m/%Y")]. *)
Variable clock : nat -> datetime.
Variable fromtimestamp : pyval -> result datetime.
Variable timestamp : datetime -> spec_float.
Variable strptime_dmy : pyval -> result datetime.

(** The digest behind a reservation's localizer, over the eight fields the
    reservation is made of (class [HotelReservation] is not among the
    sources): id card, name, credit card, phone number, reservation date,
    arrival date, number of days and room type. *)
Variable localizer_digest :
  pyval -> pyval -> pyval -> pyval -> pyval -> pyval -> pyval -> pyval -> pystr.

(** The constructor of class [HotelStay], not among the sources either:
    run when the clock reads [justnow] on [idcard], [numdays], [localizer]
    and [roomtype], it raises or returns the object, of which the program
    uses the [room_key] and the [__dict__]. *)
Variable new_HotelStay :
  datetime -> pyval -> Z -> pyval -> pyval -> result (pystr * pyval).

(** [\d] and [\s] *)
Definition unicode_digit (c : N) : bool := ascii_digit c || uni_decimal c.
Definition unicode_space (c : N) : bool :=
  in_range 9 13 c || (c =? 32)%N || uni_space c.

(** [int(s)] for a [str]: a run of ASCII digits within the interpreter's
    limit on digits is the number it writes. *)
Definition int_of_str (s : pystr) : result Z :=
  if (1 <=? List.length s)%nat && (List.length s <=? 4300)%nat
     && forallb ascii_digit s
  then Ok (decimal_value s)
  else builtin_int s.

(** [int(v)] *)
Definition py_int (v : pyval) : result Z :=
  match v with
  | PInt z => Ok z
  | PBool b => Ok (if b then 1 else 0)%Z
  | PFloat f => int_of_float f
  | PStr s => int_of_str s
  | PNone | PList _ | PDict _ => Raise TypeError
  | POther as_int => as_int
  end.

(** [a == b]: a [str] equals only the same [str]. *)
Definition py_eq (a b : pyval) : bool :=
  match a, b with
  | PStr s, PStr t => pystr_eqb s t
  | PStr _, _ => false
  | _, PStr _ => false
  | _, _ => builtin_eq a b
  end.

(** [datetime.utcnow()]: one more reading of the clock. *)
Definition utcnow : M datetime :=
  fun w => (Ok (clock (ticks w)), {| fs := fs w; ticks := S (ticks w) |}).

(** *** class ValidateParameters *)

Definition HME {A} (msg : string) : result A :=
  Raise (HotelManagementException msg).

(** [digits_of(n)]: [[int(d) for d in str(n)]], on the text [str(n)]. *)
Definition digits_of (text : pystr) : result (list Z) :=
  map_result (fun d => int_of_str [d]) text.

(** [l[start::-2]]: a negative [start] counts from the end; the indices
    run down by two from [start], clipped to the list, to the first one. *)
Fixpoint down_by_two {A} (fuel : nat) (i : Z) (l : list A) : list A :=
  match fuel with
  | O => []
  | S fuel' =>
      if (i <? 0)%Z then []
      else match nth_error l (Z.to_nat i) with
           | Some x => x :: down_by_two fuel' (i - 2) l
           | None => []
           end
  end.

Definition slice_step_minus2 {A} (start : Z) (l : list A) : list A :=
  let len := Z.of_nat (List.length l) in
  let start := if (start <? 0)%Z then (start + len)%Z else start in
  let start := if (start <? 0)%Z then (-1)%Z
               else if (len <=? start)%Z then (len - 1)%Z else start in
  down_by_two (List.length l) start l.

(** [sum(l)] *)
Definition sum (l : list Z) : Z := fold_left Z.add l 0%Z.

(** [for d in even_digits: checksum += sum(digits_of(d * 2))] *)
Fixpoint add_doubled (even_digits : list Z) (checksum : Z) : result Z :=
  match even_digits with
  | [] => Ok checksum
  | d :: rest =>
      (ds <- digits_of (str_of_int (d * 2)) ;;
       add_doubled rest (checksum + sum ds))%result
  end.

Definition validatecreditcard (credit_card : pystr) : result pystr :=
  let myregex := cats [Caret; exactly 16 (Cls ascii_digit)] in
  if negb (fullmatch myregex credit_card)
  then HME "Invalid credit card format"
  else
    (digits <- digits_of credit_card ;;
     let odd_digits := slice_step_minus2 (-1) digits in
     let even_digits := slice_step_minus2 (-2) digits in
     let checksum := 0%Z in
     let checksum := (checksum + sum odd_digits)%Z in
     checksum <- add_doubled even_digits checksum ;;
     if negb (checksum mod 10 =? 0)%Z
     then HME "Invalid credit card number (not luhn)"
     else Ok credit_card)%result.

Definition validate_room_type (room_type : pystr) : result pystr :=
  let myregex := Alt (word "SINGLE") (Alt (word "DOUBLE") (word "SUITE")) in
  if negb (fullmatch myregex room_type)
  then HME "Invalid roomtype value"
  else Ok room_type.

(** [^(([0-2]\d|-3[0-1])\/(0\d|1[0-2])\/\d\d\d\d)$] *)
Definition arrival_date_pattern : regex :=
  cats [Caret;
        Alt (Cat (Cls (in_range 48 50)) (Cls unicode_digit))
            (cats [chr "-"; chr "3"; Cls (in_range 48 49)]);
        chr "/";
        Alt (Cat (chr "0") (Cls unicode_digit))
            (Cat (chr "1") (Cls (in_range 48 50)));
        chr "/";
        Cls unicode_digit; Cls unicode_digit; Cls unicode_digit;
        Cls unicode_digit;
        Dollar].

Definition validate_arrival_date (arrival_date : pystr) : result pystr :=
  let myregex := arrival_date_pattern in
  if negb (fullmatch myregex arrival_date)
  then HME "Invalid date format"
  else Ok arrival_date.

Definition validate_phonenumber (phone_number : pystr) : result pystr :=
  let myregex := cats [Caret; chr "+"; exactly 9 (Cls ascii_digit)] in
  if negb (fullmatch myregex phone_number)
  then HME "Invalid phone number format"
  else Ok phone_number.

Definition validate_numdays (num_days : pyval) : result pyval :=
  match py_int num_days with
  | Raise ValueError => HME "Invalid num_days datatype"
  | Raise e => Raise e
  | Ok days =>
      if ((days <? 1) || (days >? 10))%Z
      then HME "Numdays should be in the range 1-10"
      else Ok num_days
  end.

Definition dni_letter_dict : list (pystr * pystr) :=
  map (fun kv => (str (fst kv), str (snd kv)))
    [("0", "T"); ("1", "R"); ("2", "W"); ("3", "A"); ("4", "G"); ("5", "M");
     ("6", "Y"); ("7", "F"); ("8", "P"); ("9", "D"); ("10", "X"); ("11", "B");
     ("12", "N"); ("13", "J"); ("14", "Z"); ("15", "S"); ("16", "Q");
     ("17", "V"); ("18", "H"); ("19", "L"); ("20", "C"); ("21", "K");
     ("22", "E")]%string.

Fixpoint letter_of (d : list (pystr * pystr)) (key : pystr) : result pystr :=
  match d with
  | [] => Raise (KeyError key)
  | (k, v) :: d' => if pystr_eqb k key then Ok v else letter_of d' key
  end.

Definition validate_dni (dni : pystr) : result bool :=
  (dni_numbers <- int_of_str (firstn 8 dni) ;;
   let dni_choose_letter := str_of_int (dni_numbers mod 23) in
   match nth_error dni 8 with
   | None => Raise IndexError
   | Some c =>
       letter <- letter_of dni_letter_dict dni_choose_letter ;;
       Ok (pystr_eqb [c] letter)
   end)%result.

Definition validate_localizer (room_key : pystr) : result pystr :=
  let myregex := cats [Caret; exactly 32 (Cls hex_digit); Dollar] in
  if negb (fullmatch myregex room_key)
  then HME "Invalid localizer"
  else Ok room_key.

(** *** class HotelReservation *)

(** Modelled from the spec: class [HotelReservation] is not among the
    sources.  The spec's data model gives a reservation its seven request
    fields, the creation instant and the derived localizer; the names of the
    private attributes are the keys [hotel_manager.py] reads from the store.
    The constructor takes the creation instant from the clock and derives
    the localizer from the other eight fields. *)
Record HotelReservation : Type := {
  r_credit_card_number : pyval;
  r_id_card : pyval;
  r_arrival : pyval;
  r_reservation_date : pyval;
  r_name_surname : pyval;
  r_phone_number : pyval;
  r_room_type : pyval;
  r_num_days : pyval;
  r_localizer : pystr
}.

Definition new_HotelReservation (justnow : datetime)
    (id_card credit_card_number name_surname phone_number room_type arrival
       num_days : pyval) : HotelReservation :=
  let reservation_date := PFloat (timestamp justnow) in
  {| r_credit_card_number := credit_card_number;
     r_id_card := id_card;
     r_arrival := arrival;
     r_reservation_date := reservation_date;
     r_name_surname := name_surname;
     r_phone_number := phone_number;
     r_room_type := room_type;
     r_num_days := num_days;
     r_localizer :=
       localizer_digest id_card name_surname credit_card_number phone_number
         reservation_date arrival num_days room_type |}.

(** [my_reservation.__dict__] *)
Definition reservation_dict (r : HotelReservation) : pyval :=
  PDict
    [(str "_HotelReservation__credit_card_number", r_credit_card_number r);
     (str "_HotelReservation__id_card", r_id_card r);
     (str "_HotelReservation__arrival", r_arrival r);
     (str "_HotelReservation__reservation_date", r_reservation_date r);
     (str "_HotelReservation__name_surname", r_name_surname r);
     (str "_HotelReservation__phone_number", r_phone_number r);
     (str "_HotelReservation__room_type", r_room_type r);
     (str "_HotelReservation__num_days", r_num_days r);
     (str "_HotelReservation__localizer", PStr (r_localizer r))].

(** *** class HotelManager *)

Definition raiseHME {A} (msg : string) : M A :=
  raise (HotelManagementException msg).

Definition store_data_into_list_if_file_exists (file_store : path) : M pyval :=
  try_except (json_load file_store)
    (fun ex =>
       match ex with
       | FileNotFoundError => ret (PList [])
       | JSONDecodeError => raiseHME "JSON Decode Error - Wrong JSON Format"
       | _ => raise ex
       end).

Definition write_into_json (file_store : path) (room_key_list : pyval) : M unit :=
  try_except (json_dump file_store room_key_list)
    (fun ex =>
       match ex with
       | FileNotFoundError => raiseHME "Wrong file  or file path"
       | _ => raise ex
       end).

Definition store_json_into_list (file_input : path) (error_message : string)
    : M pyval :=
  try_except (json_load file_input)
    (fun ex =>
       match ex with
       | FileNotFoundError => raiseHME error_message
       | JSONDecodeError => raiseHME "JSON Decode Error - Wrong JSON Format"
       | _ => raise ex
       end).

Definition check_id_card (id_card : pystr) : result unit :=
  let my_regex :=
    cats [Caret; exactly 8 (Cls ascii_digit); exactly 1 (Cls ascii_upper);
          Dollar] in
  if negb (fullmatch my_regex id_card)
  then HME "Invalid IdCard format"
  else
    (ok <- validate_dni id_card ;;
     if negb ok then HME "Invalid IdCard letter" else Ok tt)%result.

(** [^(?=^.{10,50}$)([a-zA-Z]+(\s[a-zA-Z]+)+)$] *)
Definition name_surname_pattern : regex :=
  cats [Caret;
        Ahead (cats [Caret; Rep Dot 10 (Some 50%nat); Dollar]);
        plus (Cls ascii_letter);
        plus (Cat (Cls unicode_space) (plus (Cls ascii_letter)));
        Dollar].

Definition check_data (arrival_date credit_card id_card name_surname : pystr)
    (num_days : pyval) (phone_number room_type : pystr) : M HotelReservation :=
  let my_regex := name_surname_pattern in
  if negb (fullmatch my_regex name_surname)
  then raiseHME "Invalid name format"
  else
    (credit_card <- lift (validatecreditcard credit_card) ;;
     arrival_date <- lift (validate_arrival_date arrival_date) ;;
     num_days <- lift (validate_numdays num_days) ;;
     phone_number <- lift (validate_phonenumber phone_number) ;;
     justnow <- utcnow ;;
     ret (new_HotelReservation justnow (PStr id_card) (PStr credit_card)
            (PStr name_surname) (PStr phone_number) (PStr room_type)
            (PStr arrival_date) num_days))%world.

(** The loop of [room_reservation] over the stored items. *)
Fixpoint check_not_stored (my_reservation : HotelReservation)
    (data_list : list pyval) : result unit :=
  match data_list with
  | [] => Ok tt
  | item :: rest =>
      (stored_localizer <- py_getitem item (str "_HotelReservation__localizer") ;;
       if py_eq (PStr (r_localizer my_reservation)) stored_localizer
       then HME "Reservation already exists"
       else
         stored_id_card <- py_getitem item (str "_HotelReservation__id_card") ;;
         if py_eq (r_id_card my_reservation) stored_id_card
         then HME "This ID card has another reservation"
         else check_not_stored my_reservation rest)%result
  end.

Definition room_reservation
    (credit_card name_surname id_card phone_number room_type arrival_date : pystr)
    (num_days : pyval) : M pystr :=
  (lift (check_id_card id_card) ;;;
   room_type <- lift (validate_room_type room_type) ;;
   my_reservation <- check_data arrival_date credit_card id_card name_surname
                       num_days phone_number room_type ;;
   let file_store := StoreReservation in
   data_list <- store_data_into_list_if_file_exists file_store ;;
   items <- lift (py_iter data_list) ;;
   lift (check_not_stored my_reservation items) ;;;
   data_list <- lift (py_append data_list (reservation_dict my_reservation)) ;;
   write_into_json file_store data_list ;;;
   ret (r_localizer my_reservation))%world.

(** [get_and_validate_json]: the two values come out of a JSON document;
    [re.fullmatch] raises [TypeError] on one that is no [str]. *)
Definition as_str (v : pyval) : result pystr :=
  match v with
  | PStr s => Ok s
  | _ => Raise TypeError
  end.

Definition get_and_validate_json (input_list : pyval) : result (pystr * pystr) :=
  match
    (my_localizer <- py_getitem input_list (str "Localizer") ;;
     my_id_card <- py_getitem input_list (str "IdCard") ;;
     Ok (my_localizer, my_id_card))%result
  with
  | Raise (KeyError _) => HME "Error - Invalid Key in JSON"
  | Raise e => Raise e
  | Ok (my_localizer, my_id_card) =>
      (my_id_card <- as_str my_id_card ;;
       check_id_card my_id_card ;;;
       my_localizer <- as_str my_localizer ;;
       validate_localizer my_localizer ;;;
       Ok (my_id_card, my_localizer))%result
  end.

Definition generate_reservation (my_localizer : pystr)
    (reservation_credit_card reservation_date_arrival
       reservation_date_timestamp reservation_days reservation_id_card
       reservation_name reservation_phone reservation_room_type : pyval)
    : result unit :=
  (reservation_date <- fromtimestamp reservation_date_timestamp ;;
   (* with freeze_time(reservation_date): the constructor reads it as now *)
   let new_reservation :=
     new_HotelReservation reservation_date reservation_id_card
       reservation_credit_card reservation_name reservation_phone
       reservation_room_type reservation_date_arrival reservation_days in
   if negb (pystr_eqb (r_localizer new_reservation) my_localizer)
   then HME "Error: reservation has been manipulated"
   else Ok tt)%result.

(** The variables the loop of [create_new_reservation] assigns on a match. *)
Record matched_reservation : Type := {
  reservation_days : pyval;
  reservation_room_type : pyval;
  reservation_date_timestamp : pyval;
  reservation_credit_card : pyval;
  reservation_date_arrival : pyval;
  reservation_name : pyval;
  reservation_phone : pyval;
  reservation_id_card : pyval
}.

Definition read_reservation (item : pyval) : result matched_reservation :=
  (days <- py_getitem item (str "_HotelReservation__num_days") ;;
   rtype <- py_getitem item (str "_HotelReservation__room_type") ;;
   tstamp <- py_getitem item (str "_HotelReservation__reservation_date") ;;
   card <- py_getitem item (str "_HotelReservation__credit_card_number") ;;
   arr <- py_getitem item (str "_HotelReservation__arrival") ;;
   name <- py_getitem item (str "_HotelReservation__name_surname") ;;
   phone <- py_getitem item (str "_HotelReservation__phone_number") ;;
   idc <- py_getitem item (str "_HotelReservation__id_card") ;;
   Ok {| reservation_days := days;
         reservation_room_type := rtype;
         reservation_date_timestamp := tstamp;
         reservation_credit_card := card;
         reservation_date_arrival := arr;
         reservation_name := name;
         reservation_phone := phone;
         reservation_id_card := idc |})%result.

(** The loop of [create_new_reservation]: [found] holds the variables of the
    latest match, [None] while there is none. *)
Fixpoint find_reservation (my_localizer : pystr) (store_list : list pyval)
    (found : option matched_reservation) : result (option matched_reservation) :=
  match store_list with
  | [] => Ok found
  | item :: rest =>
      (stored <- py_getitem item (str "_HotelReservation__localizer") ;;
       if py_eq (PStr my_localizer) stored
       then
         m <- read_reservation item ;;
         find_reservation my_localizer rest (Some m)
       else find_reservation my_localizer rest found)%result
  end.

Definition create_new_reservation (my_id_card my_localizer : pystr)
    (store_list : pyval) : result (pyval * pyval * pyval) :=
  (items <- py_iter store_list ;;
   found <- find_reservation my_localizer items None ;;
   match found with
   | None => HME "Error: localizer not found"
   | Some m =>
       if negb (py_eq (PStr my_id_card) (reservation_id_card m))
       then HME "Error: Localizer is not correct for this IdCard"
       else
         generate_reservation my_localizer (reservation_credit_card m)
           (reservation_date_arrival m) (reservation_date_timestamp m)
           (reservation_days m) (reservation_id_card m) (reservation_name m)
           (reservation_phone m) (reservation_room_type m) ;;;
         Ok (reservation_date_arrival m, reservation_days m,
             reservation_room_type m)
   end)%result.

Definition check_equals_date (reservation_date_arrival : pyval) : M unit :=
  (date_obj <- lift (strptime_dmy reservation_date_arrival) ;;
   now <- utcnow ;;
   if negb (date_eqb (date_of date_obj) (date_of now))
   then raiseHME "Error: today is not reservation date"
   else ret tt)%world.

(** The loop of [save_checkin] over the stored stays. *)
Fixpoint check_not_checked_in (room_key : pystr) (room_key_list : list pyval)
    : result unit :=
  match room_key_list with
  | [] => Ok tt
  | item :: rest =>
      (stored <- py_getitem item (str "_HotelStay__room_key") ;;
       if py_eq (PStr room_key) stored
       then HME "ckeckin  ya realizado"
       else check_not_checked_in room_key rest)%result
  end.

(** [my_checkin] is the pair of the stay's [room_key] and [__dict__]. *)
Definition save_checkin (my_checkin : pystr * pyval) : M unit :=
  (let file_store := StoreCheckIn in
   room_key_list <- store_data_into_list_if_file_exists file_store ;;
   items <- lift (py_iter room_key_list) ;;
   lift (check_not_checked_in (fst my_checkin) items) ;;;
   room_key_list <- lift (py_append room_key_list (snd my_checkin)) ;;
   write_into_json file_store room_key_list)%world.

Definition guest_arrival (file_input : pystr) : M pystr :=
  (input_list <- store_json_into_list (InputFile file_input)
                   "Error: file input not found" ;;
   ' (my_id_card, my_localizer) <- lift (get_and_validate_json input_list) ;;
   let file_store := StoreReservation in
   store_list <- store_json_into_list file_store
                   "Error: store reservation not found" ;;
   ' (reservation_date_arrival, reservation_days, reservation_room_type) <-
     lift (create_new_reservation my_id_card my_localizer store_list) ;;
   check_equals_date reservation_date_arrival ;;;
   numdays <- lift (py_int reservation_days) ;;
   justnow <- utcnow ;;
   my_checkin <- lift (new_HotelStay justnow (PStr my_id_card) numdays
                         (PStr my_localizer) reservation_room_type) ;;
   save_checkin my_checkin ;;;
   ret (fst my_checkin))%world.

(** *** class GuestCheckout *)

Definition validate_roomkey (room_key : pystr) : result pystr :=
  let myregex := cats [Caret; exactly 64 (Cls hex_digit); Dollar] in
  if negb (fullmatch myregex room_key)
  then HME "Invalid room key format"
  else Ok room_key.

(** The first loop of [checkout]: [found] holds the departure of the latest
    match. *)
Fixpoint find_departure (room_key : pystr) (room_key_list : list pyval)
    (found : option pyval) : result (option pyval) :=
  match room_key_list with
  | [] => Ok found
  | item :: rest =>
      (stored <- py_getitem item (str "_HotelStay__room_key") ;;
       if py_eq (PStr room_key) stored
       then
         departure_date_timestamp <- py_getitem item (str "_HotelStay__departure") ;;
         find_departure room_key rest (Some departure_date_timestamp)
       else find_departure room_key rest found)%result
  end.

(** The second loop of [checkout], over the stored checkouts. *)
Fixpoint check_not_out (room_key : pystr) (room_key_list : list pyval)
    : result unit :=
  match room_key_list with
  | [] => Ok tt
  | checkout :: rest =>
      (stored <- py_getitem checkout (str "room_key") ;;
       if py_eq stored (PStr room_key)
       then HME "Guest is already out"
       else check_not_out room_key rest)%result
  end.

Definition checkout (room_key : pystr) : M bool :=
  (lift (validate_roomkey room_key) ;;;
   let file_store := StoreCheckIn in
   room_key_list <- store_json_into_list file_store
                      "Error: store checkin not found" ;;
   items <- lift (py_iter room_key_list) ;;
   found <- lift (find_departure room_key items None) ;;
   match found with
   | None => raiseHME "Error: room key not found"
   | Some departure_date_timestamp =>
       now <- utcnow ;;
       let today := date_of now in
       departure <- lift (fromtimestamp departure_date_timestamp) ;;
       if negb (date_eqb (date_of departure) today)
       then raiseHME "Error: today is not the departure day"
       else
         let file_store_checkout := StoreCheckOut in
         room_key_list <- store_data_into_list_if_file_exists file_store_checkout ;;
         items <- lift (py_iter room_key_list) ;;
         lift (check_not_out room_key items) ;;;
         now <- utcnow ;;
         let room_checkout :=
           PDict [(str "room_key", PStr room_key);
                  (str "checkout_time", PFloat (timestamp now))] in
         room_key_list <- lift (py_append room_key_list room_checkout) ;;
         write_into_json file_store_checkout room_key_list ;;;
         ret true
   end)%world.

Definition guest_checkout (room_key : pystr) : M bool :=
  (successful <- checkout room_key ;;
   ret successful)%world.

(** *** attributes/ *)

(** Modelled from the spec: the base class [Attribute] is not among the
    sources.  The spec gives a field validator one job, a match of the
    whole value against the field's pattern with a format error when it
    fails; a subclass sets [_validation_pattern] and [_error_message] and
    keeps the validated value. *)
Definition Attribute_validate (validation_pattern : regex)
    (error_message : string) (attr_value : pystr) : result pystr :=
  if negb (fullmatch validation_pattern attr_value)
  then HME error_message
  else Ok attr_value.

Definition ArrivalDate : pystr -> result pystr :=
  Attribute_validate arrival_date_pattern "Invalid date format".

Definition Localizer : pystr -> result pystr :=
  Attribute_validate (cats [Caret; exactly 32 (Cls hex_digit); Dollar])
    "Invalid localizer".

Definition NameSurname : pystr -> result pystr :=
  Attribute_validate name_surname_pattern "Invalid name format".

Definition RoomKey : pystr -> result pystr :=
  Attribute_validate (cats [Caret; exactly 64 (Cls hex_digit); Dollar])
    "Invalid room key format".

Definition RoomType : pystr -> result pystr :=
  Attribute_validate (Alt (word "SINGLE") (Alt (word "DOUBLE") (word "SUITE")))
    "Invalid roomtype value".

(** *** [read_data_from_json] *)

(** [bool(s)] for a [str]: the empty string alone is false. *)
Definition str_truth (s : pystr) : bool :=
  match s with
  | [] => false
  | _ :: _ => true
  end.

(** The two values come out of a JSON document; the reservation is built
    inside the [try], after both subscripts, and the credit card number is
    validated after it, as the [str] that [re.fullmatch] wants. *)
Definition read_data_from_json (json_file : pystr) : M HotelReservation :=
  (json_data <- store_json_into_list (InputFile json_file)
                  "Wrong file or file path" ;;
   ' (credit_card, req) <-
     try_except
       (credit_card <- lift (py_getitem json_data (str "CreditCard")) ;;
        phone_number <- lift (py_getitem json_data (str "phoneNumber")) ;;
        justnow <- utcnow ;;
        ret (credit_card,
             new_HotelReservation justnow (PStr (str "12345678Z")) credit_card
               (PStr (str "John Doe")) phone_number (PStr (str "single"))
               (PStr (str "20/01/2024")) (PInt 3)))
       (fun ex =>
          match ex with
          | KeyError _ => raiseHME "JSON Decode Error - Invalid JSON Key"
          | _ => raise ex
          end) ;;
   checked <- lift (credit_card <- as_str credit_card ;;
                    validatecreditcard credit_card)%result ;;
   if negb (str_truth checked)
   then raiseHME "Invalid credit card number"
   else ret req)%world.

(** ** The specification's own words

    The definitions below follow the specification, not the code; the
    theorems compare them with the program. *)

(** Exactly [n] characters, all of them in the class [p]. *)
Definition all_of (n : nat) (p : N -> bool) (s : pystr) : bool :=
  (List.length s =? n)%nat && forallb p s.

(** The value of a decimal digit. *)
Definition digit_value (c : N) : Z := (Z.of_N c - 48)%Z.

(** The Luhn sum: from the rightmost digit, every second digit is doubled
    and replaced by the sum of the digits of its double; everything is
    added up. *)
Definition sum_of_digits (n : Z) : Z := (n / 10 + n mod 10)%Z.

Fixpoint luhn_from_right (digits : list Z) (second : bool) : Z :=
  match digits with
  | [] => 0%Z
  | d :: rest =>
      ((if second then sum_of_digits (2 * d) else d)
       + luhn_from_right rest (negb second))%Z
  end.

Definition luhn_sum (s : pystr) : Z :=
  luhn_from_right (rev (map digit_value s)) false.

Definition validatecreditcard_spec (s : pystr) : result pystr :=
  if all_of 16 ascii_digit s
  then if (luhn_sum s mod 10 =? 0)%Z
       then Ok s
       else HME "Invalid credit card number (not luhn)"
  else HME "Invalid credit card format".

(** The table of check letters, indexed by the number modulo 23. *)
Definition dni_table : pystr := str "TRWAGMYFPDXBNJZSQVHLCKE".

(** Eight digits followed by one uppercase letter. *)
Definition id_card_shape (s : pystr) : bool :=
  all_of 8 ascii_digit (firstn 8 s) && all_of 1 ascii_upper (skipn 8 s).

Definition check_id_card_spec (s : pystr) : result unit :=
  if id_card_shape s
  then if pystr_eqb (skipn 8 s)
            [nth (Z.to_nat (decimal_value (firstn 8 s) mod 23)) dni_table 0%N]
       then Ok tt
       else HME "Invalid IdCard letter"
  else HME "Invalid IdCard format".

(** The record sequence a store file holds; the absent file holds none. *)
Definition records_of (f : option file) : option (list pyval) :=
  match f with
  | None => Some []
  | Some (Json (PList l)) => Some l
  | Some _ => None
  end.

(** One more reading of the clock. *)
Definition tick (w : World) : World := {| fs := fs w; ticks := S (ticks w) |}.

(** A stored value equal to the [str] [s]. *)
Definition is_str (s : pystr) (r : result pyval) : bool :=
  match r with
  | Ok (PStr t) => pystr_eqb s t
  | _ => false
  end.

(** A stored item under the localizer [loc], under the id card [idc], and a
    stored stay or checkout under the room key [key]. *)
Definition has_localizer (loc : pystr) (item : pyval) : bool :=
  is_str loc (py_getitem item (str "_HotelReservation__localizer")).

Definition has_id_card (idc : pystr) (item : pyval) : bool :=
  is_str idc (py_getitem item (str "_HotelReservation__id_card")).

Definition has_room_key (key : pystr) (item : pyval) : bool :=
  is_str key (py_getitem item (str "_HotelStay__room_key")).

(** The last item of a sequence that satisfies [p]. *)
Definition last_such (p : pyval -> bool) (items : list pyval) : option pyval :=
  find p (rev items).

(** ** What the properties are stated with *)

(** The end of the pattern: [$] followed by the end of [fullmatch]. *)
Definition ends (t : pystr) : bool :=
  match t with [] => true | _ => false end.

(** The doubled digits of the Luhn sum, as the loop of
    [validatecreditcard] adds them. *)
Fixpoint doubled_sum (ds : list Z) : Z :=
  match ds with
  | [] => 0%Z
  | d :: rest => (sum_of_digits (2 * d) + doubled_sum rest)%Z
  end.

(** A computation that leaves the file system as it found it. *)
Definition keeps_fs {A} (m : M A) : Prop :=
  forall w, fs (snd (m w)) = fs w.

(** A computation that has written nothing when it ends with an exception. *)
Definition clean {A} (m : M A) : Prop :=
  forall w e w', m w = (Raise e, w') -> fs w' = fs w.

Inductive store_name : Type := Reservations | CheckIns | CheckOuts.

Definition store_path (s : store_name) : path :=
  match s with
  | Reservations => StoreReservation
  | CheckIns => StoreCheckIn
  | CheckOuts => StoreCheckOut
  end.

Definition store_of (s : store_name) (f : FS) : option file :=
  match s with
  | Reservations => store_reservation f
  | CheckIns => store_check_in f
  | CheckOuts => store_check_out f
  end.

Definition with_store (s : store_name) (c : option file) (f : FS) : FS :=
  match s with
  | Reservations => with_reservations c f
  | CheckIns => with_check_ins c f
  | CheckOuts => with_check_outs c f
  end.

(** A computation that, when it ends with an exception, has written
    nothing, or ends with the [TypeError] of [json.dump] and has left the
    store [s] as the text that is no JSON document, the rest as it was. *)
Definition clean_or_cut {A} (s : store_name) (m : M A) : Prop :=
  forall w e w',
    m w = (Raise e, w') ->
    fs w' = fs w
    \/ (e = TypeError /\ fs w' = with_store s (Some NotJson) (fs w)).

(** A store file that, when it holds a JSON document, holds one of a value
    [json.dump] writes: what any file [json.load] reads does. *)
Definition json_store (c : option file) : Prop :=
  forall v, c = Some (Json v) -> json_value v = true.

(** A computation that has written nothing when it ends with an exception
    in a file system that satisfies [P]. *)
Definition clean_from {A} (P : FS -> Prop) (m : M A) : Prop :=
  forall w e w', P (fs w) -> m w = (Raise e, w') -> fs w' = fs w.

(** The stays of [HotelStay] hold the values they are made of: a stay
    built from a room type [json.dump] writes is a value it writes. *)
Definition stays_json : Prop :=
  forall justnow idcard numdays localizer roomtype room_key stay,
    json_value roomtype = true ->
    new_HotelStay justnow (PStr idcard) numdays (PStr localizer) roomtype
    = Ok (room_key, stay) ->
    json_value stay = true.

(** The exception of [json.load] on a file it cannot read that neither
    loader of the program catches: the bytes are no UTF-8, an integer of
    the document has more digits than [int] converts, the document is
    nested deeper than the interpreter recurses. *)
Definition uncaught (c : file) : option exn :=
  match c with
  | NotUtf8 => Some UnicodeDecodeError
  | HugeInt => Some ValueError
  | TooDeep => Some RecursionError
  | NotJson | Json _ => None
  end.

(** A request all of whose fields pass their validation. *)
Definition valid_request
    (credit_card name_surname id_card phone_number room_type arrival_date : pystr)
    (num_days : pyval) : Prop :=
  check_id_card id_card = Ok tt
  /\ validate_room_type room_type = Ok room_type
  /\ fullmatch name_surname_pattern name_surname = true
  /\ validatecreditcard credit_card = Ok credit_card
  /\ validate_arrival_date arrival_date = Ok arrival_date
  /\ validate_numdays num_days = Ok num_days
  /\ validate_phonenumber phone_number = Ok phone_number.

(** The reservation [room_reservation] builds for a valid request when the
    clock reads [justnow]. *)
Definition reservation_of (justnow : datetime)
    (credit_card name_surname id_card phone_number room_type arrival_date : pystr)
    (num_days : pyval) : HotelReservation :=
  new_HotelReservation justnow (PStr id_card) (PStr credit_card)
    (PStr name_surname) (PStr phone_number) (PStr room_type)
    (PStr arrival_date) num_days.

(** A stored item that has the two keys the loop of [room_reservation]
    reads. *)
Definition keyed (item : pyval) : bool :=
  match py_getitem item (str "_HotelReservation__localizer"),
        py_getitem item (str "_HotelReservation__id_card") with
  | Ok _, Ok _ => true
  | _, _ => false
  end.

(** The duplicate error a stored item gives a new reservation under the
    localizer [loc] and the id card [idc], and the first one in a store. *)
Definition duplicate (loc idc : pystr) (item : pyval) : option string :=
  if has_localizer loc item then Some "Reservation already exists"%string
  else if has_id_card idc item
       then Some "This ID card has another reservation"%string
       else None.

Fixpoint first_duplicate (loc idc : pystr) (items : list pyval) : option string :=
  match items with
  | [] => None
  | item :: rest =>
      match duplicate loc idc item with
      | Some msg => Some msg
      | None => first_duplicate loc idc rest
      end
  end.

(** No two stored items under one localizer, nor under one id card. *)
Definition unique_keys (items : list pyval) : Prop :=
  NoDup (map (fun item => py_getitem item (str "_HotelReservation__localizer")) items)
  /\ NoDup (map (fun item => py_getitem item (str "_HotelReservation__id_card")) items).

Definition unique_store (f : FS) : Prop :=
  forall items,
    records_of (store_reservation f) = Some items -> unique_keys items.

(** A stored item with the nine keys of a reservation, and a stored item
    with the two keys [checkout] reads from a stay. *)
Definition is_reservation_record (item : pyval) : bool :=
  match py_getitem item (str "_HotelReservation__localizer"),
        read_reservation item with
  | Ok _, Ok _ => true
  | _, _ => false
  end.

Definition is_stay_record (item : pyval) : bool :=
  match py_getitem item (str "_HotelStay__room_key"),
        py_getitem item (str "_HotelStay__departure") with
  | Ok _, Ok _ => true
  | _, _ => false
  end.

(** The eight values [create_new_reservation] takes from the record it
    matches, each the value the record holds under the key it is read by. *)
Definition stored_fields (item : pyval) (m : matched_reservation) : Prop :=
  py_getitem item (str "_HotelReservation__num_days") = Ok (reservation_days m)
  /\ py_getitem item (str "_HotelReservation__room_type")
     = Ok (reservation_room_type m)
  /\ py_getitem item (str "_HotelReservation__reservation_date")
     = Ok (reservation_date_timestamp m)
  /\ py_getitem item (str "_HotelReservation__credit_card_number")
     = Ok (reservation_credit_card m)
  /\ py_getitem item (str "_HotelReservation__arrival")
     = Ok (reservation_date_arrival m)
  /\ py_getitem item (str "_HotelReservation__name_surname")
     = Ok (reservation_name m)
  /\ py_getitem item (str "_HotelReservation__phone_number")
     = Ok (reservation_phone m)
  /\ py_getitem item (str "_HotelReservation__id_card")
     = Ok (reservation_id_card m).

(** The fields [m] with another stored creation time. *)
Definition with_date_timestamp (tstamp : pyval) (m : matched_reservation)
    : matched_reservation :=
  {| reservation_days := reservation_days m;
     reservation_room_type := reservation_room_type m;
     reservation_date_timestamp := tstamp;
     reservation_credit_card := reservation_credit_card m;
     reservation_date_arrival := reservation_date_arrival m;
     reservation_name := reservation_name m;
     reservation_phone := reservation_phone m;
     reservation_id_card := reservation_id_card m |}.

(** What [guest_arrival] does once the lookup has matched a record, whose
    fields are [m]: the ownership check, the integrity check, the date
    check, the stay and its storage. *)
Definition arrival_of_stay (my_id_card my_localizer : pystr)
    (m : matched_reservation) : M pystr :=
  (numdays <- lift (py_int (reservation_days m)) ;;
   justnow <- utcnow ;;
   my_checkin <- lift (new_HotelStay justnow (PStr my_id_card) numdays
                         (PStr my_localizer) (reservation_room_type m)) ;;
   save_checkin my_checkin ;;;
   ret (fst my_checkin))%world.

Definition arrival_after_integrity (my_id_card my_localizer : pystr)
    (m : matched_reservation) : M pystr :=
  (check_equals_date (reservation_date_arrival m) ;;;
   arrival_of_stay my_id_card my_localizer m)%world.

Definition integrity_check (my_localizer : pystr) (m : matched_reservation)
    : result unit :=
  generate_reservation my_localizer (reservation_credit_card m)
    (reservation_date_arrival m) (reservation_date_timestamp m)
    (reservation_days m) (reservation_id_card m) (reservation_name m)
    (reservation_phone m) (reservation_room_type m).

Definition arrival_checks (my_id_card my_localizer : pystr)
    (m : matched_reservation) : M pystr :=
  if negb (py_eq (PStr my_id_card) (reservation_id_card m))
  then raiseHME "Error: Localizer is not correct for this IdCard"
  else
    (lift (integrity_check my_localizer m) ;;;
     arrival_after_integrity my_id_card my_localizer m)%world.

(** The reservation the integrity check builds again from the stored
    fields [m], with the clock frozen at [reservation_date]. *)
Definition recomputed (reservation_date : datetime) (m : matched_reservation)
    : HotelReservation :=
  new_HotelReservation reservation_date (reservation_id_card m)
    (reservation_credit_card m) (reservation_name m) (reservation_phone m)
    (reservation_room_type m) (reservation_date_arrival m)
    (reservation_days m).

(** What [checkout] does once the lookup has matched a stay whose departure
    is [departure_date_timestamp]. *)
Definition checkout_of_stay (room_key : pystr) : M bool :=
  (room_key_list <- store_data_into_list_if_file_exists StoreCheckOut ;;
   items <- lift (py_iter room_key_list) ;;
   lift (check_not_out room_key items) ;;;
   now <- utcnow ;;
   let room_checkout :=
     PDict [(str "room_key", PStr room_key);
            (str "checkout_time", PFloat (timestamp now))] in
   room_key_list <- lift (py_append room_key_list room_checkout) ;;
   write_into_json StoreCheckOut room_key_list ;;;
   ret true)%world.

Definition checkout_checks (room_key : pystr) (departure_date_timestamp : pyval)
    : M bool :=
  (now <- utcnow ;;
   let today := date_of now in
   departure <- lift (fromtimestamp departure_date_timestamp) ;;
   if negb (date_eqb (date_of departure) today)
   then raiseHME "Error: today is not the departure day"
   else checkout_of_stay room_key)%world.


(** Two worlds that differ in the store [s] alone: the first has no such
    file, the second has it with the empty list. *)
Definition absent_vs_empty (s : store_name) (w1 w2 : World) : Prop :=
  ticks w2 = ticks w1
  /\ store_of s (fs w1) = None
  /\ fs w2 = with_store s (Some (Json (PList []))) (fs w1).

(** A computation that ends the same way in two such worlds and leaves them
    such, and one that moreover leaves them equal when it returns. *)
Definition agree {A} (s : store_name) (m : M A) : Prop :=
  forall w1 w2,
    absent_vs_empty s w1 w2 ->
    fst (m w1) = fst (m w2) /\ absent_vs_empty s (snd (m w1)) (snd (m w2)).

Definition converge {A} (s : store_name) (m : M A) : Prop :=
  forall w1 w2,
    absent_vs_empty s w1 w2 ->
    fst (m w1) = fst (m w2)
    /\ forall a, fst (m w1) = Ok a -> snd (m w1) = snd (m w2).


(** ** Shapes the validators accept *)

(** [s] starts with the characters [w]. *)
Fixpoint starts_with (w s : pystr) : bool :=
  match w, s with
  | [], _ => true
  | a :: w', c :: s' => (c =? a)%N && starts_with w' s'
  | _ :: _, [] => false
  end.

(** One of the three room types. *)
Definition room_type_shape (s : pystr) : bool :=
  pystr_eqb (str "SINGLE") s || pystr_eqb (str "DOUBLE") s
  || pystr_eqb (str "SUITE") s.

(** A plus sign and nine decimal digits. *)
Definition phone_shape (s : pystr) : bool :=
  match s with
  | c :: t => (c =? 43)%N && all_of 9 ascii_digit t
  | [] => false
  end.

(** A month written 00 to 12. *)
Definition month_shape (m1 m2 : N) : bool :=
  ((m1 =? 48)%N && unicode_digit m2) || ((m1 =? 49)%N && in_range 48 50 m2).

(** The strings the arrival date pattern matches: a day from 00 to 29, or
    a day 30 or 31 behind a hyphen; a month; four digits. *)
Definition arrival_date_shape (s : pystr) : bool :=
  match s with
  | [d1; d2; s1; m1; m2; s2; y1; y2; y3; y4] =>
      in_range 48 50 d1 && unicode_digit d2
      && (s1 =? 47)%N && month_shape m1 m2 && (s2 =? 47)%N
      && unicode_digit y1 && unicode_digit y2 && unicode_digit y3
      && unicode_digit y4
  | [h; d1; d2; s1; m1; m2; s2; y1; y2; y3; y4] =>
      (h =? 45)%N && (d1 =? 51)%N && in_range 48 49 d2
      && (s1 =? 47)%N && month_shape m1 m2 && (s2 =? 47)%N
      && unicode_digit y1 && unicode_digit y2 && unicode_digit y3
      && unicode_digit y4
  | _ => false
  end.

(** [s[:i] + c + s[i+1:]]: the string with the character at [i] replaced. *)
Definition replace_at (i : nat) (c : N) (s : pystr) : pystr :=
  firstn i s ++ c :: skipn (S i) s.

(** The fields the loop of [create_new_reservation] reads from the stored
    record of the reservation [r]. *)
Definition fields_of_reservation (r : HotelReservation) : matched_reservation :=
  {| reservation_days := r_num_days r;
     reservation_room_type := r_room_type r;
     reservation_date_timestamp := r_reservation_date r;
     reservation_credit_card := r_credit_card_number r;
     reservation_date_arrival := r_arrival r;
     reservation_name := r_name_surname r;
     reservation_phone := r_phone_number r;
     reservation_id_card := r_id_card r |}.

(** A stored checkout under the room key [key], and a check-out store with
    no two checkouts under one room key. *)
Definition checked_out (key : pystr) (item : pyval) : bool :=
  is_str key (py_getitem item (str "room_key")).

Definition unique_checkouts (f : FS) : Prop :=
  forall items,
    records_of (store_check_out f) = Some items ->
    NoDup (map (fun item => py_getitem item (str "room_key")) items).

(** The record [checkout] stores for the room key [key] at the instant
    [now]. *)
Definition checkout_record (key : pystr) (now : datetime) : pyval :=
  PDict [(str "room_key", PStr key);
         (str "checkout_time", PFloat (timestamp now))].

(** The names the pattern of [check_data] matches, read by an automaton
    with four states: before the first word, inside it, after a whitespace
    character, and inside a later word, the one state a name may end in.
    A word is a run of letters; one whitespace character stands between two
    words. *)
Inductive name_state : Type := FirstStart | FirstWord | LaterStart | LaterWord.

Fixpoint name_run (q : name_state) (s : pystr) : bool :=
  match s with
  | [] => match q with LaterWord => true | _ => false end
  | c :: t =>
      match q with
      | FirstStart => ascii_letter c && name_run FirstWord t
      | FirstWord =>
          (ascii_letter c && name_run FirstWord t)
          || (unicode_space c && name_run LaterStart t)
      | LaterStart => ascii_letter c && name_run LaterWord t
      | LaterWord =>
          (ascii_letter c && name_run LaterWord t)
          || (unicode_space c && name_run LaterStart t)
      end
  end.

(** No character is a newline. *)
Definition one_line (s : pystr) : bool :=
  forallb (fun c => negb (c =? 10)%N) s.

(** From 10 to 50 characters on one line, two words at least. *)
Definition name_shape (s : pystr) : bool :=
  (10 <=? List.length s)%nat && (List.length s <=? 50)%nat
  && one_line s && name_run FirstStart s.

(** What is left of a name after a word: nothing, or a whitespace character
    and a further word; and what must follow the first word. *)
Definition name_boundary (s : pystr) : bool :=
  match s with
  | [] => true
  | c :: t => unicode_space c && name_run LaterStart t
  end.

Definition name_groups (s : pystr) : bool :=
  match s with
  | [] => false
  | c :: t => unicode_space c && name_run LaterStart t
  end.

(** [p*] followed by [k]. *)
Fixpoint star (p : N -> bool) (k : nat -> pystr -> bool) (pos : nat)
    (s : pystr) : bool :=
  k pos s
  || match s with
     | c :: t => p c && star p k (S pos) t
     | [] => false
     end.

(** The last character is no newline. *)
Fixpoint no_final_newline (s : pystr) : bool :=
  match s with
  | [] => true
  | c :: t =>
      match t with
      | [] => negb (c =? 10)%N
      | _ :: _ => no_final_newline t
      end
  end.

(** * Properties *)

(** ** Strings and patterns *)

Lemma pystr_eqb_eq (a b : pystr) : pystr_eqb a b = true <-> a = b.
Proof.
  revert b; induction a as [|x a IH]; intros [|y b]; simpl; split;
    try congruence; try reflexivity.
  - intros H. apply andb_true_iff in H as [Hx Hab].
    apply N.eqb_eq in Hx. apply IH in Hab. congruence.
  - intros H. injection H as -> ->. rewrite N.eqb_refl. simpl.
    now apply IH.
Qed.

Lemma pystr_eqb_refl (a : pystr) : pystr_eqb a a = true.
Proof. now apply pystr_eqb_eq. Qed.

Lemma pystr_eqb_neq (a b : pystr) : pystr_eqb a b = false <-> a <> b.
Proof.
  split.
  - intros H E. apply pystr_eqb_eq in E. congruence.
  - intros H. destruct (pystr_eqb a b) eqn:E; [|reflexivity].
    apply pystr_eqb_eq in E. contradiction.
Qed.

(** [p{n}] consumes exactly [n] characters of the class. *)
Lemma iterate_exactly (p : N -> bool) (k : nat -> pystr -> bool) (n : nat) :
  forall fuel m pos s,
    (m + fuel = n)%nat ->
    iterate (one_char p) n (Some n) k fuel m pos s
    = (fuel <=? List.length s)%nat && forallb p (firstn fuel s)
      && k (pos + fuel)%nat (skipn fuel s).
Proof.
  induction fuel as [|fuel IH]; intros m pos s Hm; cbn [iterate].
  - replace (n <=? m)%nat with true by (symmetry; apply Nat.leb_le; lia).
    rewrite Nat.add_0_r. simpl. now rewrite orb_false_r.
  - replace (n <=? m)%nat with false by (symmetry; apply Nat.leb_gt; lia).
    cbn [below orb andb].
    replace (m <? n)%nat with true by (symmetry; apply Nat.ltb_lt; lia).
    cbn [andb]. unfold one_char at 1.
    destruct s as [|c t]; [reflexivity|].
    rewrite IH by lia. cbn [List.length firstn skipn forallb].
    replace (S pos + fuel)%nat with (pos + S fuel)%nat by lia.
    change (S fuel <=? S (List.length t))%nat with (fuel <=? List.length t)%nat.
    destruct (p c), (fuel <=? List.length t)%nat; reflexivity.
Qed.

Lemma rmatch_exactly (p : N -> bool) (n pos : nat) (s : pystr)
    (k : nat -> pystr -> bool) :
  rmatch (exactly n (Cls p)) pos s k
  = (n <=? List.length s)%nat && forallb p (firstn n s)
    && k (pos + n)%nat (skipn n s).
Proof.
  unfold exactly. cbn [rmatch].
  change (rmatch (Cls p)) with (one_char p).
  now apply iterate_exactly.
Qed.

Lemma all_of_split (n : nat) (p : N -> bool) (s : pystr) :
  (n <=? List.length s)%nat && forallb p (firstn n s)
  && match skipn n s with [] => true | _ => false end
  = all_of n p s.
Proof.
  unfold all_of.
  destruct (n <=? List.length s)%nat eqn:Hle.
  - apply Nat.leb_le in Hle.
    destruct (skipn n s) as [|c t] eqn:Hs.
    + assert (Hlen : List.length s = n).
      { pose proof (length_skipn n s) as H. rewrite Hs in H. simpl in H. lia. }
      rewrite Hlen, Nat.eqb_refl, <- Hlen, firstn_all. simpl.
      now rewrite andb_true_r.
    + assert (Hlen : List.length s <> n).
      { pose proof (length_skipn n s) as H. rewrite Hs in H. simpl in H. lia. }
      apply Nat.eqb_neq in Hlen. rewrite Hlen. simpl.
      now rewrite andb_false_r.
  - apply Nat.leb_gt in Hle.
    replace (List.length s =? n)%nat with false
      by (symmetry; apply Nat.eqb_neq; lia).
    reflexivity.
Qed.

Lemma dollar_ends (t : pystr) : at_dollar t && ends t = ends t.
Proof. destruct t as [|c [|d t]]; simpl; try reflexivity. now rewrite andb_false_r. Qed.

Lemma all_of_length (n : nat) (p : N -> bool) (s : pystr) :
  all_of n p s = true -> List.length s = n /\ forallb p s = true.
Proof.
  unfold all_of. intros H. apply andb_true_iff in H as [H1 H2].
  apply Nat.eqb_eq in H1. now split.
Qed.

(** ** Credit card numbers *)

Lemma fullmatch_caret_exactly (n : nat) (p : N -> bool) (s : pystr) :
  fullmatch (cats [Caret; exactly n (Cls p)]) s = all_of n p s.
Proof.
  unfold fullmatch. cbn [cats rmatch Nat.eqb andb].
  rewrite rmatch_exactly. apply all_of_split.
Qed.

Lemma fullmatch_caret_exactly_dollar (n : nat) (p : N -> bool) (s : pystr) :
  fullmatch (cats [Caret; exactly n (Cls p); Dollar]) s = all_of n p s.
Proof.
  unfold fullmatch. cbn [cats rmatch Nat.eqb andb].
  rewrite rmatch_exactly.
  change (match skipn n s with [] => true | _ :: _ => false end)
    with (ends (skipn n s)).
  cbn beta. rewrite dollar_ends. apply all_of_split.
Qed.

Lemma digit_value_range (c : N) :
  ascii_digit c = true -> (0 <= digit_value c <= 9)%Z.
Proof.
  unfold ascii_digit, in_range, digit_value. intros H.
  apply andb_true_iff in H as [H1 H2].
  apply N.leb_le in H1, H2. lia.
Qed.

Lemma int_of_str_digit (c : N) :
  ascii_digit c = true -> int_of_str [c] = Ok (digit_value c).
Proof.
  intros H. unfold int_of_str. cbn [List.length forallb].
  rewrite H. reflexivity.
Qed.

Lemma digits_of_digits (s : pystr) :
  forallb ascii_digit s = true -> digits_of s = Ok (map digit_value s).
Proof.
  unfold digits_of. induction s as [|c s IH]; [reflexivity|].
  cbn [forallb map map_result]. intros H.
  apply andb_true_iff in H as [Hc Hs].
  rewrite (int_of_str_digit _ Hc). cbn [rbind]. rewrite (IH Hs).
  reflexivity.
Qed.

(** [sum(digits_of(d * 2))] is the sum of the digits of the double. *)
Lemma digits_of_double (d : Z) :
  (0 <= d <= 9)%Z ->
  exists ds, digits_of (str_of_int (d * 2)) = Ok ds
             /\ sum ds = sum_of_digits (2 * d).
Proof.
  intros H.
  assert (Hd : (d = 0 \/ d = 1 \/ d = 2 \/ d = 3 \/ d = 4 \/ d = 5 \/ d = 6
                \/ d = 7 \/ d = 8 \/ d = 9)%Z) by lia.
  repeat (destruct Hd as [-> | Hd]); try subst d;
    eexists; (split; [vm_compute; reflexivity | reflexivity]).
Qed.

Lemma add_doubled_sum (even_digits : list Z) :
  Forall (fun d => 0 <= d <= 9)%Z even_digits ->
  forall checksum,
    add_doubled even_digits checksum = Ok (checksum + doubled_sum even_digits)%Z.
Proof.
  induction 1 as [|d rest Hd _ IH]; intros checksum; cbn [add_doubled doubled_sum].
  - now rewrite Z.add_0_r.
  - destruct (digits_of_double Hd) as (ds & -> & Hs). cbn [rbind].
    rewrite IH, Hs. f_equal. lia.
Qed.

Lemma sum_cons (d : Z) (l : list Z) : sum (d :: l) = (d + sum l)%Z.
Proof.
  unfold sum. cbn [fold_left].
  enough (H : forall l a b, fold_left Z.add l (a + b)%Z
                            = (a + fold_left Z.add l b)%Z)
    by (rewrite <- H; f_equal; lia).
  clear. induction l as [|x l IH]; intros a b; cbn [fold_left]; [reflexivity|].
  rewrite <- IH. f_equal. lia.
Qed.

(** C2: on every string [validatecreditcard] does what the specification
    says: the format error unless the string is exactly sixteen decimal
    digits; on sixteen digits, the string itself when the Luhn sum (every
    second digit from the right doubled, the digits of each double summed,
    everything added) is divisible by ten, and the separate Luhn error when
    it is not. *)
Theorem validatecreditcard_luhn (credit_card : pystr) :
  validatecreditcard credit_card = validatecreditcard_spec credit_card.
Proof.
  unfold validatecreditcard, validatecreditcard_spec.
  rewrite fullmatch_caret_exactly.
  destruct (all_of 16 ascii_digit credit_card) eqn:Hshape; [|reflexivity].
  cbn [negb].
  apply all_of_length in Hshape as [Hlen Hdigits].
  rewrite (digits_of_digits _ Hdigits). cbn [rbind].
  do 17 (destruct credit_card as [|? credit_card]; try discriminate Hlen).
  clear Hlen. cbn [forallb] in Hdigits.
  repeat match type of Hdigits with
         | (_ && _)%bool = true =>
             let H := fresh "Hc" in
             apply andb_true_iff in Hdigits as [H Hdigits];
             apply digit_value_range in H
         end.
  clear Hdigits. unfold luhn_sum. cbn [map rev app luhn_from_right negb].
  repeat match goal with
         | H : (0 <= digit_value ?c <= 9)%Z |- _ =>
             generalize dependent (digit_value c); intros
         end.
  match goal with
  | |- context [slice_step_minus2 (-1) ?l] =>
      let r := eval vm_compute in (slice_step_minus2 (-1) l) in
      change (slice_step_minus2 (-1) l) with r
  end.
  match goal with
  | |- context [slice_step_minus2 (-2) ?l] =>
      let r := eval vm_compute in (slice_step_minus2 (-2) l) in
      change (slice_step_minus2 (-2) l) with r
  end.
  rewrite add_doubled_sum
    by (repeat (apply Forall_cons; [assumption|]); apply Forall_nil).
  cbn [rbind doubled_sum]. rewrite !sum_cons. change (sum []) with 0%Z.
  match goal with
  | |- (if negb (?a mod 10 =? 0)%Z then _ else _)
       = (if (?b mod 10 =? 0)%Z then _ else _) =>
      replace a with b by lia
  end.
  now destruct (_ =? 0)%Z.
Qed.

(** ** Identity cards *)

Lemma fullmatch_id_card (s : pystr) :
  fullmatch
    (cats [Caret; exactly 8 (Cls ascii_digit); exactly 1 (Cls ascii_upper);
           Dollar]) s
  = id_card_shape s.
Proof.
  unfold fullmatch, id_card_shape. cbn [cats rmatch Nat.eqb andb].
  rewrite rmatch_exactly. cbn beta. rewrite rmatch_exactly. cbn beta.
  change (match skipn 1 (skipn 8 s) with [] => true | _ :: _ => false end)
    with (ends (skipn 1 (skipn 8 s))).
  rewrite dollar_ends. unfold ends. rewrite all_of_split.
  f_equal. unfold all_of. rewrite length_firstn. f_equal.
  destruct (8 <=? List.length s)%nat eqn:H.
  - apply Nat.leb_le in H. symmetry. apply Nat.eqb_eq. lia.
  - apply Nat.leb_gt in H. symmetry. apply Nat.eqb_neq. lia.
Qed.

Lemma letter_of_table (m : Z) :
  (0 <= m < 23)%Z ->
  letter_of dni_letter_dict (str_of_int m)
  = Ok [nth (Z.to_nat m) dni_table 0%N].
Proof.
  intros H.
  assert (Hm : exists k, m = Z.of_nat k /\ (k < 23)%nat).
  { exists (Z.to_nat m). lia. }
  destruct Hm as (k & -> & Hk). clear H.
  do 23 (destruct k as [|k]; [vm_compute; reflexivity|]).
  lia.
Qed.

(** C3: on every string [check_id_card] does what the specification says:
    the shape error unless the string is eight decimal digits followed by
    one uppercase letter; on a string of that shape, success when the letter
    is the entry of the table of 23 letters at the number modulo 23, and
    the separate letter error when it is not. *)
Theorem check_id_card_letter (id_card : pystr) :
  check_id_card id_card = check_id_card_spec id_card.
Proof.
  unfold check_id_card, check_id_card_spec.
  rewrite fullmatch_id_card.
  destruct (id_card_shape id_card) eqn:Hshape; [|reflexivity].
  cbn [negb]. unfold id_card_shape in Hshape.
  apply andb_true_iff in Hshape as [Hd Hu].
  apply all_of_length in Hd as [Hdl Hd], Hu as [Hul Hu].
  unfold validate_dni, int_of_str.
  rewrite Hdl, Hd. cbn [Nat.leb andb rbind].
  assert (Hm : (0 <= decimal_value (firstn 8 id_card) mod 23 < 23)%Z)
    by (apply Z.mod_pos_bound; lia).
  destruct (skipn 8 id_card) as [|c [|? ?]] eqn:Hs; try discriminate Hul.
  assert (Hn : nth_error id_card 8 = Some c).
  { rewrite <- (firstn_skipn 8 id_card) at 1. rewrite Hs.
    rewrite nth_error_app2 by (rewrite Hdl; lia).
    now rewrite Hdl. }
  rewrite Hn, (letter_of_table Hm). cbn [rbind].
  now destruct (pystr_eqb [c] _).
Qed.

(** ** Arrival dates *)

(** C8, on the code: the pattern asks for a hyphen before a day that
    starts with 3, so no date whose day is written 30 or 31 passes;
    ["30/01/2024"] and ["31/12/2024"] are refused with the format error,
    as is every string that starts with the digit 3. *)
Theorem validate_arrival_date_day_30 :
  validate_arrival_date (str "30/01/2024") = HME "Invalid date format"
  /\ validate_arrival_date (str "31/12/2024") = HME "Invalid date format"
  /\ forall rest : pystr,
       validate_arrival_date (str "3" ++ rest) = HME "Invalid date format".
Proof.
  split; [reflexivity|]. split; [reflexivity|].
  intros rest. reflexivity.
Qed.

(** What the pattern does accept with a two-digit day: days 00 to 29 and
    the hyphenated -30 and -31, months 00 to 12, a four-digit year. *)
Lemma validate_arrival_date_hyphen :
  validate_arrival_date (str "-30/01/2024") = Ok (str "-30/01/2024")
  /\ validate_arrival_date (str "29/12/2024") = Ok (str "29/12/2024")
  /\ validate_arrival_date (str "00/00/2024") = Ok (str "00/00/2024").
Proof. repeat split; reflexivity. Qed.

(** The attribute classes carry the patterns of the manager's validators,
    the arrival date's hyphen included. *)
Lemma attributes_as_validators (s : pystr) :
  ArrivalDate s = validate_arrival_date s
  /\ Localizer s = validate_localizer s
  /\ RoomKey s = validate_roomkey s
  /\ RoomType s = validate_room_type s.
Proof. repeat split. Qed.

(** Every date written with a day from 00 to 29, a month from 00 to 12 and
    a four-digit year passes. *)
Lemma validate_arrival_date_days_00_29 (d1 d2 m1 m2 y1 y2 y3 y4 : N) :
  in_range 48 50 d1 = true ->
  ascii_digit d2 = true ->
  ((m1 = 48%N /\ ascii_digit m2 = true)
   \/ (m1 = 49%N /\ in_range 48 50 m2 = true)) ->
  forallb ascii_digit [y1; y2; y3; y4] = true ->
  let arrival_date := [d1; d2; 47%N; m1; m2; 47%N; y1; y2; y3; y4] in
  validate_arrival_date arrival_date = Ok arrival_date.
Proof.
  intros Hd1 Hd2 Hm Hy arrival_date. subst arrival_date.
  cbn [forallb] in Hy.
  apply andb_true_iff in Hy as [Hy1 Hy].
  apply andb_true_iff in Hy as [Hy2 Hy].
  apply andb_true_iff in Hy as [Hy3 Hy].
  apply andb_true_iff in Hy as [Hy4 _].
  unfold validate_arrival_date, fullmatch, arrival_date_pattern.
  cbn [cats rmatch one_char chr Nat.eqb andb].
  unfold unicode_digit. rewrite Hd1, Hd2, Hy1, Hy2, Hy3, Hy4.
  destruct Hm as [[-> Hm2] | [-> Hm2]]; rewrite Hm2; reflexivity.
Qed.

(** ** Validators return their argument *)

Lemma validate_numdays_ok (num_days r : pyval) :
  validate_numdays num_days = Ok r <->
  r = num_days /\ exists days, py_int num_days = Ok days /\ (1 <= days <= 10)%Z.
Proof.
  unfold validate_numdays. split.
  - destruct (py_int num_days) as [days|e] eqn:Hint.
    + destruct ((days <? 1) || (days >? 10))%Z eqn:Hr; [discriminate|].
      intros [= <-]. split; [reflexivity|]. exists days. split; [reflexivity|].
      apply orb_false_iff in Hr as [H1 H2].
      apply Z.ltb_ge in H1. rewrite Z.gtb_ltb in H2. apply Z.ltb_ge in H2. lia.
    + destruct e; discriminate.
  - intros (-> & days & -> & Hd).
    replace ((days <? 1) || (days >? 10))%Z with false; [reflexivity|].
    symmetry. apply orb_false_iff. rewrite Z.gtb_ltb. split; apply Z.ltb_ge; lia.
Qed.

Ltac validator_identity :=
  let H := fresh in
  intros ? ? H;
  match type of H with
  | ?f ?s = Ok _ => unfold f in H
  end;
  repeat match type of H with
         | context [if ?c then _ else _] => destruct c; [discriminate H|]
         | context [rbind ?c _] => destruct c; cbn [rbind] in H; [|discriminate H]
         end;
  now injection H.

(** C10: a validator that accepts its argument returns that very value:
    the credit card, room type, arrival date, phone number and localizer
    strings, and for [validate_numdays] the value as it was given (the
    string ["3"] stays the string ["3"]) although it is the parsed integer
    that must lie between 1 and 10. *)
Theorem validators_return_argument :
  (forall s r, validatecreditcard s = Ok r -> r = s)
  /\ (forall s r, validate_room_type s = Ok r -> r = s)
  /\ (forall s r, validate_arrival_date s = Ok r -> r = s)
  /\ (forall s r, validate_phonenumber s = Ok r -> r = s)
  /\ (forall s r, validate_localizer s = Ok r -> r = s)
  /\ (forall v r, validate_numdays v = Ok r ->
        r = v /\ exists days, py_int v = Ok days /\ (1 <= days <= 10)%Z)
  /\ validate_numdays (PStr (str "3")) = Ok (PStr (str "3"))
  /\ validate_numdays (PInt 3) = Ok (PInt 3).
Proof.
  split; [|split; [|split; [|split; [|split; [|split; [|split]]]]]].
  - validator_identity.
  - validator_identity.
  - validator_identity.
  - validator_identity.
  - validator_identity.
  - intros v r H. now apply validate_numdays_ok.
  - reflexivity.
  - reflexivity.
Qed.

(** ** Effects on the stores *)

Lemma keeps_ret {A} (a : A) : keeps_fs (ret a).
Proof. intros w. reflexivity. Qed.

Lemma keeps_raise {A} (e : exn) : keeps_fs (@raise A e).
Proof. intros w. reflexivity. Qed.

Lemma keeps_raiseHME {A} (msg : string) : keeps_fs (@raiseHME A msg).
Proof. intros w. reflexivity. Qed.

Lemma keeps_lift {A} (r : result A) : keeps_fs (lift r).
Proof. intros w. reflexivity. Qed.

Lemma keeps_utcnow : keeps_fs utcnow.
Proof. intros w. reflexivity. Qed.

Lemma keeps_json_load (p : path) : keeps_fs (json_load p).
Proof.
  intros w. unfold json_load.
  now destruct (read_file p (fs w)) as [[|v| | |]|].
Qed.

Lemma keeps_bind {A B} (m : M A) (f : A -> M B) :
  keeps_fs m -> (forall a, keeps_fs (f a)) -> keeps_fs (bind m f).
Proof.
  intros Hm Hf w. unfold bind. specialize (Hm w).
  destruct (m w) as [[a|e] w1]; cbn [snd] in *; [|assumption].
  now rewrite Hf.
Qed.

Lemma keeps_try_except {A} (m : M A) (h : exn -> M A) :
  keeps_fs m -> (forall e, keeps_fs (h e)) -> keeps_fs (try_except m h).
Proof.
  intros Hm Hh w. unfold try_except. specialize (Hm w).
  destruct (m w) as [[a|e] w1]; cbn [snd] in *; [assumption|].
  now rewrite Hh.
Qed.

Lemma keeps_store_json_into_list (p : path) (msg : string) :
  keeps_fs (store_json_into_list p msg).
Proof.
  apply keeps_try_except; [apply keeps_json_load|].
  intros []; first [apply keeps_raiseHME | apply keeps_raise].
Qed.

Lemma keeps_store_data_into_list_if_file_exists (p : path) :
  keeps_fs (store_data_into_list_if_file_exists p).
Proof.
  apply keeps_try_except; [apply keeps_json_load|].
  intros []; first [apply keeps_raiseHME | apply keeps_raise | apply keeps_ret].
Qed.

Lemma keeps_check_equals_date (v : pyval) : keeps_fs (check_equals_date v).
Proof.
  unfold check_equals_date.
  apply keeps_bind; [apply keeps_lift|]. intros d.
  apply keeps_bind; [apply keeps_utcnow|]. intros now.
  destruct (negb _); [apply keeps_raiseHME | apply keeps_ret].
Qed.

Lemma keeps_check_data a c i n d p r : keeps_fs (check_data a c i n d p r).
Proof.
  unfold check_data. destruct (negb _); [apply keeps_raiseHME|].
  repeat (apply keeps_bind; [first [apply keeps_lift | apply keeps_utcnow]|];
          intros ?).
  apply keeps_ret.
Qed.

Lemma clean_keeps {A} (m : M A) : keeps_fs m -> clean m.
Proof. intros H w e w' E. specialize (H w). now rewrite E in H. Qed.

Lemma clean_bind {A B} (m : M A) (f : A -> M B) :
  keeps_fs m -> (forall a, clean (f a)) -> clean (bind m f).
Proof.
  intros Hm Hf w e w' E. unfold bind in E. specialize (Hm w).
  destruct (m w) as [[a|e1] w1]; cbn [snd] in *.
  - rewrite <- Hm. exact (Hf a w1 e w' E).
  - injection E as _ <-. assumption.
Qed.

Lemma clean_or_cut_clean {A} (s : store_name) (m : M A) :
  clean m -> clean_or_cut s m.
Proof. intros H w e w' E. left. exact (H w e w' E). Qed.

Lemma clean_or_cut_bind {A B} (s : store_name) (m : M A) (f : A -> M B) :
  keeps_fs m -> (forall a, clean_or_cut s (f a)) -> clean_or_cut s (bind m f).
Proof.
  intros Hm Hf w e w' E. unfold bind in E. specialize (Hm w).
  destruct (m w) as [[a|e1] w1]; cbn [snd] in *.
  - rewrite <- Hm. exact (Hf a w1 e w' E).
  - injection E as _ <-. now left.
Qed.

Lemma clean_from_clean {A} (P : FS -> Prop) (m : M A) :
  clean m -> clean_from P m.
Proof. intros H w e w' _ E. exact (H w e w' E). Qed.

(** After a step that keeps the files and returns a value with the
    property [R], the rest may rely on [R]. *)
Lemma clean_from_bind {A B} (P : FS -> Prop) (R : A -> Prop) (m : M A)
    (f : A -> M B) :
  keeps_fs m ->
  (forall w a w1, P (fs w) -> m w = (Ok a, w1) -> R a) ->
  (forall a, R a -> clean_from P (f a)) ->
  clean_from P (bind m f).
Proof.
  intros Hm HR Hf w e w' HP E. unfold bind in E.
  pose proof (Hm w) as Hk. pose proof (HR w) as HR'.
  destruct (m w) as [[a|e1] w1]; cbn [snd] in *.
  - rewrite <- Hk. apply (Hf a (HR' a w1 HP eq_refl) w1 e w'); [|exact E].
    now rewrite Hk.
  - injection E as _ <-. exact Hk.
Qed.

Lemma clean_from_step {A B} (P : FS -> Prop) (m : M A) (f : A -> M B) :
  keeps_fs m -> (forall a, clean_from P (f a)) -> clean_from P (bind m f).
Proof.
  intros Hm Hf.
  apply (@clean_from_bind A B P (fun _ => True) m f Hm); [trivial|].
  intros a _. apply Hf.
Qed.

(** The write: [open] fails and nothing is written; or the file is
    emptied and the document written, unless [json.dump] meets a value of
    another type and leaves a text that is no JSON document. *)
Lemma write_into_json_run (p : path) (v : pyval) (w : World) :
  write_into_json p v w
  = match write_file p (if json_value v then Json v else NotJson) (fs w) with
    | None => (HME "Wrong file  or file path", w)
    | Some f =>
        (if json_value v then Ok tt else Raise TypeError,
         {| fs := f; ticks := ticks w |})
    end.
Proof.
  unfold write_into_json, try_except, json_dump.
  destruct (json_value v);
    now destruct (write_file p _ (fs w)).
Qed.

Lemma write_file_store (s : store_name) (c : file) (f f' : FS) :
  write_file (store_path s) c f = Some f' -> f' = with_store s (Some c) f.
Proof.
  destruct s; cbn [store_path write_file with_store];
    destruct (json_dir f); congruence.
Qed.

Lemma clean_or_cut_write_only (s : store_name) (v : pyval) :
  clean_or_cut s (write_into_json (store_path s) v).
Proof.
  intros w e w'. rewrite write_into_json_run.
  destruct (json_value v).
  - destruct (write_file _ _ (fs w)); [discriminate|].
    intros [= _ <-]. now left.
  - destruct (write_file _ _ (fs w)) as [f'|] eqn:Hw.
    + intros [= <- <-]. right. split; [reflexivity|].
      exact (@write_file_store s NotJson (fs w) f' Hw).
    + intros [= _ <-]. now left.
Qed.

Lemma clean_or_cut_write {A} (s : store_name) (v : pyval) (a : A) :
  clean_or_cut s (bind (write_into_json (store_path s) v) (fun _ => ret a)).
Proof.
  intros w e w' E. unfold bind in E.
  destruct (write_into_json (store_path s) v w) as [[u|e1] w1] eqn:E1.
  - discriminate E.
  - injection E as <- <-. exact (@clean_or_cut_write_only s v w e1 w1 E1).
Qed.

Lemma clean_write_only (p : path) (v : pyval) :
  json_value v = true -> clean (write_into_json p v).
Proof.
  intros Hv w e w'. rewrite write_into_json_run, Hv.
  destruct (write_file p _ (fs w)); [discriminate|].
  now intros [= _ <-].
Qed.

Lemma clean_write_into_json {A} (p : path) (v : pyval) (a : A) :
  json_value v = true ->
  clean (bind (write_into_json p v) (fun _ => ret a)).
Proof.
  intros Hv w e w' E. unfold bind in E.
  destruct (write_into_json p v w) as [[u|e1] w1] eqn:E1.
  - discriminate E.
  - injection E as _ <-. exact (@clean_write_only p v Hv w e1 w1 E1).
Qed.

(** What the program appends to, and what it appends. *)
Lemma json_value_append (l x l' : pyval) :
  py_append l x = Ok l' ->
  json_value l = true -> json_value x = true -> json_value l' = true.
Proof.
  destruct l as [|b|z|f|s|items|d|o]; try discriminate.
  intros [= <-]. cbn [json_value]. rewrite forallb_app. cbn [forallb].
  intros -> ->. reflexivity.
Qed.

Lemma json_value_reservation_dict (justnow : datetime)
    (id_card credit_card name_surname phone_number room_type arrival : pystr)
    (num_days : pyval) :
  json_value
    (reservation_dict
       (new_HotelReservation justnow (PStr id_card) (PStr credit_card)
          (PStr name_surname) (PStr phone_number) (PStr room_type)
          (PStr arrival) num_days))
  = json_value num_days.
Proof.
  unfold reservation_dict, new_HotelReservation.
  cbn [json_value forallb snd r_credit_card_number r_id_card r_arrival
       r_reservation_date r_name_surname r_phone_number r_room_type
       r_num_days r_localizer andb].
  apply andb_true_r.
Qed.

Lemma dict_get_json (d : list (pystr * pyval)) (key : pystr) (x : pyval) :
  json_value (PDict d) = true -> dict_get d key = Some x ->
  json_value x = true.
Proof.
  cbn [json_value]. induction d as [|[k y] d IH]; [discriminate|].
  cbn [forallb dict_get snd]. intros H. apply andb_true_iff in H as [Hy Hd].
  destruct (pystr_eqb k key); [now intros [= <-]|]. now apply IH.
Qed.

Lemma py_getitem_json (v : pyval) (key : pystr) (x : pyval) :
  json_value v = true -> py_getitem v key = Ok x -> json_value x = true.
Proof.
  destruct v as [|b|z|f|s|items|d|o]; try discriminate.
  intros Hv. cbn [py_getitem].
  destruct (dict_get d key) as [y|] eqn:Hy; [|discriminate].
  intros [= <-]. exact (@dict_get_json d key y Hv Hy).
Qed.

Lemma py_iter_json (v : pyval) (items : list pyval) :
  json_value v = true -> py_iter v = Ok items ->
  forallb json_value items = true.
Proof.
  destruct v as [|b|z|f|s|l|d|o]; try discriminate.
  - intros _ [= <-]. now induction s as [|c s IH].
  - now intros H [= <-].
  - intros _ [= <-]. now induction d as [|kv d IH].
Qed.

Lemma read_json_store (s : store_name) (f : FS) (v : pyval) :
  json_store (store_of s f) ->
  read_file (store_path s) f = Some (Json v) -> json_value v = true.
Proof.
  intros H. destruct s; cbn [store_of store_path read_file] in *;
    destruct (json_dir f); try discriminate; apply H.
Qed.

Lemma load_or_empty_json_value (s : store_name) (w w1 : World) (v : pyval) :
  json_store (store_of s (fs w)) ->
  store_data_into_list_if_file_exists (store_path s) w = (Ok v, w1) ->
  json_value v = true.
Proof.
  intros H. unfold store_data_into_list_if_file_exists, try_except, json_load.
  destruct (read_file (store_path s) (fs w)) as [[|x| | |]|] eqn:Hr;
    try discriminate.
  - intros [= <- _]. exact (@read_json_store s (fs w) x H Hr).
  - now intros [= <- _].
Qed.

Lemma load_json_value (s : store_name) (msg : string) (w w1 : World)
    (v : pyval) :
  json_store (store_of s (fs w)) ->
  store_json_into_list (store_path s) msg w = (Ok v, w1) ->
  json_value v = true.
Proof.
  intros H. unfold store_json_into_list, try_except, json_load.
  destruct (read_file (store_path s) (fs w)) as [[|x| | |]|] eqn:Hr;
    try discriminate.
  intros [= <- _]. exact (@read_json_store s (fs w) x H Hr).
Qed.

Lemma check_data_json a c i n d p r (w w1 : World) (rsv : HotelReservation) :
  json_value d = true ->
  check_data a c i n d p r w = (Ok rsv, w1) ->
  json_value (reservation_dict rsv) = true.
Proof.
  intros Hd. unfold check_data. destruct (negb _); [discriminate|].
  unfold bind, lift, utcnow, ret.
  destruct (validatecreditcard c); [|discriminate].
  destruct (validate_arrival_date a); [|discriminate].
  destruct (validate_numdays d) as [d'|] eqn:Hnd; [|discriminate].
  apply validate_numdays_ok in Hnd as [-> _].
  destruct (validate_phonenumber p); [|discriminate].
  intros [= <- _]. now rewrite json_value_reservation_dict.
Qed.

(** The fields the loop of [create_new_reservation] ends with are values
    of the store. *)
Lemma read_reservation_json (item : pyval) (m : matched_reservation) :
  json_value item = true -> read_reservation item = Ok m ->
  json_value (reservation_room_type m) = true.
Proof.
  intros Hitem. unfold read_reservation.
  destruct (py_getitem item (str "_HotelReservation__num_days"));
    [|discriminate].
  cbn [rbind].
  destruct (py_getitem item (str "_HotelReservation__room_type")) as [rt|] eqn:Hrt;
    [|discriminate].
  cbn [rbind].
  repeat match goal with
         | |- context [rbind (py_getitem item ?k) _] =>
             destruct (py_getitem item k); [|discriminate]; cbn [rbind]
         end.
  intros [= <-]. exact (@py_getitem_json item _ rt Hitem Hrt).
Qed.

Lemma find_reservation_json (my_localizer : pystr) (items : list pyval) :
  forallb json_value items = true ->
  forall found m,
    (forall m0, found = Some m0 -> json_value (reservation_room_type m0) = true) ->
    find_reservation my_localizer items found = Ok (Some m) ->
    json_value (reservation_room_type m) = true.
Proof.
  induction items as [|item rest IH]; intros Hitems found m Hfound.
  - cbn. intros [= ->]. now apply Hfound.
  - cbn [forallb] in Hitems. apply andb_true_iff in Hitems as [Hitem Hrest].
    cbn [find_reservation].
    destruct (py_getitem item (str "_HotelReservation__localizer"));
      [|discriminate].
    cbn [rbind].
    destruct (py_eq (PStr my_localizer) a).
    + destruct (read_reservation item) as [m1|] eqn:Hm1; [|discriminate].
      cbn [rbind]. apply (IH Hrest).
      intros m0 [= <-]. exact (@read_reservation_json item m1 Hitem Hm1).
    + apply (IH Hrest). exact Hfound.
Qed.

Lemma create_new_reservation_json (my_id_card my_localizer : pystr)
    (store_list arrival days room_type : pyval) :
  json_value store_list = true ->
  create_new_reservation my_id_card my_localizer store_list
  = Ok (arrival, days, room_type) ->
  json_value room_type = true.
Proof.
  intros Hstore. unfold create_new_reservation.
  destruct (py_iter store_list) as [items|] eqn:Hiter; [|discriminate].
  cbn [rbind].
  destruct (find_reservation my_localizer items None) as [[m|]|] eqn:Hfind;
    try discriminate.
  cbn [rbind]. destruct (negb _); [discriminate|].
  destruct (generate_reservation _ _ _ _ _ _ _ _ _); [|discriminate].
  cbn [rbind]. intros [= _ _ <-].
  apply (@find_reservation_json my_localizer items
           (@py_iter_json store_list items Hstore Hiter) None m);
    [discriminate | exact Hfind].
Qed.

(** The three operations: an exception before the write leaves the files
    as they were; the write is the last effect. *)
Lemma cut_save_checkin_ret {A} (my_checkin : pystr * pyval) (a : A) :
  clean_or_cut CheckIns (bind (save_checkin my_checkin) (fun _ => ret a)).
Proof.
  intros w e w' E.
  assert (Hs : clean_or_cut CheckIns (save_checkin my_checkin)).
  { unfold save_checkin.
    apply clean_or_cut_bind; [apply keeps_store_data_into_list_if_file_exists|].
    intros l. apply clean_or_cut_bind; [apply keeps_lift|]. intros items.
    apply clean_or_cut_bind; [apply keeps_lift|]. intros _.
    apply clean_or_cut_bind; [apply keeps_lift|]. intros l'.
    apply (@clean_or_cut_write_only CheckIns). }
  unfold bind in E. destruct (save_checkin my_checkin w) as [[u|e1] w1] eqn:E1.
  - discriminate E.
  - injection E as <- <-. exact (Hs w e1 w1 E1).
Qed.

Lemma cut_room_reservation c n i p r a d :
  clean_or_cut Reservations (room_reservation c n i p r a d).
Proof.
  unfold room_reservation.
  apply clean_or_cut_bind; [apply keeps_lift|]. intros _.
  apply clean_or_cut_bind; [apply keeps_lift|]. intros room_type.
  apply clean_or_cut_bind; [apply keeps_check_data|]. intros my_reservation.
  apply clean_or_cut_bind; [apply keeps_store_data_into_list_if_file_exists|].
  intros data_list.
  apply clean_or_cut_bind; [apply keeps_lift|]. intros items.
  apply clean_or_cut_bind; [apply keeps_lift|]. intros _.
  apply clean_or_cut_bind; [apply keeps_lift|]. intros data_list'.
  apply (@clean_or_cut_write _ Reservations).
Qed.

Lemma cut_guest_arrival (file_input : pystr) :
  clean_or_cut CheckIns (guest_arrival file_input).
Proof.
  unfold guest_arrival.
  apply clean_or_cut_bind; [apply keeps_store_json_into_list|]. intros input_list.
  apply clean_or_cut_bind; [apply keeps_lift|]. intros [my_id_card my_localizer].
  apply clean_or_cut_bind; [apply keeps_store_json_into_list|]. intros store_list.
  apply clean_or_cut_bind; [apply keeps_lift|]. intros [[arr days] rtype].
  apply clean_or_cut_bind; [apply keeps_check_equals_date|]. intros _.
  apply clean_or_cut_bind; [apply keeps_lift|]. intros numdays.
  apply clean_or_cut_bind; [apply keeps_utcnow|]. intros justnow.
  apply clean_or_cut_bind; [apply keeps_lift|]. intros my_checkin.
  apply cut_save_checkin_ret.
Qed.

Lemma cut_checkout (room_key : pystr) :
  clean_or_cut CheckOuts (checkout room_key).
Proof.
  unfold checkout.
  apply clean_or_cut_bind; [apply keeps_lift|]. intros _.
  apply clean_or_cut_bind; [apply keeps_store_json_into_list|].
  intros room_key_list.
  apply clean_or_cut_bind; [apply keeps_lift|]. intros items.
  apply clean_or_cut_bind; [apply keeps_lift|]. intros [departure|];
    [|apply clean_or_cut_clean, clean_keeps, keeps_raiseHME].
  apply clean_or_cut_bind; [apply keeps_utcnow|]. intros now.
  apply clean_or_cut_bind; [apply keeps_lift|]. intros dep.
  destruct (negb _); [apply clean_or_cut_clean, clean_keeps, keeps_raiseHME|].
  apply clean_or_cut_bind; [apply keeps_store_data_into_list_if_file_exists|].
  intros out_list.
  apply clean_or_cut_bind; [apply keeps_lift|]. intros out_items.
  apply clean_or_cut_bind; [apply keeps_lift|]. intros _.
  apply clean_or_cut_bind; [apply keeps_utcnow|]. intros now2.
  apply clean_or_cut_bind; [apply keeps_lift|]. intros out_list'.
  apply (@clean_or_cut_write _ CheckOuts).
Qed.

Lemma cut_guest_checkout (room_key : pystr) :
  clean_or_cut CheckOuts (guest_checkout room_key).
Proof.
  intros w e w' H. unfold guest_checkout, bind in H.
  destruct (checkout room_key w) as [[b|e1] w1] eqn:E.
  - discriminate H.
  - injection H as <- <-. exact (@cut_checkout room_key w e1 w1 E).
Qed.

(** The same on values and stores [json.dump] writes: nothing is ever
    left half written. *)
Lemma clean_room_reservation c n i p r a d :
  json_value d = true ->
  clean_from (fun f => json_store (store_reservation f))
    (room_reservation c n i p r a d).
Proof.
  intros Hd. unfold room_reservation.
  apply clean_from_step; [apply keeps_lift|]. intros _.
  apply clean_from_step; [apply keeps_lift|]. intros room_type.
  apply (@clean_from_bind _ _ _
           (fun rsv => json_value (reservation_dict rsv) = true));
    [apply keeps_check_data | |].
  { intros w rsv w1 _ H.
    exact (@check_data_json a c i n d p room_type w w1 rsv Hd H). }
  intros my_reservation Hrsv.
  apply (@clean_from_bind _ _ _ (fun v => json_value v = true));
    [apply keeps_store_data_into_list_if_file_exists | |].
  { intros w v w1 HP H.
    exact (@load_or_empty_json_value Reservations w w1 v HP H). }
  intros data_list Hdata.
  apply clean_from_step; [apply keeps_lift|]. intros items.
  apply clean_from_step; [apply keeps_lift|]. intros _.
  apply (@clean_from_bind _ _ _ (fun v => json_value v = true));
    [apply keeps_lift | |].
  { intros w v w1 _ [= H _].
    exact (@json_value_append data_list _ v H Hdata Hrsv). }
  intros data_list' Hdata'.
  apply clean_from_clean. now apply clean_write_into_json.
Qed.

Lemma clean_save_checkin_ret {A} (my_checkin : pystr * pyval) (a : A) :
  json_value (snd my_checkin) = true ->
  clean_from (fun f => json_store (store_check_in f))
    (bind (save_checkin my_checkin) (fun _ => ret a)).
Proof.
  intros Hstay.
  assert (Hs : clean_from (fun f => json_store (store_check_in f))
                 (save_checkin my_checkin)).
  { unfold save_checkin.
    apply (@clean_from_bind _ _ _ (fun v => json_value v = true));
      [apply keeps_store_data_into_list_if_file_exists | |].
    { intros w v w1 HP H.
      exact (@load_or_empty_json_value CheckIns w w1 v HP H). }
    intros l Hl.
    apply clean_from_step; [apply keeps_lift|]. intros items.
    apply clean_from_step; [apply keeps_lift|]. intros _.
    apply (@clean_from_bind _ _ _ (fun v => json_value v = true));
      [apply keeps_lift | |].
    { intros w v w1 _ [= H _].
      exact (@json_value_append l _ v H Hl Hstay). }
    intros l' Hl'.
    apply clean_from_clean. now apply clean_write_only. }
  intros w e w' HP E. unfold bind in E.
  destruct (save_checkin my_checkin w) as [[u|e1] w1] eqn:E1.
  - discriminate E.
  - injection E as _ <-. exact (Hs w e1 w1 HP E1).
Qed.

Lemma clean_guest_arrival (file_input : pystr) :
  stays_json ->
  clean_from (fun f => json_store (store_reservation f)
                       /\ json_store (store_check_in f))
    (guest_arrival file_input).
Proof.
  intros Hstays. unfold guest_arrival.
  apply clean_from_step; [apply keeps_store_json_into_list|]. intros input_list.
  apply clean_from_step; [apply keeps_lift|]. intros [my_id_card my_localizer].
  apply (@clean_from_bind _ _ _ (fun v => json_value v = true));
    [apply keeps_store_json_into_list | |].
  { intros w v w1 [HP _] H.
    exact (@load_json_value Reservations _ w w1 v HP H). }
  intros store_list Hstore.
  apply (@clean_from_bind _ _ _
           (fun x => json_value (snd x) = true));
    [apply keeps_lift | |].
  { intros w [[arr days] rtype] w1 _ [= H _].
    exact (@create_new_reservation_json my_id_card my_localizer store_list
             arr days rtype Hstore H). }
  intros [[arr days] rtype] Hrtype. cbn [snd] in Hrtype.
  apply clean_from_step; [apply keeps_check_equals_date|]. intros _.
  apply clean_from_step; [apply keeps_lift|]. intros numdays.
  apply clean_from_step; [apply keeps_utcnow|]. intros justnow.
  apply (@clean_from_bind _ _ _ (fun c => json_value (snd c) = true));
    [apply keeps_lift | |].
  { intros w [key stay] w1 _ [= H _].
    exact (Hstays justnow my_id_card numdays my_localizer rtype key stay
             Hrtype H). }
  intros my_checkin Hstay.
  intros w e w' [_ HP] E.
  exact (@clean_save_checkin_ret _ my_checkin (fst my_checkin) Hstay w e w' HP E).
Qed.

Lemma clean_checkout (room_key : pystr) :
  clean_from (fun f => json_store (store_check_out f)) (checkout room_key).
Proof.
  unfold checkout.
  apply clean_from_step; [apply keeps_lift|]. intros _.
  apply clean_from_step; [apply keeps_store_json_into_list|].
  intros room_key_list.
  apply clean_from_step; [apply keeps_lift|]. intros items.
  apply clean_from_step; [apply keeps_lift|]. intros [departure|];
    [|apply clean_from_clean, clean_keeps, keeps_raiseHME].
  apply clean_from_step; [apply keeps_utcnow|]. intros now.
  apply clean_from_step; [apply keeps_lift|]. intros dep.
  destruct (negb _); [apply clean_from_clean, clean_keeps, keeps_raiseHME|].
  apply (@clean_from_bind _ _ _ (fun v => json_value v = true));
    [apply keeps_store_data_into_list_if_file_exists | |].
  { intros w v w1 HP H.
    exact (@load_or_empty_json_value CheckOuts w w1 v HP H). }
  intros out_list Hout.
  apply clean_from_step; [apply keeps_lift|]. intros out_items.
  apply clean_from_step; [apply keeps_lift|]. intros _.
  apply clean_from_step; [apply keeps_utcnow|]. intros now2.
  apply (@clean_from_bind _ _ _ (fun v => json_value v = true));
    [apply keeps_lift | |].
  { intros w v w1 _ [= H _].
    exact (@json_value_append out_list _ v H Hout eq_refl). }
  intros out_list' Hout'.
  apply clean_from_clean. now apply clean_write_into_json.
Qed.

Lemma clean_guest_checkout (room_key : pystr) :
  clean_from (fun f => json_store (store_check_out f))
    (guest_checkout room_key).
Proof.
  intros w e w' HP H. unfold guest_checkout, bind in H.
  destruct (checkout room_key w) as [[b|e1] w1] eqn:E.
  - discriminate H.
  - injection H as _ <-. exact (@clean_checkout room_key w e1 w1 HP E).
Qed.

(** C6, as the code has it: the write is the last effect of each
    operation, but it is not one step.  When [room_reservation],
    [guest_arrival] or [guest_checkout] ends with an exception, either the
    file system, hence each of the three stores, is what it was before the
    call, or the exception is the [TypeError] of [json.dump] and the store
    the operation writes is left as a text that is no JSON document, its
    records lost, everything else as it was.  The second case needs a value
    [json.dump] refuses: with a number of days it writes (an [int], a
    [str]), stores that hold JSON documents and stays made of the values
    they are given, an operation that raises has modified nothing. *)
Theorem error_leaves_stores_unchanged :
  (forall credit_card name_surname id_card phone_number room_type arrival_date
          num_days w e w',
      room_reservation credit_card name_surname id_card phone_number room_type
        arrival_date num_days w = (Raise e, w') ->
      (fs w' = fs w
       \/ (e = TypeError
           /\ fs w' = with_reservations (Some NotJson) (fs w)))
      /\ (json_value num_days = true ->
          json_store (store_reservation (fs w)) ->
          fs w' = fs w))
  /\ (forall file_input w e w',
        guest_arrival file_input w = (Raise e, w') ->
        (fs w' = fs w
         \/ (e = TypeError
             /\ fs w' = with_check_ins (Some NotJson) (fs w)))
        /\ (stays_json ->
            json_store (store_reservation (fs w)) ->
            json_store (store_check_in (fs w)) ->
            fs w' = fs w))
  /\ (forall room_key w e w',
        guest_checkout room_key w = (Raise e, w') ->
        (fs w' = fs w
         \/ (e = TypeError
             /\ fs w' = with_check_outs (Some NotJson) (fs w)))
        /\ (json_store (store_check_out (fs w)) -> fs w' = fs w)).
Proof.
  split; [|split].
  - intros c n i p r a d w e w' H. split.
    + exact (@cut_room_reservation c n i p r a d w e w' H).
    + intros Hd Hs. exact (@clean_room_reservation c n i p r a d Hd w e w' Hs H).
  - intros file_input w e w' H. split.
    + exact (@cut_guest_arrival file_input w e w' H).
    + intros Hstays Hr Hc.
      exact (@clean_guest_arrival file_input Hstays w e w' (conj Hr Hc) H).
  - intros room_key w e w' H. split.
    + exact (@cut_guest_checkout room_key w e w' H).
    + intros Hs. exact (@clean_guest_checkout room_key w e w' Hs H).
Qed.

(** ** Reservations are unique *)

Lemma py_eq_str (s : pystr) (v : pyval) : py_eq (PStr s) v = is_str s (Ok v).
Proof. now destruct v. Qed.

Lemma py_eq_str_r (s : pystr) (v : pyval) : py_eq v (PStr s) = is_str s (Ok v).
Proof.
  destruct v; try reflexivity. cbn.
  destruct (pystr_eqb s0 s) eqn:E.
  - apply pystr_eqb_eq in E as ->. now rewrite pystr_eqb_refl.
  - symmetry. apply pystr_eqb_neq. apply pystr_eqb_neq in E. congruence.
Qed.

Lemma is_str_true (s : pystr) (r : result pyval) :
  is_str s r = true <-> r = Ok (PStr s).
Proof.
  destruct r as [[]|]; cbn; split; try discriminate.
  - intros H. apply pystr_eqb_eq in H. now subst.
  - intros [= ->]. apply pystr_eqb_refl.
Qed.

Lemma check_not_stored_first (r : HotelReservation) (idc : pystr)
    (items : list pyval) :
  r_id_card r = PStr idc ->
  forallb keyed items = true ->
  check_not_stored r items
  = match first_duplicate (r_localizer r) idc items with
    | Some msg => HME msg
    | None => Ok tt
    end.
Proof.
  intros Hid. induction items as [|item rest IH]; [reflexivity|].
  cbn [forallb check_not_stored first_duplicate]. intros H.
  apply andb_true_iff in H as [Hk Hrest].
  unfold keyed in Hk. unfold duplicate, has_localizer, has_id_card.
  destruct (py_getitem item (str "_HotelReservation__localizer")) as [l|];
    [|discriminate].
  destruct (py_getitem item (str "_HotelReservation__id_card")) as [i|];
    [|discriminate].
  cbn [rbind]. rewrite Hid, !py_eq_str.
  destruct (is_str (r_localizer r) (Ok l)); [reflexivity|].
  destruct (is_str idc (Ok i)); [reflexivity|].
  now apply IH.
Qed.

Lemma check_not_stored_ok (r : HotelReservation) (idc : pystr)
    (items : list pyval) :
  r_id_card r = PStr idc ->
  check_not_stored r items = Ok tt ->
  forallb keyed items = true
  /\ forallb (fun item => negb (has_localizer (r_localizer r) item)) items = true
  /\ forallb (fun item => negb (has_id_card idc item)) items = true.
Proof.
  intros Hid. induction items as [|item rest IH]; [now cbn|].
  cbn [forallb check_not_stored]. unfold keyed, has_localizer, has_id_card in *.
  destruct (py_getitem item (str "_HotelReservation__localizer")) as [l|];
    [|discriminate].
  cbn [rbind]. rewrite Hid, py_eq_str.
  destruct (is_str (r_localizer r) (Ok l)); [discriminate|].
  destruct (py_getitem item (str "_HotelReservation__id_card")) as [i|];
    [|discriminate].
  cbn [rbind]. rewrite py_eq_str.
  destruct (is_str idc (Ok i)); [discriminate|].
  intros H. destruct (IH H) as (H1 & H2 & H3). rewrite H1, H2, H3.
  repeat split.
Qed.

Lemma first_duplicate_none (loc idc : pystr) (items : list pyval) :
  first_duplicate loc idc items = None <->
  existsb (fun item => has_localizer loc item || has_id_card idc item) items
  = false.
Proof.
  induction items as [|item rest IH]; [now cbn|].
  cbn [first_duplicate existsb]. unfold duplicate.
  destruct (has_localizer loc item); [now cbn|].
  destruct (has_id_card idc item); [now cbn|].
  exact IH.
Qed.

Lemma first_duplicate_message (loc idc : pystr) (items : list pyval) (msg : string) :
  first_duplicate loc idc items = Some msg ->
  msg = "Reservation already exists"%string
  \/ msg = "This ID card has another reservation"%string.
Proof.
  induction items as [|item rest IH]; [discriminate|].
  cbn [first_duplicate]. unfold duplicate.
  destruct (has_localizer loc item); [intros [= <-]; now left|].
  destruct (has_id_card idc item); [intros [= <-]; now right|].
  exact IH.
Qed.

Lemma not_in_map_str (key s : pystr) (items : list pyval) :
  forallb (fun item => negb (is_str s (py_getitem item key))) items = true ->
  ~ In (Ok (PStr s)) (map (fun item => py_getitem item key) items).
Proof.
  induction items as [|item rest IH]; [now cbn|].
  cbn [forallb map In]. intros H [E|E];
    apply andb_true_iff in H as [H1 H2].
  - rewrite E in H1. cbn in H1. now rewrite pystr_eqb_refl in H1.
  - now apply IH.
Qed.

Lemma NoDup_snoc {A} (l : list A) (a : A) :
  NoDup l -> ~ In a l -> NoDup (l ++ [a]).
Proof.
  induction l as [|x l IH]; intros Hl Ha; cbn.
  - constructor; [intros []|constructor].
  - inversion Hl as [|? ? Hx Hl']; subst. constructor.
    + rewrite in_app_iff. intros [H|[H|[]]]; [contradiction|].
      subst. apply Ha. now left.
    + apply IH; [assumption|]. intros H. apply Ha. now right.
Qed.

Lemma unique_keys_append (r : HotelReservation) (idc : pystr)
    (items : list pyval) :
  r_id_card r = PStr idc ->
  forallb (fun item => negb (has_localizer (r_localizer r) item)) items = true ->
  forallb (fun item => negb (has_id_card idc item)) items = true ->
  unique_keys items ->
  unique_keys (items ++ [reservation_dict r]).
Proof.
  intros Hid Hl Hi [U1 U2]. unfold unique_keys. rewrite !map_app.
  split; (apply NoDup_snoc; [assumption|]).
  - replace (py_getitem (reservation_dict r) (str "_HotelReservation__localizer"))
      with (@Ok pyval (PStr (r_localizer r))) by reflexivity.
    now apply not_in_map_str.
  - replace (py_getitem (reservation_dict r) (str "_HotelReservation__id_card"))
      with (@Ok pyval (r_id_card r)) by reflexivity.
    rewrite Hid. now apply not_in_map_str.
Qed.

(** ** A call that returns *)

Lemma validatecreditcard_id (s r : pystr) : validatecreditcard s = Ok r -> r = s.
Proof. revert s r. validator_identity. Qed.

Lemma validate_room_type_id (s r : pystr) : validate_room_type s = Ok r -> r = s.
Proof. revert s r. validator_identity. Qed.

Lemma validate_arrival_date_id (s r : pystr) :
  validate_arrival_date s = Ok r -> r = s.
Proof. revert s r. validator_identity. Qed.

Lemma validate_phonenumber_id (s r : pystr) :
  validate_phonenumber s = Ok r -> r = s.
Proof. revert s r. validator_identity. Qed.

Lemma validate_numdays_id (v r : pyval) : validate_numdays v = Ok r -> r = v.
Proof. intros H. now apply validate_numdays_ok in H. Qed.

(** [check_data] returns the reservation of the request, made at the one
    reading of the clock, and only for fields that pass. *)
Lemma check_data_returns
    (arrival_date credit_card id_card name_surname : pystr) (num_days : pyval)
    (phone_number room_type : pystr) (w w1 : World) (r : HotelReservation) :
  check_data arrival_date credit_card id_card name_surname num_days
    phone_number room_type w = (Ok r, w1) ->
  fullmatch name_surname_pattern name_surname = true
  /\ validatecreditcard credit_card = Ok credit_card
  /\ validate_arrival_date arrival_date = Ok arrival_date
  /\ validate_numdays num_days = Ok num_days
  /\ validate_phonenumber phone_number = Ok phone_number
  /\ r = reservation_of (clock (ticks w)) credit_card name_surname id_card
           phone_number room_type arrival_date num_days
  /\ w1 = tick w.
Proof.
  unfold check_data.
  destruct (fullmatch name_surname_pattern name_surname); [|discriminate].
  cbn [negb]. unfold bind, lift, utcnow, ret.
  destruct (validatecreditcard credit_card) as [cc|] eqn:Hcc; [|discriminate].
  destruct (validate_arrival_date arrival_date) as [ad|] eqn:Had;
    [|discriminate].
  destruct (validate_numdays num_days) as [nd|] eqn:Hnd; [|discriminate].
  destruct (validate_phonenumber phone_number) as [ph|] eqn:Hph;
    [|discriminate].
  apply validatecreditcard_id in Hcc as Ecc.
  apply validate_arrival_date_id in Had as Ead.
  apply validate_numdays_id in Hnd as End'.
  apply validate_phonenumber_id in Hph as Eph. subst cc ad nd ph.
  intros [= <- <-]. repeat split.
Qed.

(** What a call of [room_reservation] that returns has done. *)
Lemma room_reservation_inv
    (credit_card name_surname id_card phone_number room_type arrival_date : pystr)
    (num_days : pyval) (w w' : World) (localizer : pystr) :
  room_reservation credit_card name_surname id_card phone_number room_type
    arrival_date num_days w = (Ok localizer, w') ->
  let r := reservation_of (clock (ticks w)) credit_card name_surname id_card
             phone_number room_type arrival_date num_days in
  valid_request credit_card name_surname id_card phone_number room_type
    arrival_date num_days
  /\ localizer = r_localizer r
  /\ json_dir (fs w) = true
  /\ exists items,
       records_of (store_reservation (fs w)) = Some items
       /\ check_not_stored r items = Ok tt
       /\ w' = {| fs := with_reservations
                          (Some (Json (PList (items ++ [reservation_dict r]))))
                          (fs w);
                  ticks := S (ticks w) |}.
Proof.
  unfold room_reservation.
  unfold bind at 1. unfold lift at 1.
  destruct (check_id_card id_card) as [[]|] eqn:Hid; [|discriminate].
  unfold bind at 1. unfold lift at 1.
  destruct (validate_room_type room_type) as [room_type'|] eqn:Hrt;
    [|discriminate].
  apply validate_room_type_id in Hrt as E. subst room_type'.
  unfold bind at 1.
  destruct (check_data arrival_date credit_card id_card name_surname num_days
              phone_number room_type w) as [[r|] w1] eqn:Hdata; [|discriminate].
  apply check_data_returns in Hdata
    as (Hname & Hcc & Harr & Hnd & Hph & -> & ->).
  set (r := reservation_of _ _ _ _ _ _ _ _).
  unfold bind at 1.
  unfold store_data_into_list_if_file_exists, try_except, json_load.
  cbn [read_file tick fs].
  destruct (json_dir (fs w)) eqn:Hdir.
  - destruct (store_reservation (fs w)) as [[|v| | |]|] eqn:Hstore;
      try discriminate.
    + unfold bind at 1. unfold lift at 1.
      destruct (py_iter v) as [its|] eqn:Hiter; [|discriminate].
      unfold bind at 1. unfold lift at 1.
      destruct (check_not_stored r its) as [[]|] eqn:Hcheck; [|discriminate].
      unfold bind at 1. unfold lift at 1.
      destruct v as [|b|z|f|s|items|d|o]; try discriminate.
      injection Hiter as <-. cbn [py_append].
      unfold bind at 1. rewrite write_into_json_run.
      cbn [write_file fs tick]. rewrite Hdir. unfold ret.
      destruct (json_value (PList (items ++ [reservation_dict r])));
        [|discriminate].
      intros [= <- <-]. repeat split; try assumption.
      exists items. now repeat split.
    + unfold bind, lift, ret. cbn [py_iter check_not_stored py_append].
      rewrite write_into_json_run.
      cbn [write_file fs tick]. rewrite Hdir.
      destruct (json_value (PList ([] ++ [reservation_dict r])));
        [|discriminate].
      intros [= <- <-]. repeat split; try assumption.
      exists []. now repeat split.
  - unfold bind, lift, ret. cbn [py_iter check_not_stored py_append].
    rewrite write_into_json_run.
    cbn [write_file fs tick]. rewrite Hdir.
    now destruct (json_value (PList ([] ++ [reservation_dict r]))).
Qed.


Lemma room_reservation_valid
    (credit_card name_surname id_card phone_number room_type arrival_date : pystr)
    (num_days : pyval) (w : World) :
  valid_request credit_card name_surname id_card phone_number room_type
    arrival_date num_days ->
  let r := reservation_of (clock (ticks w)) credit_card name_surname id_card
             phone_number room_type arrival_date num_days in
  room_reservation credit_card name_surname id_card phone_number room_type
    arrival_date num_days w
  = (data_list <- store_data_into_list_if_file_exists StoreReservation ;;
     items <- lift (py_iter data_list) ;;
     lift (check_not_stored r items) ;;;
     data_list <- lift (py_append data_list (reservation_dict r)) ;;
     write_into_json StoreReservation data_list ;;;
     ret (r_localizer r))%world (tick w).
Proof.
  intros (Hid & Hrt & Hname & Hcc & Harr & Hnd & Hph) r.
  unfold room_reservation, check_data.
  unfold bind at 1. unfold lift at 1. rewrite Hid.
  unfold bind at 1. unfold lift at 1. rewrite Hrt.
  unfold bind at 1. rewrite Hname. cbn [negb].
  unfold bind at 1. unfold lift at 1. rewrite Hcc.
  unfold bind at 1. unfold lift at 1. rewrite Harr.
  unfold bind at 1. unfold lift at 1. rewrite Hnd.
  unfold bind at 1. unfold lift at 1. rewrite Hph.
  unfold bind at 1. unfold utcnow at 1. unfold ret at 1.
  reflexivity.
Qed.

(** The three ways a store file can be found. *)
Lemma load_or_empty_absent (p : path) (w : World) :
  read_file p (fs w) = None ->
  store_data_into_list_if_file_exists p w = (Ok (PList []), w).
Proof.
  intros H. unfold store_data_into_list_if_file_exists, try_except, json_load.
  now rewrite H.
Qed.

Lemma load_or_empty_json (p : path) (v : pyval) (w : World) :
  read_file p (fs w) = Some (Json v) ->
  store_data_into_list_if_file_exists p w = (Ok v, w).
Proof.
  intros H. unfold store_data_into_list_if_file_exists, try_except, json_load.
  now rewrite H.
Qed.

Lemma load_or_empty_malformed (p : path) (w : World) :
  read_file p (fs w) = Some NotJson ->
  store_data_into_list_if_file_exists p w
  = (HME "JSON Decode Error - Wrong JSON Format", w).
Proof.
  intros H. unfold store_data_into_list_if_file_exists, try_except, json_load.
  now rewrite H.
Qed.

Lemma load_absent (p : path) (msg : string) (w : World) :
  read_file p (fs w) = None ->
  store_json_into_list p msg w = (HME msg, w).
Proof.
  intros H. unfold store_json_into_list, try_except, json_load.
  now rewrite H.
Qed.

Lemma load_json (p : path) (msg : string) (v : pyval) (w : World) :
  read_file p (fs w) = Some (Json v) ->
  store_json_into_list p msg w = (Ok v, w).
Proof.
  intros H. unfold store_json_into_list, try_except, json_load.
  now rewrite H.
Qed.

Lemma load_malformed (p : path) (msg : string) (w : World) :
  read_file p (fs w) = Some NotJson ->
  store_json_into_list p msg w
  = (HME "JSON Decode Error - Wrong JSON Format", w).
Proof.
  intros H. unfold store_json_into_list, try_except, json_load.
  now rewrite H.
Qed.

Lemma load_uncaught (p : path) (msg : string) (c : file) (e : exn) (w : World) :
  read_file p (fs w) = Some c ->
  uncaught c = Some e ->
  store_json_into_list p msg w = (Raise e, w).
Proof.
  intros H Hc. unfold store_json_into_list, try_except, json_load.
  rewrite H. destruct c; try discriminate; now injection Hc as <-.
Qed.

Lemma load_or_empty_uncaught (p : path) (c : file) (e : exn) (w : World) :
  read_file p (fs w) = Some c ->
  uncaught c = Some e ->
  store_data_into_list_if_file_exists p w = (Raise e, w).
Proof.
  intros H Hc. unfold store_data_into_list_if_file_exists, try_except, json_load.
  rewrite H. destruct c; try discriminate; now injection Hc as <-.
Qed.

Lemma load_or_empty_records (w : World) (items : list pyval) :
  json_dir (fs w) = true ->
  records_of (store_reservation (fs w)) = Some items ->
  store_data_into_list_if_file_exists StoreReservation w = (Ok (PList items), w).
Proof.
  intros Hdir Hrec.
  destruct (store_reservation (fs w)) as [[|[]| | |]|] eqn:Hs;
    try discriminate; injection Hrec as <-.
  - apply load_or_empty_json. cbn. now rewrite Hdir.
  - apply load_or_empty_absent. cbn. now rewrite Hdir.
Qed.

Lemma write_reservations (w : World) (v : pyval) :
  json_dir (fs w) = true ->
  write_into_json StoreReservation v w
  = if json_value v
    then (Ok tt, {| fs := with_reservations (Some (Json v)) (fs w);
                    ticks := ticks w |})
    else (Raise TypeError,
          {| fs := with_reservations (Some NotJson) (fs w);
             ticks := ticks w |}).
Proof.
  intros Hdir. rewrite write_into_json_run.
  cbn [write_file]. rewrite Hdir. now destruct (json_value v).
Qed.

Lemma json_value_snoc (items : list pyval) (x : pyval) :
  json_value (PList (items ++ [x])) = forallb json_value items && json_value x.
Proof.
  cbn [json_value]. rewrite forallb_app. cbn [forallb].
  now rewrite andb_true_r.
Qed.

(** C5, as the code has it: [room_reservation] keeps localizers and id
    cards unique.  For a valid request and a reservation store holding the
    records [items] (every record in it, checked in or not): when some
    record has the new reservation's localizer or id card the call raises
    the duplicate error of the first such record, 'Reservation already
    exists' or 'This ID card has another reservation', and writes nothing;
    otherwise, the stored records and the number of days being values
    [json.dump] writes, it appends exactly one record, the new reservation,
    and returns its localizer.  A number of days of another type that
    passes the validation is not stored: [json.dump] raises [TypeError] and
    leaves the store a text that is no JSON document.  Whatever the call, a
    store whose localizers and id cards are pairwise distinct stays so. *)
Theorem room_reservation_unique
    (credit_card name_surname id_card phone_number room_type arrival_date : pystr)
    (num_days : pyval) (w : World) :
  (forall items,
      valid_request credit_card name_surname id_card phone_number room_type
        arrival_date num_days ->
      json_dir (fs w) = true ->
      records_of (store_reservation (fs w)) = Some items ->
      forallb keyed items = true ->
      let r := reservation_of (clock (ticks w)) credit_card name_surname id_card
                 phone_number room_type arrival_date num_days in
      (first_duplicate (r_localizer r) id_card items = None <->
       existsb (fun item => has_localizer (r_localizer r) item
                            || has_id_card id_card item) items = false)
      /\ match first_duplicate (r_localizer r) id_card items with
         | Some msg =>
             (msg = "Reservation already exists"%string
              \/ msg = "This ID card has another reservation"%string)
             /\ room_reservation credit_card name_surname id_card phone_number
                  room_type arrival_date num_days w
                = (Raise (HotelManagementException msg), tick w)
         | None =>
             room_reservation credit_card name_surname id_card phone_number
               room_type arrival_date num_days w
             = if forallb json_value items && json_value num_days
               then
                 (Ok (r_localizer r),
                  {| fs := with_reservations
                             (Some (Json (PList (items ++ [reservation_dict r]))))
                             (fs w);
                     ticks := S (ticks w) |})
               else
                 (Raise TypeError,
                  {| fs := with_reservations (Some NotJson) (fs w);
                     ticks := S (ticks w) |})
         end)
  /\ (forall res w',
        room_reservation credit_card name_surname id_card phone_number
          room_type arrival_date num_days w = (res, w') ->
        unique_store (fs w) -> unique_store (fs w')).
Proof.
  split.
  - intros items Hvalid Hdir Hrec Hkeyed r.
    split; [apply first_duplicate_none|].
    assert (Hrun :
      room_reservation credit_card name_surname id_card phone_number room_type
        arrival_date num_days w
      = match first_duplicate (r_localizer r) id_card items with
        | Some msg => (Raise (HotelManagementException msg), tick w)
        | None =>
            if forallb json_value items && json_value num_days
            then
              (Ok (r_localizer r),
               {| fs := with_reservations
                          (Some (Json (PList (items ++ [reservation_dict r]))))
                          (fs w);
                  ticks := S (ticks w) |})
            else
              (Raise TypeError,
               {| fs := with_reservations (Some NotJson) (fs w);
                  ticks := S (ticks w) |})
        end).
    { rewrite (room_reservation_valid w Hvalid). fold r.
      unfold bind at 1.
      rewrite (@load_or_empty_records (tick w) items Hdir Hrec).
      unfold bind at 1. unfold lift at 1. cbn [py_iter].
      unfold bind at 1. unfold lift at 1.
      rewrite (@check_not_stored_first r id_card items eq_refl Hkeyed).
      destruct (first_duplicate (r_localizer r) id_card items) as [msg|];
        [reflexivity|].
      unfold bind at 1. unfold lift at 1. cbn [py_append].
      unfold bind at 1. rewrite write_reservations by exact Hdir.
      rewrite json_value_snoc. unfold r at 1, reservation_of.
      rewrite json_value_reservation_dict.
      now destruct (forallb json_value items && json_value num_days). }
    rewrite Hrun.
    destruct (first_duplicate (r_localizer r) id_card items) as [msg|] eqn:Hdup;
      [|reflexivity].
    split; [now apply first_duplicate_message in Hdup | reflexivity].
  - intros res w' Hrun Huniq.
    destruct res as [loc|e].
    + apply room_reservation_inv in Hrun
        as (_ & _ & _ & items & Hrec & Hcheck & ->).
      set (r := reservation_of _ _ _ _ _ _ _ _) in *.
      destruct (@check_not_stored_ok r id_card items eq_refl Hcheck)
        as (_ & Hl & Hi).
      intros items' Hrec'. cbn in Hrec'. injection Hrec' as <-.
      apply (@unique_keys_append r id_card items eq_refl Hl Hi).
      now apply Huniq.
    + destruct (@cut_room_reservation credit_card name_surname id_card
                  phone_number room_type arrival_date num_days w e w' Hrun)
        as [Hfs|[_ Hfs]]; rewrite Hfs; [assumption|].
      intros items' Hrec. discriminate Hrec.
Qed.

(** ** Looking a record up *)

Lemma find_app {A} (p : A -> bool) (l1 l2 : list A) :
  find p (l1 ++ l2)
  = match find p l1 with
    | Some a => Some a
    | None => find p l2
    end.
Proof.
  induction l1 as [|a l1 IH]; [reflexivity|]. cbn.
  now destruct (p a).
Qed.

(** The loop of [create_new_reservation] ends with the fields of the last
    record stored under the localizer. *)
Lemma find_reservation_last (my_localizer : pystr) (items : list pyval) :
  forallb is_reservation_record items = true ->
  forall found,
    find_reservation my_localizer items found
    = Ok match last_such (has_localizer my_localizer) items with
         | Some item =>
             match read_reservation item with
             | Ok m => Some m
             | Raise _ => None
             end
         | None => found
         end.
Proof.
  unfold last_such.
  induction items as [|item rest IH]; intros Hrec found; [reflexivity|].
  cbn [forallb] in Hrec. apply andb_true_iff in Hrec as [Hitem Hrest].
  cbn [find_reservation rev]. rewrite find_app. cbn [find].
  unfold is_reservation_record in Hitem. unfold has_localizer at 2.
  destruct (py_getitem item (str "_HotelReservation__localizer")) as [v|];
    [|discriminate].
  destruct (read_reservation item) as [m|] eqn:Hm; [|discriminate].
  cbn [rbind]. rewrite py_eq_str.
  destruct (is_str my_localizer (Ok v)).
  - cbn [rbind]. rewrite (IH Hrest).
    destruct (find (has_localizer my_localizer) (rev rest)); [reflexivity|].
    now rewrite Hm.
  - rewrite (IH Hrest).
    now destruct (find (has_localizer my_localizer) (rev rest)).
Qed.

(** The first loop of [checkout] ends with the departure of the last stay
    stored under the room key. *)
Lemma find_departure_last (room_key : pystr) (items : list pyval) :
  forallb is_stay_record items = true ->
  forall found,
    find_departure room_key items found
    = Ok match last_such (has_room_key room_key) items with
         | Some item =>
             match py_getitem item (str "_HotelStay__departure") with
             | Ok d => Some d
             | Raise _ => None
             end
         | None => found
         end.
Proof.
  unfold last_such.
  induction items as [|item rest IH]; intros Hrec found; [reflexivity|].
  cbn [forallb] in Hrec. apply andb_true_iff in Hrec as [Hitem Hrest].
  cbn [find_departure rev]. rewrite find_app. cbn [find].
  unfold is_stay_record in Hitem. unfold has_room_key at 2.
  destruct (py_getitem item (str "_HotelStay__room_key")) as [v|];
    [|discriminate].
  destruct (py_getitem item (str "_HotelStay__departure")) as [d|] eqn:Hd;
    [|discriminate].
  cbn [rbind]. rewrite py_eq_str.
  destruct (is_str room_key (Ok v)).
  - cbn [rbind]. rewrite (IH Hrest).
    destruct (find (has_room_key room_key) (rev rest)); [reflexivity|].
    now rewrite Hd.
  - rewrite (IH Hrest).
    now destruct (find (has_room_key room_key) (rev rest)).
Qed.

(** The fields the loop takes from a record are the values stored in it. *)
Lemma read_reservation_stored (item : pyval) (m : matched_reservation) :
  read_reservation item = Ok m <-> stored_fields item m.
Proof.
  unfold read_reservation, stored_fields. split.
  - destruct (py_getitem item (str "_HotelReservation__num_days"));
      [|discriminate]. cbn [rbind].
    destruct (py_getitem item (str "_HotelReservation__room_type"));
      [|discriminate]. cbn [rbind].
    destruct (py_getitem item (str "_HotelReservation__reservation_date"));
      [|discriminate]. cbn [rbind].
    destruct (py_getitem item (str "_HotelReservation__credit_card_number"));
      [|discriminate]. cbn [rbind].
    destruct (py_getitem item (str "_HotelReservation__arrival"));
      [|discriminate]. cbn [rbind].
    destruct (py_getitem item (str "_HotelReservation__name_surname"));
      [|discriminate]. cbn [rbind].
    destruct (py_getitem item (str "_HotelReservation__phone_number"));
      [|discriminate]. cbn [rbind].
    destruct (py_getitem item (str "_HotelReservation__id_card"));
      [|discriminate]. cbn [rbind].
    intros [= <-]. cbn. now repeat split.
  - intros (H1 & H2 & H3 & H4 & H5 & H6 & H7 & H8).
    rewrite H1, H2, H3, H4, H5, H6, H7, H8. cbn [rbind].
    now destruct m.
Qed.

(** [guest_arrival] up to the lookup, and [checkout] up to its own. *)
Lemma guest_arrival_lookup (file_input : pystr) (w : World)
    (input_list : pyval) (my_id_card my_localizer : pystr)
    (items : list pyval) (found : option matched_reservation) :
  input_files (fs w) file_input = Some (Json input_list) ->
  get_and_validate_json input_list = Ok (my_id_card, my_localizer) ->
  read_file StoreReservation (fs w) = Some (Json (PList items)) ->
  find_reservation my_localizer items None = Ok found ->
  guest_arrival file_input w
  = match found with
    | Some m => arrival_checks my_id_card my_localizer m w
    | None => (HME "Error: localizer not found", w)
    end.
Proof.
  intros Hin Hval Hstore Hfind. unfold guest_arrival.
  unfold bind at 1.
  rewrite (@load_json (InputFile file_input) _ input_list w Hin).
  unfold bind at 1. unfold lift at 1. rewrite Hval.
  unfold bind at 1.
  rewrite (@load_json StoreReservation _ (PList items) w Hstore).
  unfold bind at 1. unfold lift at 1.
  unfold create_new_reservation. cbn [py_iter rbind]. rewrite Hfind.
  cbn [rbind]. destruct found as [m|]; [|reflexivity].
  unfold arrival_checks, integrity_check.
  destruct (negb (py_eq (PStr my_id_card) (reservation_id_card m)));
    [reflexivity|].
  unfold bind at 3. unfold lift at 3.
  destruct (generate_reservation _ _ _ _ _ _ _ _ _) as [[]|]; reflexivity.
Qed.

Lemma checkout_lookup (room_key : pystr) (w : World) (items : list pyval)
    (found : option pyval) :
  validate_roomkey room_key = Ok room_key ->
  read_file StoreCheckIn (fs w) = Some (Json (PList items)) ->
  find_departure room_key items None = Ok found ->
  guest_checkout room_key w
  = match found with
    | Some departure => checkout_checks room_key departure w
    | None => (HME "Error: room key not found", w)
    end.
Proof.
  intros Hval Hstore Hfind. unfold guest_checkout, checkout.
  unfold bind at 1. unfold bind at 1. unfold lift at 1. rewrite Hval.
  unfold bind at 1.
  rewrite (@load_json StoreCheckIn _ (PList items) w Hstore).
  unfold bind at 1. unfold lift at 1. cbn [py_iter].
  unfold bind at 1. unfold lift at 1. rewrite Hfind.
  destruct found as [departure|]; [|reflexivity].
  unfold checkout_checks, checkout_of_stay.
  match goal with |- _ = ?x => destruct x as [[b|e] w1] end; reflexivity.
Qed.

(** ** The last match wins *)

Lemma last_such_found (p : pyval -> bool) (items : list pyval) (item : pyval) :
  last_such p items = Some item -> In item items /\ p item = true.
Proof.
  unfold last_such. intros H. apply find_some in H as [H1 H2].
  split; [now apply in_rev|assumption].
Qed.

Lemma last_such_last (p : pyval -> bool) (before after : list pyval)
    (item : pyval) :
  p item = true ->
  forallb (fun x => negb (p x)) after = true ->
  last_such p (before ++ item :: after) = Some item.
Proof.
  intros Hp Hafter. unfold last_such.
  rewrite rev_app_distr. cbn [rev]. rewrite <- app_assoc, find_app.
  assert (Hnone : find p (rev after) = None).
  { destruct (find p (rev after)) as [x|] eqn:Hf; [|reflexivity].
    apply find_some in Hf as [Hin Hx]. apply in_rev in Hin.
    rewrite forallb_forall in Hafter. specialize (Hafter x Hin).
    now rewrite Hx in Hafter. }
  rewrite Hnone. cbn. now rewrite Hp.
Qed.

Lemma forallb_In {A} (p : A -> bool) (l : list A) (a : A) :
  forallb p l = true -> In a l -> p a = true.
Proof. intros H. now apply forallb_forall. Qed.

(** C7: when several stored records match the key, the last one in the
    sequence is the one used.  [guest_arrival] goes on with the eight
    values the last reservation stored under the localizer holds under the
    keys of its fields, and fails with 'Error: localizer not found' when
    there is none; [guest_checkout] goes on with the departure the last
    stay stored under the room key holds, and fails with 'Error: room key
    not found' when there is none.  The last record that matches is the
    one no later record of the sequence matches. *)
Theorem last_match_wins :
  (forall file_input w input_list my_id_card my_localizer items,
      input_files (fs w) file_input = Some (Json input_list) ->
      get_and_validate_json input_list = Ok (my_id_card, my_localizer) ->
      read_file StoreReservation (fs w) = Some (Json (PList items)) ->
      forallb is_reservation_record items = true ->
      match last_such (has_localizer my_localizer) items with
      | Some item =>
          exists m,
            stored_fields item m
            /\ guest_arrival file_input w
               = arrival_checks my_id_card my_localizer m w
      | None =>
          guest_arrival file_input w = (HME "Error: localizer not found", w)
      end)
  /\ (forall room_key w items,
        validate_roomkey room_key = Ok room_key ->
        read_file StoreCheckIn (fs w) = Some (Json (PList items)) ->
        forallb is_stay_record items = true ->
        match last_such (has_room_key room_key) items with
        | Some item =>
            exists departure,
              py_getitem item (str "_HotelStay__departure") = Ok departure
              /\ guest_checkout room_key w
                 = checkout_checks room_key departure w
        | None =>
            guest_checkout room_key w = (HME "Error: room key not found", w)
        end)
  /\ (forall (p : pyval -> bool) before item after,
        p item = true ->
        forallb (fun x => negb (p x)) after = true ->
        last_such p (before ++ item :: after) = Some item).
Proof.
  split; [|split].
  - intros file_input w input_list my_id_card my_localizer items
      Hin Hval Hstore Hrec.
    pose proof (find_reservation_last my_localizer items Hrec None) as Hfind.
    destruct (last_such (has_localizer my_localizer) items) as [item|] eqn:Hlast.
    + apply last_such_found in Hlast as [Hitem _].
      pose proof (forallb_In _ _ _ Hrec Hitem) as Hr.
      unfold is_reservation_record in Hr.
      destruct (py_getitem item (str "_HotelReservation__localizer"));
        [|discriminate].
      destruct (read_reservation item) as [m|] eqn:Hm; [|discriminate].
      exists m. split; [now apply read_reservation_stored|].
      exact (guest_arrival_lookup _ _ Hin Hval Hstore Hfind).
    + exact (guest_arrival_lookup _ _ Hin Hval Hstore Hfind).
  - intros room_key w items Hval Hstore Hrec.
    pose proof (find_departure_last room_key items Hrec None) as Hfind.
    destruct (last_such (has_room_key room_key) items) as [item|] eqn:Hlast.
    + apply last_such_found in Hlast as [Hitem _].
      pose proof (forallb_In _ _ _ Hrec Hitem) as Hr.
      unfold is_stay_record in Hr.
      destruct (py_getitem item (str "_HotelStay__room_key")); [|discriminate].
      destruct (py_getitem item (str "_HotelStay__departure")) as [d|];
        [|discriminate].
      exists d. split; [reflexivity|].
      exact (checkout_lookup _ Hval Hstore Hfind).
    + exact (checkout_lookup _ Hval Hstore Hfind).
  - intros. now apply last_such_last.
Qed.

(** ** Integrity *)

Lemma integrity_check_recomputed (my_localizer : pystr) (m : matched_reservation)
    (reservation_date : datetime) :
  fromtimestamp (reservation_date_timestamp m) = Ok reservation_date ->
  integrity_check my_localizer m
  = if pystr_eqb (r_localizer (recomputed reservation_date m)) my_localizer
    then Ok tt
    else HME "Error: reservation has been manipulated".
Proof.
  intros Hts. unfold integrity_check, generate_reservation.
  rewrite Hts. cbn [rbind]. fold (recomputed reservation_date m).
  now destruct (pystr_eqb _ _).
Qed.

(** What [guest_arrival] does with the record its lookup ends on. *)
Lemma guest_arrival_found (file_input : pystr) (w : World)
    (input_list : pyval) (my_id_card my_localizer : pystr)
    (items : list pyval) (item : pyval) (m : matched_reservation) :
  input_files (fs w) file_input = Some (Json input_list) ->
  get_and_validate_json input_list = Ok (my_id_card, my_localizer) ->
  read_file StoreReservation (fs w) = Some (Json (PList items)) ->
  forallb is_reservation_record items = true ->
  last_such (has_localizer my_localizer) items = Some item ->
  read_reservation item = Ok m ->
  guest_arrival file_input w = arrival_checks my_id_card my_localizer m w.
Proof.
  intros Hin Hval Hstore Hrec Hlast Hm.
  pose proof (find_reservation_last my_localizer items Hrec None) as Hfind.
  rewrite Hlast, Hm in Hfind.
  exact (guest_arrival_lookup _ _ Hin Hval Hstore Hfind).
Qed.

(** C1, as the code has it: for the reservation record [guest_arrival]
    finds under the localizer, the integrity check builds the reservation
    again from the values the record holds under the keys of its fields,
    with the clock frozen at the instant [fromtimestamp] reads from the
    stored creation time (the current time plays no part), and raises
    'Error: reservation has been manipulated' exactly when the localizer so
    derived differs from the stored one.  [guest_arrival] reaches that
    check when the stored id card is the caller's: then a stored field
    changed so that the derived localizer changes makes it fail with this
    error.  A changed stored id card makes it fail earlier, with 'Error:
    Localizer is not correct for this IdCard'.  A stored creation time
    replaced by another value that [fromtimestamp] reads to the same
    instant changes nothing in the verdict of the check: that change of a
    stored field goes unnoticed. *)
Theorem tamper_detection
    (file_input : pystr) (w : World) (input_list : pyval)
    (my_id_card my_localizer : pystr) (items : list pyval) (item : pyval)
    (m : matched_reservation) (reservation_date : datetime) :
  input_files (fs w) file_input = Some (Json input_list) ->
  get_and_validate_json input_list = Ok (my_id_card, my_localizer) ->
  read_file StoreReservation (fs w) = Some (Json (PList items)) ->
  forallb is_reservation_record items = true ->
  last_such (has_localizer my_localizer) items = Some item ->
  stored_fields item m ->
  fromtimestamp (reservation_date_timestamp m) = Ok reservation_date ->
  let new_reservation := recomputed reservation_date m in
  r_localizer new_reservation
  = localizer_digest (reservation_id_card m) (reservation_name m)
      (reservation_credit_card m) (reservation_phone m)
      (PFloat (timestamp reservation_date)) (reservation_date_arrival m)
      (reservation_days m) (reservation_room_type m)
  /\ integrity_check my_localizer m
     = (if pystr_eqb (r_localizer new_reservation) my_localizer
        then Ok tt
        else HME "Error: reservation has been manipulated")
  /\ (reservation_id_card m = PStr my_id_card ->
      guest_arrival file_input w
      = if pystr_eqb (r_localizer new_reservation) my_localizer
        then arrival_after_integrity my_id_card my_localizer m w
        else (HME "Error: reservation has been manipulated", w))
  /\ (reservation_id_card m <> PStr my_id_card ->
      guest_arrival file_input w
      = (HME "Error: Localizer is not correct for this IdCard", w))
  /\ (forall tstamp,
        fromtimestamp tstamp = Ok reservation_date ->
        integrity_check my_localizer (with_date_timestamp tstamp m)
        = integrity_check my_localizer m).
Proof.
  intros Hin Hval Hstore Hrec Hlast Hm Hts new_reservation.
  apply read_reservation_stored in Hm.
  pose proof (guest_arrival_found _ _ Hin Hval Hstore Hrec Hlast Hm) as Hrun.
  pose proof (integrity_check_recomputed my_localizer m Hts) as Hint.
  fold new_reservation in Hint.
  split; [reflexivity|]. split; [exact Hint|]. split; [|split].
  - intros Hid. rewrite Hrun. unfold arrival_checks.
    rewrite Hid. cbn [py_eq]. rewrite pystr_eqb_refl. cbn [negb].
    unfold bind at 1. unfold lift at 1. rewrite Hint.
    now destruct (pystr_eqb _ _).
  - intros Hid. rewrite Hrun. unfold arrival_checks.
    rewrite py_eq_str.
    destruct (is_str my_id_card (Ok (reservation_id_card m))) eqn:E;
      [|reflexivity].
    apply is_str_true in E. congruence.
  - intros tstamp Hts'. rewrite Hint.
    exact (@integrity_check_recomputed my_localizer
             (with_date_timestamp tstamp m) reservation_date Hts').
Qed.

(** ** Date gating *)

Lemma date_eqb_eq (d1 d2 : date) : date_eqb d1 d2 = true <-> d1 = d2.
Proof.
  destruct d1 as [y1 m1 dd1], d2 as [y2 m2 dd2]. unfold date_eqb. cbn.
  rewrite !andb_true_iff, !Z.eqb_eq. split.
  - intros [[-> ->] ->]. reflexivity.
  - intros [= -> -> ->]. auto.
Qed.

Lemma date_eqb_neq (d1 d2 : date) : d1 <> d2 -> date_eqb d1 d2 = false.
Proof.
  intros H. destruct (date_eqb d1 d2) eqn:E; [|reflexivity].
  apply date_eqb_eq in E. contradiction.
Qed.

Lemma check_equals_date_run (v : pyval) (date_obj : datetime) (w : World) :
  strptime_dmy v = Ok date_obj ->
  check_equals_date v w
  = (if date_eqb (date_of date_obj) (date_of (clock (ticks w)))
     then Ok tt
     else HME "Error: today is not reservation date",
     tick w).
Proof.
  intros H. unfold check_equals_date, bind, lift, utcnow. rewrite H.
  now destruct (date_eqb _ _).
Qed.

Lemma checkout_checks_run (room_key : pystr) (departure_date_timestamp : pyval)
    (departure : datetime) (w : World) :
  fromtimestamp departure_date_timestamp = Ok departure ->
  checkout_checks room_key departure_date_timestamp w
  = if date_eqb (date_of departure) (date_of (clock (ticks w)))
    then checkout_of_stay room_key (tick w)
    else (HME "Error: today is not the departure day", tick w).
Proof.
  intros H. unfold checkout_checks, bind at 1, utcnow.
  unfold bind at 1. unfold lift at 1. rewrite H.
  now destruct (date_eqb _ _).
Qed.

(** C4: the two date checks compare calendar dates.  A reservation that
    [guest_arrival] finds, owns and verifies, and whose stored arrival date
    parses to a day other than today's, fails with 'Error: today is not
    reservation date'; a stay that [guest_checkout] finds and whose stored
    departure falls on a day other than today's fails with 'Error: today is
    not the departure day'.  Only the dates are compared: on the same day,
    whatever the time, the date check passes and the operation goes on. *)
Theorem date_gating :
  (forall file_input w input_list my_id_card my_localizer items item m date_obj,
      input_files (fs w) file_input = Some (Json input_list) ->
      get_and_validate_json input_list = Ok (my_id_card, my_localizer) ->
      read_file StoreReservation (fs w) = Some (Json (PList items)) ->
      forallb is_reservation_record items = true ->
      last_such (has_localizer my_localizer) items = Some item ->
      read_reservation item = Ok m ->
      reservation_id_card m = PStr my_id_card ->
      integrity_check my_localizer m = Ok tt ->
      strptime_dmy (reservation_date_arrival m) = Ok date_obj ->
      (date_of date_obj <> date_of (clock (ticks w)) ->
       guest_arrival file_input w
       = (HME "Error: today is not reservation date", tick w))
      /\ (date_of date_obj = date_of (clock (ticks w)) ->
          guest_arrival file_input w
          = arrival_of_stay my_id_card my_localizer m (tick w)))
  /\ (forall room_key w items item departure_date_timestamp departure,
        validate_roomkey room_key = Ok room_key ->
        read_file StoreCheckIn (fs w) = Some (Json (PList items)) ->
        forallb is_stay_record items = true ->
        last_such (has_room_key room_key) items = Some item ->
        py_getitem item (str "_HotelStay__departure")
        = Ok departure_date_timestamp ->
        fromtimestamp departure_date_timestamp = Ok departure ->
        (date_of departure <> date_of (clock (ticks w)) ->
         guest_checkout room_key w
         = (HME "Error: today is not the departure day", tick w))
        /\ (date_of departure = date_of (clock (ticks w)) ->
            guest_checkout room_key w = checkout_of_stay room_key (tick w))).
Proof.
  split.
  - intros file_input w input_list my_id_card my_localizer items item m
      date_obj Hin Hval Hstore Hrec Hlast Hm Hid Hint Hparse.
    assert (Hrun :
      guest_arrival file_input w
      = if date_eqb (date_of date_obj) (date_of (clock (ticks w)))
        then arrival_of_stay my_id_card my_localizer m (tick w)
        else (HME "Error: today is not reservation date", tick w)).
    { rewrite (guest_arrival_found _ _ Hin Hval Hstore Hrec Hlast Hm).
      unfold arrival_checks. rewrite Hid. cbn [py_eq].
      rewrite pystr_eqb_refl. cbn [negb].
      unfold bind at 1. unfold lift at 1. rewrite Hint.
      unfold arrival_after_integrity, bind at 1.
      rewrite (check_equals_date_run _ Hparse).
      now destruct (date_eqb _ _). }
    rewrite Hrun. split; intros Hd.
    + now rewrite (date_eqb_neq Hd).
    + apply date_eqb_eq in Hd. now rewrite Hd.
  - intros room_key w items item departure_date_timestamp departure
      Hval Hstore Hrec Hlast Hdep Hts.
    pose proof (find_departure_last room_key items Hrec None) as Hfind.
    rewrite Hlast, Hdep in Hfind.
    assert (Hrun :
      guest_checkout room_key w
      = if date_eqb (date_of departure) (date_of (clock (ticks w)))
        then checkout_of_stay room_key (tick w)
        else (HME "Error: today is not the departure day", tick w)).
    { rewrite (checkout_lookup _ Hval Hstore Hfind).
      now rewrite (checkout_checks_run _ _ Hts). }
    rewrite Hrun. split; intros Hd.
    + now rewrite (date_eqb_neq Hd).
    + apply date_eqb_eq in Hd. now rewrite Hd.
Qed.

(** ** Absent and malformed stores *)

Lemma agree_ret {A} s (a : A) : agree s (ret a).
Proof. intros w1 w2 H. now split. Qed.

Lemma agree_raise {A} s (e : exn) : agree s (@raise A e).
Proof. intros w1 w2 H. now split. Qed.

Lemma agree_lift {A} s (r : result A) : agree s (lift r).
Proof. intros w1 w2 H. now split. Qed.

Lemma agree_utcnow s : agree s utcnow.
Proof.
  intros w1 w2 (Ht & Hs & Hf). unfold utcnow. cbn. rewrite Ht.
  split; [reflexivity|]. repeat split; cbn; congruence.
Qed.

Lemma agree_bind {A B} s (m : M A) (f : A -> M B) :
  agree s m -> (forall a, agree s (f a)) -> agree s (bind m f).
Proof.
  intros Hm Hf w1 w2 H. unfold bind. destruct (Hm w1 w2 H) as [Hr Hw].
  destruct (m w1) as [[a|e] w1'], (m w2) as [[a2|e2] w2']; cbn in Hr, Hw;
    try discriminate.
  - injection Hr as <-. now apply Hf.
  - injection Hr as <-. now split.
Qed.

Lemma agree_try_except {A} s (m : M A) (h : exn -> M A) :
  agree s m -> (forall e, agree s (h e)) -> agree s (try_except m h).
Proof.
  intros Hm Hh w1 w2 H. unfold try_except. destruct (Hm w1 w2 H) as [Hr Hw].
  destruct (m w1) as [[a|e] w1'], (m w2) as [[a2|e2] w2']; cbn in Hr, Hw;
    try discriminate.
  - injection Hr as <-. now split.
  - injection Hr as <-. now apply Hh.
Qed.

Lemma read_other_store s (p : path) (w1 w2 : World) :
  absent_vs_empty s w1 w2 ->
  p <> store_path s ->
  read_file p (fs w2) = read_file p (fs w1).
Proof.
  intros (_ & _ & ->) Hp.
  destruct s, p; cbn; try reflexivity; contradiction.
Qed.

Lemma agree_json_load s (p : path) :
  p <> store_path s -> agree s (json_load p).
Proof.
  intros Hp w1 w2 H. unfold json_load.
  rewrite (read_other_store H Hp).
  now destruct (read_file p (fs w1)) as [[|v| | |]|].
Qed.

Lemma agree_store_json_into_list s (p : path) (msg : string) :
  p <> store_path s -> agree s (store_json_into_list p msg).
Proof.
  intros Hp. apply agree_try_except; [now apply agree_json_load|].
  intros []; apply agree_raise.
Qed.

(** Loading a store that may be absent gives the same list whether the
    file is absent or holds the empty list. *)
Lemma agree_load_or_empty s (p : path) :
  agree s (store_data_into_list_if_file_exists p).
Proof.
  intros w1 w2 H.
  assert (Hcases : p <> store_path s \/ p = store_path s).
  { destruct s, p; cbn; (now right) || (left; discriminate). }
  destruct Hcases as [Hp | ->].
  - apply agree_try_except; [now apply agree_json_load | | exact H].
    intros []; first [apply agree_raise | apply agree_ret].
  - destruct H as (Ht & Hs & Hf).
    unfold store_data_into_list_if_file_exists, try_except, json_load.
    rewrite Hf.
    destruct s; cbn in *; rewrite Hs; destruct (json_dir (fs w1)); cbn;
      (split; [reflexivity | repeat split; cbn; assumption]).
Qed.

Lemma converge_raise {A} s (e : exn) : converge s (@raise A e).
Proof. intros w1 w2 H. split; [reflexivity|discriminate]. Qed.

Lemma converge_bind {A B} s (m : M A) (f : A -> M B) :
  agree s m -> (forall a, converge s (f a)) -> converge s (bind m f).
Proof.
  intros Hm Hf w1 w2 H. unfold bind. destruct (Hm w1 w2 H) as [Hr Hw].
  destruct (m w1) as [[a|e] w1'], (m w2) as [[a2|e2] w2']; cbn in Hr, Hw;
    try discriminate.
  - injection Hr as <-. now apply Hf.
  - injection Hr as <-. split; [reflexivity|discriminate].
Qed.

Lemma converge_then_ret {A B} s (m : M A) (b : B) :
  converge s m -> converge s (bind m (fun _ => ret b)).
Proof.
  intros Hm w1 w2 H. unfold bind. destruct (Hm w1 w2 H) as [Hr Hw].
  destruct (m w1) as [[a|e] w1'], (m w2) as [[a2|e2] w2']; cbn in Hr, Hw;
    try discriminate.
  - cbn. split; [reflexivity|]. intros _ _. now apply (Hw a).
  - injection Hr as <-. split; [reflexivity|discriminate].
Qed.

(** Writing the store makes the two worlds one. *)
Lemma converge_write s (v : pyval) :
  converge s (write_into_json (store_path s) v).
Proof.
  intros w1 w2 (Ht & Hs & Hf).
  rewrite !write_into_json_run. rewrite Hf, Ht.
  destruct (json_value v);
    destruct s; cbn; destruct (json_dir (fs w1)); cbn;
    (split; [reflexivity|]); intros a; try discriminate; reflexivity.
Qed.

Lemma converge_room_reservation c n i p r a d :
  converge Reservations (room_reservation c n i p r a d).
Proof.
  unfold room_reservation.
  apply converge_bind; [apply agree_lift|]. intros _.
  apply converge_bind; [apply agree_lift|]. intros room_type.
  apply converge_bind.
  { unfold check_data. destruct (negb _); [apply agree_raise|].
    repeat (apply agree_bind; [first [apply agree_lift | apply agree_utcnow]|];
            intros ?).
    apply agree_ret. }
  intros my_reservation.
  apply converge_bind; [apply agree_load_or_empty|]. intros data_list.
  apply converge_bind; [apply agree_lift|]. intros items.
  apply converge_bind; [apply agree_lift|]. intros _.
  apply converge_bind; [apply agree_lift|]. intros data_list'.
  apply converge_then_ret. apply (@converge_write Reservations).
Qed.

Lemma converge_guest_arrival (file_input : pystr) :
  converge CheckIns (guest_arrival file_input).
Proof.
  unfold guest_arrival.
  apply converge_bind; [now apply agree_store_json_into_list|].
  intros input_list.
  apply converge_bind; [apply agree_lift|]. intros [my_id_card my_localizer].
  apply converge_bind; [now apply agree_store_json_into_list|].
  intros store_list.
  apply converge_bind; [apply agree_lift|]. intros [[arr days] rtype].
  apply converge_bind.
  { unfold check_equals_date.
    apply agree_bind; [apply agree_lift|]. intros d.
    apply agree_bind; [apply agree_utcnow|]. intros now.
    destruct (negb _); [apply agree_raise | apply agree_ret]. }
  intros _.
  apply converge_bind; [apply agree_lift|]. intros numdays.
  apply converge_bind; [apply agree_utcnow|]. intros justnow.
  apply converge_bind; [apply agree_lift|]. intros my_checkin.
  apply converge_then_ret. unfold save_checkin.
  apply converge_bind; [apply agree_load_or_empty|]. intros l.
  apply converge_bind; [apply agree_lift|]. intros items.
  apply converge_bind; [apply agree_lift|]. intros _.
  apply converge_bind; [apply agree_lift|]. intros l'.
  apply (@converge_write CheckIns).
Qed.

Lemma converge_guest_checkout (room_key : pystr) :
  converge CheckOuts (guest_checkout room_key).
Proof.
  unfold guest_checkout.
  change (converge CheckOuts (bind (checkout room_key) (fun b => ret b))).
  assert (Hc : converge CheckOuts (checkout room_key)).
  { unfold checkout.
    apply converge_bind; [apply agree_lift|]. intros _.
    apply converge_bind; [now apply agree_store_json_into_list|].
    intros room_key_list.
    apply converge_bind; [apply agree_lift|]. intros items.
    apply converge_bind; [apply agree_lift|]. intros [departure|];
      [|apply converge_raise].
    apply converge_bind; [apply agree_utcnow|]. intros now.
    apply converge_bind; [apply agree_lift|]. intros dep.
    destruct (negb _); [apply converge_raise|].
    apply converge_bind; [apply agree_load_or_empty|]. intros out_list.
    apply converge_bind; [apply agree_lift|]. intros out_items.
    apply converge_bind; [apply agree_lift|]. intros _.
    apply converge_bind; [apply agree_utcnow|]. intros now2.
    apply converge_bind; [apply agree_lift|]. intros out_list'.
    apply converge_then_ret. apply (@converge_write CheckOuts). }
  intros w1 w2 H. unfold bind. destruct (Hc w1 w2 H) as [Hr Hw].
  destruct (checkout room_key w1) as [[b|e] w1'],
           (checkout room_key w2) as [[b2|e2] w2'];
    cbn in Hr, Hw; try discriminate.
  - injection Hr as <-. cbn. split; [reflexivity|].
    intros _ _. now apply (Hw b).
  - injection Hr as <-. split; [reflexivity|discriminate].
Qed.

(** * Further properties *)

(** ** What each validator accepts *)

Lemma starts_with_eqb (w s : pystr) :
  starts_with w s && ends (skipn (List.length w) s) = pystr_eqb w s.
Proof.
  revert s; induction w as [|a w IH]; intros s.
  - now destruct s.
  - destruct s as [|c s]; [reflexivity|]. cbn [starts_with List.length skipn pystr_eqb].
    rewrite <- andb_assoc, IH, N.eqb_sym. reflexivity.
Qed.

Lemma rmatch_chars (a : N) (w : pystr) (pos : nat) (s : pystr)
    (k : nat -> pystr -> bool) :
  rmatch (cats (map Chr (a :: w))) pos s k
  = starts_with (a :: w) s
    && k (pos + List.length (a :: w))%nat (skipn (List.length (a :: w)) s).
Proof.
  revert a pos s; induction w as [|b w IH]; intros a pos s.
  - cbn [map cats rmatch one_char starts_with List.length skipn].
    destruct s as [|c s]; [reflexivity|].
    replace (pos + 1)%nat with (S pos) by lia.
    cbn [skipn]. now rewrite andb_true_r.
  - change (cats (map Chr (a :: b :: w)))
      with (Cat (Chr a) (cats (map Chr (b :: w)))).
    cbn [rmatch]. unfold one_char at 1.
    destruct s as [|c s]; [reflexivity|].
    rewrite IH. cbn [starts_with List.length skipn].
    replace (S pos + S (List.length w))%nat
      with (pos + S (S (List.length w)))%nat by lia.
    now rewrite andb_assoc.
Qed.

Lemma fullmatch_word (w : string) (s : pystr) :
  str w <> [] -> fullmatch (word w) s = pystr_eqb (str w) s.
Proof.
  unfold fullmatch, word. destruct (str w) as [|a l]; [congruence|].
  intros _. rewrite rmatch_chars.
  change (match skipn (List.length (a :: l)) s with
          | [] => true
          | _ :: _ => false
          end) with (ends (skipn (List.length (a :: l)) s)).
  apply starts_with_eqb.
Qed.

Lemma fullmatch_room_type (s : pystr) :
  fullmatch (Alt (word "SINGLE") (Alt (word "DOUBLE") (word "SUITE"))) s
  = room_type_shape s.
Proof.
  unfold room_type_shape.
  rewrite <- !fullmatch_word by discriminate.
  unfold fullmatch. cbn [rmatch]. now rewrite orb_assoc.
Qed.

Lemma fullmatch_phone (s : pystr) :
  fullmatch (cats [Caret; chr "+"; exactly 9 (Cls ascii_digit)]) s
  = phone_shape s.
Proof.
  unfold fullmatch, phone_shape.
  destruct s as [|c t]; [reflexivity|].
  cbn [cats rmatch chr one_char Nat.eqb andb].
  rewrite rmatch_exactly. rewrite all_of_split. reflexivity.
Qed.

(** X1: the four format validators accept exactly the strings of their
    shape and return them: one of SINGLE, DOUBLE, SUITE; a plus sign and
    nine decimal digits; 32 hexadecimal digits; 64 hexadecimal digits (both
    cases of a to f).  Every other string, a trailing newline included,
    raises the validator's own message. *)
Theorem format_validators_exact (s : pystr) :
  validate_room_type s
  = (if room_type_shape s then Ok s else HME "Invalid roomtype value")
  /\ validate_phonenumber s
     = (if phone_shape s then Ok s else HME "Invalid phone number format")
  /\ validate_localizer s
     = (if all_of 32 hex_digit s then Ok s else HME "Invalid localizer")
  /\ validate_roomkey s
     = (if all_of 64 hex_digit s then Ok s else HME "Invalid room key format").
Proof.
  unfold validate_room_type, validate_phonenumber, validate_localizer,
    validate_roomkey.
  rewrite fullmatch_room_type, fullmatch_phone,
    !fullmatch_caret_exactly_dollar.
  destruct (room_type_shape s), (phone_shape s), (all_of 32 hex_digit s),
    (all_of 64 hex_digit s); repeat split.
Qed.

Lemma fullmatch_arrival_date (s : pystr) :
  fullmatch arrival_date_pattern s = arrival_date_shape s.
Proof.
  unfold fullmatch, arrival_date_pattern, arrival_date_shape, month_shape.
  do 12 (destruct s as [|? s];
         [cbn - [in_range unicode_digit N.eqb]; try reflexivity; try btauto|]).
  cbn - [in_range unicode_digit N.eqb].
  destruct s; btauto.
Qed.

(** X2: [validate_arrival_date] accepts exactly the strings of ten
    characters dd/mm/yyyy with a day from 00 to 29 and a month from 00 to
    12, and the strings of eleven characters that put a hyphen before a
    day 30 or 31; it returns them unchanged and raises 'Invalid date
    format' on every other string. *)
Theorem validate_arrival_date_exact (s : pystr) :
  validate_arrival_date s
  = if arrival_date_shape s then Ok s else HME "Invalid date format".
Proof.
  unfold validate_arrival_date. rewrite fullmatch_arrival_date.
  now destruct (arrival_date_shape s).
Qed.

(** ** Single errors are detected *)

(** The two checksum validators as functions of the string. *)
Lemma validatecreditcard_run (credit_card : pystr) :
  validatecreditcard credit_card = validatecreditcard_spec credit_card.
Proof.
  unfold validatecreditcard, validatecreditcard_spec.
  rewrite fullmatch_caret_exactly.
  destruct (all_of 16 ascii_digit credit_card) eqn:Hshape; [|reflexivity].
  cbn [negb].
  apply all_of_length in Hshape as [Hlen Hdigits].
  rewrite (digits_of_digits _ Hdigits). cbn [rbind].
  do 17 (destruct credit_card as [|? credit_card]; try discriminate Hlen).
  clear Hlen. cbn [forallb] in Hdigits.
  repeat match type of Hdigits with
         | (_ && _)%bool = true =>
             let H := fresh "Hc" in
             apply andb_true_iff in Hdigits as [H Hdigits];
             apply digit_value_range in H
         end.
  clear Hdigits. unfold luhn_sum. cbn [map rev app luhn_from_right negb].
  repeat match goal with
         | H : (0 <= digit_value ?c <= 9)%Z |- _ =>
             generalize dependent (digit_value c); intros
         end.
  match goal with
  | |- context [slice_step_minus2 (-1) ?l] =>
      let r := eval vm_compute in (slice_step_minus2 (-1) l) in
      change (slice_step_minus2 (-1) l) with r
  end.
  match goal with
  | |- context [slice_step_minus2 (-2) ?l] =>
      let r := eval vm_compute in (slice_step_minus2 (-2) l) in
      change (slice_step_minus2 (-2) l) with r
  end.
  rewrite add_doubled_sum
    by (repeat (apply Forall_cons; [assumption|]); apply Forall_nil).
  cbn [rbind doubled_sum]. rewrite !sum_cons. change (sum []) with 0%Z.
  match goal with
  | |- (if negb (?a mod 10 =? 0)%Z then _ else _)
       = (if (?b mod 10 =? 0)%Z then _ else _) =>
      replace a with b by lia
  end.
  now destruct (_ =? 0)%Z.
Qed.

Lemma check_id_card_run (id_card : pystr) :
  check_id_card id_card = check_id_card_spec id_card.
Proof.
  unfold check_id_card, check_id_card_spec.
  rewrite fullmatch_id_card.
  destruct (id_card_shape id_card) eqn:Hshape; [|reflexivity].
  cbn [negb]. unfold id_card_shape in Hshape.
  apply andb_true_iff in Hshape as [Hd Hu].
  apply all_of_length in Hd as [Hdl Hd], Hu as [Hul Hu].
  unfold validate_dni, int_of_str.
  rewrite Hdl, Hd. cbn [Nat.leb andb rbind].
  assert (Hm : (0 <= decimal_value (firstn 8 id_card) mod 23 < 23)%Z)
    by (apply Z.mod_pos_bound; lia).
  destruct (skipn 8 id_card) as [|c [|? ?]] eqn:Hs; try discriminate Hul.
  assert (Hn : nth_error id_card 8 = Some c).
  { rewrite <- (firstn_skipn 8 id_card) at 1. rewrite Hs.
    rewrite nth_error_app2 by (rewrite Hdl; lia).
    now rewrite Hdl. }
  rewrite Hn, (letter_of_table Hm). cbn [rbind].
  now destruct (pystr_eqb [c] _).
Qed.

Lemma digit_value_inj (c c' : N) : digit_value c = digit_value c' -> c = c'.
Proof. unfold digit_value. lia. Qed.

Lemma digit_cases (x : Z) :
  (0 <= x <= 9)%Z ->
  In x [0; 1; 2; 3; 4; 5; 6; 7; 8; 9]%Z.
Proof. intros H. cbn [In]. lia. Qed.

Lemma sum_of_digits_range (x : Z) :
  (0 <= x <= 9)%Z -> (0 <= sum_of_digits (2 * x) <= 9)%Z.
Proof.
  intros Hx. apply digit_cases in Hx. cbn [In] in Hx.
  repeat (destruct Hx as [<-|Hx]; [vm_compute; split; discriminate|]).
  contradiction.
Qed.

(** Doubling a digit and adding the digits of the result is one to one
    on the ten digits: 0 2 4 6 8 1 3 5 7 9. *)
Lemma sum_of_digits_inj (x y : Z) :
  (0 <= x <= 9)%Z -> (0 <= y <= 9)%Z ->
  sum_of_digits (2 * x) = sum_of_digits (2 * y) -> x = y.
Proof.
  intros Hx Hy. apply digit_cases in Hx, Hy. cbn [In] in Hx, Hy.
  repeat (destruct Hx as [<-|Hx]; [|]); try contradiction;
    repeat (destruct Hy as [<-|Hy]; [|]); try contradiction;
    vm_compute; intros E; try reflexivity; discriminate E.
Qed.

Lemma mod_10_cancel (a b x y : Z) :
  (0 <= x <= 9)%Z -> (0 <= y <= 9)%Z ->
  (a mod 10 = 0)%Z -> (b mod 10 = 0)%Z ->
  (a - b = x - y)%Z -> x = y.
Proof. intros. Z.div_mod_to_equations. lia. Qed.

(** X3: the Luhn check detects every single wrong digit.  Replace one
    digit of a credit card number that [validatecreditcard] accepts by a
    different decimal digit: the result is refused with 'Invalid credit
    card number (not luhn)'. *)
Theorem luhn_detects_single_digit (credit_card : pystr) (i : nat) (c c' : N) :
  validatecreditcard credit_card = Ok credit_card ->
  nth_error credit_card i = Some c ->
  ascii_digit c' = true ->
  c' <> c ->
  validatecreditcard (replace_at i c' credit_card)
  = HME "Invalid credit card number (not luhn)".
Proof.
  intros Hok Hnth Hc' Hneq.
  rewrite validatecreditcard_run in Hok |- *.
  unfold validatecreditcard_spec in *.
  destruct (all_of 16 ascii_digit credit_card) eqn:Hshape; [|discriminate].
  destruct (luhn_sum credit_card mod 10 =? 0)%Z eqn:Hl; [|discriminate].
  clear Hok. apply Z.eqb_eq in Hl.
  apply all_of_length in Hshape as [Hlen Hdigits].
  do 17 (destruct credit_card as [|? credit_card]; try discriminate Hlen).
  clear Hlen. cbn [forallb] in Hdigits.
  repeat match type of Hdigits with
         | (_ && _)%bool = true =>
             let H := fresh "Hc" in
             apply andb_true_iff in Hdigits as [H Hdigits]
         end.
  clear Hdigits.
  assert (Hv' := digit_value_range _ Hc').
  assert (Hd : digit_value c' <> digit_value c)
    by (intros E; apply digit_value_inj in E; contradiction).
  unfold luhn_sum in Hl. cbn [map rev app luhn_from_right negb] in Hl.
  do 16 (destruct i as [|i];
    [ injection Hnth as <-;
      unfold replace_at; cbn [firstn skipn app];
      unfold all_of; cbn [List.length Nat.eqb forallb];
      repeat match goal with
             | H : ascii_digit ?x = true |- context [ascii_digit ?x] =>
                 rewrite H
             end;
      cbn [andb];
      unfold luhn_sum; cbn [map rev app luhn_from_right negb];
      repeat match goal with
             | H : ascii_digit ?x = true |- _ =>
                 apply digit_value_range in H
             end;
      match goal with
      | |- (if (?e =? 0)%Z then _ else _) = _ =>
          destruct (Z.eqb_spec e 0) as [E|E]; [exfalso | reflexivity]
      end;
      apply Hd;
      match goal with
      | |- digit_value ?a = digit_value ?b =>
          assert (Ha : (0 <= digit_value a <= 9)%Z) by assumption;
          assert (Hb : (0 <= digit_value b <= 9)%Z) by assumption;
          first
            [ apply (@mod_10_cancel _ _ _ _ Ha Hb E Hl); ring
            | apply (@sum_of_digits_inj _ _ Ha Hb);
              apply (@mod_10_cancel _ _ _ _
                       (@sum_of_digits_range _ Ha)
                       (@sum_of_digits_range _ Hb) E Hl); ring ]
      end
    | ]).
  destruct i; discriminate Hnth.
Qed.

(** The 23 check letters are pairwise distinct. *)
Lemma dni_table_NoDup : NoDup dni_table.
Proof.
  replace dni_table with (nodup N.eq_dec dni_table) by reflexivity.
  apply NoDup_nodup.
Qed.

Lemma dni_letter_inj (a b : Z) :
  (0 <= a < 23)%Z -> (0 <= b < 23)%Z ->
  nth (Z.to_nat a) dni_table 0%N = nth (Z.to_nat b) dni_table 0%N -> a = b.
Proof.
  intros Ha Hb E.
  apply (proj1 (NoDup_nth dni_table 0%N) dni_table_NoDup) in E.
  - lia.
  - change (List.length dni_table) with 23%nat. lia.
  - change (List.length dni_table) with 23%nat. lia.
Qed.

(** 23 is prime to every power of ten: two numbers with the same rest
    modulo 23 do not differ in one decimal digit only. *)
Lemma mod_23_cancel (a b e k : Z) :
  Z.gcd 23 k = 1%Z -> (-22 <= e <= 22)%Z ->
  (a mod 23 = b mod 23)%Z -> (a - b = k * e)%Z -> e = 0%Z.
Proof.
  intros Hg He Hm Hk.
  assert (Hdiv : (23 | k * e)%Z).
  { rewrite <- Hk. exists (a / 23 - b / 23)%Z.
    rewrite (Z.div_mod a 23) at 1 by lia.
    rewrite (Z.div_mod b 23) at 1 by lia. rewrite Hm. ring. }
  apply Z.gauss in Hdiv; [|assumption].
  destruct Hdiv as [z Hz]. lia.
Qed.

Lemma singleton_inj {A} (a b : A) : [a] = [b] -> a = b.
Proof. now intros [= ->]. Qed.

(** X4: the check letter detects every single wrong character.  Replace
    one character of an identity card number that [check_id_card] accepts
    by a different one: the result is refused, with 'Invalid IdCard
    letter' when it still has eight digits and a capital letter, with
    'Invalid IdCard format' otherwise. *)
Theorem check_id_card_detects_single_character
    (id_card : pystr) (i : nat) (c c' : N) :
  check_id_card id_card = Ok tt ->
  nth_error id_card i = Some c ->
  c' <> c ->
  check_id_card (replace_at i c' id_card)
  = if id_card_shape (replace_at i c' id_card)
    then HME "Invalid IdCard letter"
    else HME "Invalid IdCard format".
Proof.
  intros Hok Hnth Hneq.
  rewrite check_id_card_run in Hok |- *.
  unfold check_id_card_spec in *.
  destruct (id_card_shape (replace_at i c' id_card)) eqn:Hshape';
    [|reflexivity].
  destruct (id_card_shape id_card) eqn:Hshape; [|discriminate].
  destruct (pystr_eqb (skipn 8 id_card) _) eqn:Hl; [|discriminate].
  clear Hok.
  destruct (pystr_eqb (skipn 8 (replace_at i c' id_card)) _) eqn:Hl';
    [exfalso|reflexivity].
  apply pystr_eqb_eq in Hl, Hl'.
  unfold id_card_shape in Hshape, Hshape'.
  apply andb_true_iff in Hshape as [Hd Hu].
  apply all_of_length in Hd as [Hdl Hd], Hu as [Hul _].
  do 9 (destruct id_card as [|? id_card];
        [try (cbn in Hdl; discriminate Hdl);
         try (cbn in Hul; discriminate Hul)|]).
  destruct id_card; [|cbn in Hul; discriminate Hul].
  clear Hdl Hul. cbn [firstn skipn] in *. cbn [forallb] in Hd.
  apply andb_true_iff in Hshape' as [Hd' _].
  apply all_of_length in Hd' as [_ Hd'].
  apply singleton_inj in Hl.
  apply Hneq, N2Z.inj.
  do 8 (destruct i as [|i];
    [ injection Hnth as <-;
      unfold replace_at in Hl', Hd'; cbn [firstn skipn app] in Hl', Hd';
      apply singleton_inj in Hl'; rewrite Hl in Hl' at 1;
      apply dni_letter_inj in Hl'; try (apply Z.mod_pos_bound; lia);
      cbn [forallb] in Hd';
      repeat match goal with
             | H : (_ && _)%bool = true |- _ =>
                 let H1 := fresh "Hc" in
                 apply andb_true_iff in H as [H1 H];
                 apply digit_value_range in H1; unfold digit_value in H1
             end;
      unfold decimal_value in Hl'; cbn [fold_left] in Hl';
      match goal with
      | |- Z.of_N ?x = Z.of_N ?y =>
          enough (Z.of_N x - Z.of_N y = 0)%Z by lia;
          first
            [ refine (@mod_23_cancel _ _ _ 1 eq_refl _ (eq_sym Hl') _); [|ring]; lia
            | refine (@mod_23_cancel _ _ _ 10 eq_refl _ (eq_sym Hl') _); [|ring]; lia
            | refine (@mod_23_cancel _ _ _ 100 eq_refl _ (eq_sym Hl') _); [|ring]; lia
            | refine (@mod_23_cancel _ _ _ 1000 eq_refl _ (eq_sym Hl') _); [|ring]; lia
            | refine (@mod_23_cancel _ _ _ 10000 eq_refl _ (eq_sym Hl') _); [|ring]; lia
            | refine (@mod_23_cancel _ _ _ 100000 eq_refl _ (eq_sym Hl') _); [|ring]; lia
            | refine (@mod_23_cancel _ _ _ 1000000 eq_refl _ (eq_sym Hl') _); [|ring]; lia
            | refine (@mod_23_cancel _ _ _ 10000000 eq_refl _ (eq_sym Hl') _); [|ring]; lia ]
      end
    | ]).
  destruct i as [|i].
  - injection Hnth as <-.
    unfold replace_at in Hl'. cbn [firstn skipn app] in Hl'.
    apply singleton_inj in Hl'. congruence.
  - destruct i; discriminate Hnth.
Qed.

(** ** Values that are no strings *)

(** X5: [validate_numdays] by the type of the value.  An [int] passes
    exactly from 1 to 10; [True] counts as 1 and passes, [False] as 0 and
    is out of range; a NaN is 'Invalid num_days datatype'; [None], a list
    or a dict leave with the [TypeError] of [int()] and an infinity with its
    [OverflowError], neither of them a HotelManagementException. *)
Theorem validate_numdays_by_type :
  (forall z,
      validate_numdays (PInt z)
      = if ((1 <=? z) && (z <=? 10))%Z then Ok (PInt z)
        else HME "Numdays should be in the range 1-10")
  /\ validate_numdays (PBool true) = Ok (PBool true)
  /\ validate_numdays (PBool false) = HME "Numdays should be in the range 1-10"
  /\ validate_numdays (PFloat S754_nan) = HME "Invalid num_days datatype"
  /\ (forall s, validate_numdays (PFloat (S754_infinity s)) = Raise OverflowError)
  /\ validate_numdays PNone = Raise TypeError
  /\ (forall l, validate_numdays (PList l) = Raise TypeError)
  /\ (forall d, validate_numdays (PDict d) = Raise TypeError).
Proof.
  repeat split; try reflexivity.
  intros z. unfold validate_numdays. cbn [py_int].
  rewrite Z.gtb_ltb.
  destruct (Z.ltb_spec z 1), (Z.ltb_spec 10 z), (Z.leb_spec 1 z),
    (Z.leb_spec z 10); cbn [orb andb]; try reflexivity; lia.
Qed.

(** ** The input file of an arrival *)

Lemma validate_localizer_shape (s r : pystr) :
  validate_localizer s = Ok r <-> r = s /\ all_of 32 hex_digit s = true.
Proof.
  unfold validate_localizer. rewrite fullmatch_caret_exactly_dollar.
  destruct (all_of 32 hex_digit s); cbn [negb]; split.
  - intros [= <-]. now split.
  - now intros [-> _].
  - discriminate.
  - now intros [_ ?].
Qed.

(** X6: what [get_and_validate_json] accepts.  It returns the pair of the
    id card and the localizer exactly when the document is an object whose
    ["Localizer"] is a string of 32 hexadecimal digits and whose ["IdCard"]
    is a string that [check_id_card] accepts; an object without one of the
    two keys is 'Error - Invalid Key in JSON' whatever the other holds, and a
    document that is no object leaves with a [TypeError]. *)
Theorem get_and_validate_json_accepts (input_list : pyval) :
  (forall my_id_card my_localizer,
      get_and_validate_json input_list = Ok (my_id_card, my_localizer)
      <-> exists d,
            input_list = PDict d
            /\ dict_get d (str "Localizer") = Some (PStr my_localizer)
            /\ dict_get d (str "IdCard") = Some (PStr my_id_card)
            /\ check_id_card my_id_card = Ok tt
            /\ all_of 32 hex_digit my_localizer = true)
  /\ (forall d,
        input_list = PDict d ->
        dict_get d (str "Localizer") = None
        \/ dict_get d (str "IdCard") = None ->
        get_and_validate_json input_list = HME "Error - Invalid Key in JSON")
  /\ ((forall d, input_list <> PDict d) ->
      get_and_validate_json input_list = Raise TypeError).
Proof.
  unfold get_and_validate_json. repeat split.
  - destruct input_list as [|b|z|f|s|items|d|o]; try discriminate.
    cbn [py_getitem].
    destruct (dict_get d (str "Localizer")) as [l|] eqn:Hl; [|discriminate].
    cbn [rbind].
    destruct (dict_get d (str "IdCard")) as [i|] eqn:Hi; [|discriminate].
    cbn [rbind].
    destruct i as [|b|z|f|i|items|d'|o]; try discriminate. cbn [as_str rbind].
    destruct (check_id_card i) as [[]|] eqn:Hid; [|discriminate].
    cbn [rbind].
    destruct l as [|b|z|f|l|items|d'|o]; try discriminate. cbn [as_str rbind].
    destruct (validate_localizer l) as [l'|] eqn:Hloc; [|discriminate].
    apply validate_localizer_shape in Hloc as [-> Hloc].
    cbn [rbind]. intros [= <- <-].
    exists d. now repeat split.
  - intros (d & -> & Hl & Hi & Hid & Hloc). cbn [py_getitem].
    rewrite Hl, Hi. cbn [rbind as_str]. rewrite Hid. cbn [rbind].
    assert (H : validate_localizer my_localizer = Ok my_localizer)
      by now apply validate_localizer_shape.
    now rewrite H.
  - intros d -> [H|H]; cbn [py_getitem]; rewrite H; [reflexivity|].
    now destruct (dict_get d (str "Localizer")).
  - intros H. destruct input_list as [|b|z|f|s|items|d|o]; try reflexivity.
    now destruct (H d).
Qed.

(** ** The names [check_data] accepts *)

Lemma iterate_star (p : N -> bool) (k : nat -> pystr -> bool) :
  forall fuel n pos s,
    (1 <= n)%nat -> (List.length s <= fuel)%nat ->
    iterate (one_char p) 1 None k fuel n pos s = star p k pos s.
Proof.
  induction fuel as [|fuel IH]; intros n pos s Hn Hlen; cbn [iterate].
  - destruct s as [|c t]; [|cbn in Hlen; lia].
    replace (1 <=? n)%nat with true by (symmetry; apply Nat.leb_le; lia).
    reflexivity.
  - replace (1 <=? n)%nat with true by (symmetry; apply Nat.leb_le; lia).
    cbn [below andb]. destruct s as [|c t]; [reflexivity|].
    cbn [one_char star]. cbn [List.length] in Hlen.
    rewrite IH by lia. reflexivity.
Qed.

Lemma rmatch_plus_cls (p : N -> bool) (pos : nat) (s : pystr)
    (k : nat -> pystr -> bool) :
  rmatch (plus (Cls p)) pos s k
  = match s with
    | c :: t => p c && star p k (S pos) t
    | [] => false
    end.
Proof.
  unfold plus. cbn [rmatch].
  change (rmatch (Cls p)) with (one_char p).
  cbn [Nat.add iterate Nat.leb andb orb below].
  destruct s as [|c t]; [reflexivity|].
  cbn [one_char List.length]. rewrite iterate_star by lia. reflexivity.
Qed.

Lemma star_ext (p : N -> bool) (k1 k2 : nat -> pystr -> bool) :
  forall s pos,
    (forall pos' t, (List.length t <= List.length s)%nat -> k1 pos' t = k2 pos' t) ->
    star p k1 pos s = star p k2 pos s.
Proof.
  induction s as [|c t IH]; intros pos H; cbn [star].
  - now rewrite H.
  - rewrite H by lia. rewrite (IH (S pos)); [reflexivity|].
    intros pos' u Hu. apply H. cbn [List.length]. lia.
Qed.

Lemma star_later_word (s : pystr) (pos : nat) :
  star ascii_letter (fun _ t => name_boundary t) pos s = name_run LaterWord s.
Proof.
  revert pos. induction s as [|c t IH]; intros pos; [reflexivity|].
  cbn [star name_run name_boundary]. rewrite IH. apply orb_comm.
Qed.

Lemma star_first_word (s : pystr) (pos : nat) :
  star ascii_letter (fun _ t => name_groups t) pos s = name_run FirstWord s.
Proof.
  revert pos. induction s as [|c t IH]; intros pos; [reflexivity|].
  cbn [star name_run name_groups]. rewrite IH. apply orb_comm.
Qed.

(** One more word: a whitespace character and letters. *)
Lemma group_step (pos : nat) (s : pystr) (k : nat -> pystr -> bool) :
  (forall pos' t, (2 + List.length t <= List.length s)%nat ->
                  k pos' t = name_boundary t) ->
  rmatch (Cat (Cls unicode_space) (plus (Cls ascii_letter))) pos s k
  = name_groups s.
Proof.
  intros Hk.
  change (one_char unicode_space pos s
            (fun p t => rmatch (plus (Cls ascii_letter)) p t k)
          = name_groups s).
  destruct s as [|c t]; [reflexivity|].
  cbn [one_char name_groups]. f_equal.
  rewrite rmatch_plus_cls.
  destruct t as [|c' t']; [reflexivity|].
  cbn [name_run]. f_equal.
  rewrite (@star_ext ascii_letter k (fun _ u => name_boundary u)).
  - apply star_later_word.
  - intros pos' u Hu. apply Hk. cbn [List.length]. lia.
Qed.

Lemma iterate_groups (k : nat -> pystr -> bool) :
  (forall pos t, k pos t = ends t) ->
  forall fuel n pos s,
    (1 <= n)%nat -> (List.length s <= fuel)%nat ->
    iterate (rmatch (Cat (Cls unicode_space) (plus (Cls ascii_letter))))
      1 None k fuel n pos s
    = name_boundary s.
Proof.
  intros Hk. induction fuel as [|fuel IH]; intros n pos s Hn Hlen;
    cbn [iterate];
    replace (1 <=? n)%nat with true by (symmetry; apply Nat.leb_le; lia);
    rewrite Hk.
  - destruct s as [|c t]; [reflexivity|cbn in Hlen; lia].
  - cbn [below andb]. rewrite group_step.
    + now destruct s.
    + intros pos' t Ht. apply IH; lia.
Qed.

Lemma rmatch_plus_groups (k : nat -> pystr -> bool) (pos : nat) (s : pystr) :
  (forall pos' t, k pos' t = ends t) ->
  rmatch (plus (Cat (Cls unicode_space) (plus (Cls ascii_letter)))) pos s k
  = name_groups s.
Proof.
  intros Hk. unfold plus at 1. cbn [rmatch]. fold (plus (Cls ascii_letter)).
  cbn [Nat.add iterate Nat.leb andb orb below].
  apply group_step. intros pos' t Ht.
  apply iterate_groups; [assumption|lia|lia].
Qed.

(** The words of the pattern, behind the lookahead. *)
Lemma rmatch_name_words (pos : nat) (s : pystr) :
  rmatch (cats [plus (Cls ascii_letter);
                plus (Cat (Cls unicode_space) (plus (Cls ascii_letter)));
                Dollar])
    pos s (fun _ t => ends t)
  = name_run FirstStart s.
Proof.
  cbn [cats].
  change (rmatch (Cat ?a ?b) pos s ?k)
    with (rmatch a pos s (fun p t => rmatch b p t k)).
  rewrite rmatch_plus_cls.
  destruct s as [|c t]; [reflexivity|].
  cbn [name_run]. f_equal.
  rewrite (@star_ext ascii_letter _ (fun _ u => name_groups u)).
  - apply star_first_word.
  - intros pos' u _.
    change (rmatch (Cat ?a ?b) pos' u ?k)
      with (rmatch a pos' u (fun p t => rmatch b p t k)).
    apply rmatch_plus_groups. intros p v. cbn [rmatch]. apply dollar_ends.
Qed.

Lemma ascii_letter_not_newline (c : N) :
  ascii_letter c = true -> negb (c =? 10)%N = true.
Proof.
  unfold ascii_letter, in_range. intros H.
  apply negb_true_iff, N.eqb_neq. intros ->. discriminate H.
Qed.

Lemma name_run_no_final_newline (s : pystr) :
  forall q, name_run q s = true -> no_final_newline s = true.
Proof.
  induction s as [|c t IH]; intros q H; [reflexivity|].
  destruct t as [|c' t'].
  - cbn [no_final_newline]. apply ascii_letter_not_newline.
    destruct q; cbn [name_run] in H;
      rewrite ?andb_false_r, ?orb_false_r in H; try discriminate H;
      now rewrite andb_true_r in H.
  - change (no_final_newline (c :: c' :: t'))
      with (no_final_newline (c' :: t')).
    change (name_run q (c :: c' :: t')) with
      (match q with
       | FirstStart => ascii_letter c && name_run FirstWord (c' :: t')
       | FirstWord =>
           (ascii_letter c && name_run FirstWord (c' :: t'))
           || (unicode_space c && name_run LaterStart (c' :: t'))
       | LaterStart => ascii_letter c && name_run LaterWord (c' :: t')
       | LaterWord =>
           (ascii_letter c && name_run LaterWord (c' :: t'))
           || (unicode_space c && name_run LaterStart (c' :: t'))
       end) in H.
    destruct q;
      repeat match type of H with
             | (_ || _)%bool = true => apply orb_true_iff in H as [H|H]
             | (_ && _)%bool = true => apply andb_true_iff in H as [_ H]
             end;
      exact (IH _ H).
Qed.

Lemma at_dollar_no_final_newline (s : pystr) :
  no_final_newline s = true -> at_dollar s = ends s.
Proof.
  destruct s as [|c [|c' t]]; try reflexivity.
  cbn. now intros ->%negb_true_iff.
Qed.

Lemma no_final_newline_tail (c : N) (t : pystr) :
  no_final_newline (c :: t) = true -> no_final_newline t = true.
Proof. now destruct t. Qed.

(** The lookahead [(?=^.{10,50}$)] on a subject that does not end with a
    newline. *)
Lemma iterate_dots :
  forall fuel n pos s,
    (n + fuel = 50)%nat ->
    no_final_newline s = true ->
    iterate (one_char (fun c => negb (c =? 10)%N)) 10 (Some 50%nat)
      (fun _ t => at_dollar t && true) fuel n pos s
    = (10 <=? n + List.length s)%nat && (List.length s <=? fuel)%nat
      && one_line s.
Proof.
  induction fuel as [|fuel IH]; intros n pos s Hn Hs; cbn [iterate];
    rewrite (at_dollar_no_final_newline _ Hs).
  - destruct s as [|c t]; cbn [ends List.length one_line forallb Nat.leb].
    + rewrite Nat.add_0_r. now destruct (10 <=? n)%nat.
    + now rewrite andb_false_r, andb_false_r.
  - replace (below n (Some 50%nat)) with true
      by (symmetry; apply Nat.ltb_lt; lia).
    destruct s as [|c t]; cbn [ends one_char List.length one_line forallb].
    + rewrite Nat.add_0_r. now destruct (10 <=? n)%nat.
    + rewrite (IH (S n) (S pos) t) by
        (try lia; now apply no_final_newline_tail in Hs).
      replace (n + S (List.length t))%nat with (S n + List.length t)%nat by lia.
      change (S (List.length t) <=? S fuel)%nat
        with (List.length t <=? fuel)%nat.
      unfold one_line.
      destruct (10 <=? n)%nat, (10 <=? S n + List.length t)%nat,
        (List.length t <=? fuel)%nat, (negb (c =? 10)%N); reflexivity.
Qed.

Lemma fullmatch_name_surname (s : pystr) :
  fullmatch name_surname_pattern s = name_shape s.
Proof.
  unfold fullmatch, name_surname_pattern.
  change (rmatch (cats [Caret; Ahead ?la; ?a; ?b; Dollar]) 0 s ?k)
    with ((0 =? 0)%nat
          && (rmatch la 0 s (fun _ _ => true)
              && rmatch (cats [a; b; Dollar]) 0 s k)).
  change (fun (_ : nat) (t : pystr) => match t with [] => true | _ :: _ => false end)
    with (fun (_ : nat) (t : pystr) => ends t).
  rewrite rmatch_name_words. cbn [Nat.eqb andb].
  unfold name_shape.
  destruct (name_run FirstStart s) eqn:Hrun;
    [|now rewrite !andb_false_r].
  rewrite !andb_true_r.
  change (rmatch (cats [Caret; Rep Dot 10 (Some 50%nat); Dollar]) 0 s
            (fun _ _ => true))
    with ((0 =? 0)%nat
          && iterate (one_char (fun c => negb (c =? 10)%N)) 10 (Some 50%nat)
               (fun _ t => at_dollar t && true) 50 0 0 s).
  cbn [Nat.eqb andb].
  apply name_run_no_final_newline in Hrun.
  now rewrite (iterate_dots 50 0 0 s eq_refl Hrun).
Qed.

(** X20: the names [check_data] accepts are those of [name_shape]: from
    10 to 50 characters, none of them a newline, that make two or more
    words of the letters a-z and A-Z with one whitespace character between
    two words, none before the first word and none after the last.  Any
    other name is refused with 'Invalid name format', before the other
    fields are looked at and before the clock is read. *)
Theorem name_surname_exact (name_surname : pystr) :
  fullmatch name_surname_pattern name_surname = name_shape name_surname
  /\ (name_shape name_surname = false ->
      forall arrival_date credit_card id_card num_days phone_number room_type w,
        check_data arrival_date credit_card id_card name_surname num_days
          phone_number room_type w
        = (HME "Invalid name format", w)).
Proof.
  split; [apply fullmatch_name_surname|].
  intros H arrival_date credit_card id_card num_days phone_number room_type w.
  unfold check_data. now rewrite fullmatch_name_surname, H.
Qed.

(** X21: the attribute classes accept what the manager's validators
    accept.  With the base class matching the whole value against the
    pattern of the subclass, [ArrivalDate] accepts the dates of
    [arrival_date_shape], the hyphen before day 30 and 31 included,
    [Localizer] 32 and [RoomKey] 64 hexadecimal digits, [NameSurname] the
    names of [name_shape] and [RoomType] the three room types; each returns
    the value it accepts and raises its own message on any other. *)
Theorem attribute_classes_exact (s : pystr) :
  ArrivalDate s
  = (if arrival_date_shape s then Ok s else HME "Invalid date format")
  /\ Localizer s
     = (if all_of 32 hex_digit s then Ok s else HME "Invalid localizer")
  /\ NameSurname s
     = (if name_shape s then Ok s else HME "Invalid name format")
  /\ RoomKey s
     = (if all_of 64 hex_digit s then Ok s else HME "Invalid room key format")
  /\ RoomType s
     = (if room_type_shape s then Ok s else HME "Invalid roomtype value").
Proof.
  unfold ArrivalDate, Localizer, NameSurname, RoomKey, RoomType,
    Attribute_validate.
  rewrite fullmatch_arrival_date, !fullmatch_caret_exactly_dollar,
    fullmatch_name_surname, fullmatch_room_type.
  destruct (arrival_date_shape s), (all_of 32 hex_digit s), (name_shape s),
    (all_of 64 hex_digit s), (room_type_shape s); repeat split.
Qed.

(** ** A reservation that is made, and one that is not *)

(** X7: a call of [room_reservation] returns only for a request all of
    whose fields pass their validation.  It then returns the localizer of
    the reservation made at the one reading of the clock; the reservation
    store held a list of records none of which had that localizer or the id
    card, and now holds the same list with the new record at its end; the
    other stores, the input files and the directory are what they were. *)
Theorem room_reservation_returns
    (credit_card name_surname id_card phone_number room_type arrival_date : pystr)
    (num_days : pyval) (w w' : World) (localizer : pystr) :
  room_reservation credit_card name_surname id_card phone_number room_type
    arrival_date num_days w = (Ok localizer, w') ->
  let r := reservation_of (clock (ticks w)) credit_card name_surname id_card
             phone_number room_type arrival_date num_days in
  valid_request credit_card name_surname id_card phone_number room_type
    arrival_date num_days
  /\ localizer = r_localizer r
  /\ ticks w' = S (ticks w)
  /\ (exists items,
        records_of (store_reservation (fs w)) = Some items
        /\ existsb (fun item => has_localizer localizer item
                                || has_id_card id_card item) items = false
        /\ store_reservation (fs w')
           = Some (Json (PList (items ++ [reservation_dict r]))))
  /\ store_check_in (fs w') = store_check_in (fs w)
  /\ store_check_out (fs w') = store_check_out (fs w)
  /\ input_files (fs w') = input_files (fs w)
  /\ json_dir (fs w') = json_dir (fs w).
Proof.
  intros Hrun r.
  apply room_reservation_inv in Hrun
    as (Hvalid & -> & Hdir & items & Hrec & Hcheck & ->).
  fold r in Hcheck |- *.
  split; [exact Hvalid|]. split; [reflexivity|]. split; [reflexivity|].
  split; [|repeat split].
  exists items. split; [assumption|]. split; [|reflexivity].
  apply first_duplicate_none.
  pose proof (@check_not_stored_ok r id_card items eq_refl Hcheck)
    as (Hkeyed & _ & _).
  rewrite (@check_not_stored_first r id_card items eq_refl Hkeyed) in Hcheck.
  now destruct (first_duplicate (r_localizer r) id_card items).
Qed.

(** X8: a request with a field that does not pass fails before the clock
    is read and before any file is opened: the exception is the same in
    every world, and the world is left as it was, the clock included. *)
Theorem room_reservation_invalid
    (credit_card name_surname id_card phone_number room_type arrival_date : pystr)
    (num_days : pyval) :
  ~ valid_request credit_card name_surname id_card phone_number room_type
      arrival_date num_days ->
  exists e, forall w,
    room_reservation credit_card name_surname id_card phone_number room_type
      arrival_date num_days w = (Raise e, w).
Proof.
  intros Hinvalid. unfold room_reservation, check_data.
  destruct (check_id_card id_card) as [[]|e] eqn:Hid;
    [|exists e; reflexivity].
  destruct (validate_room_type room_type) as [room_type'|e] eqn:Hrt;
    [|exists e; reflexivity].
  apply validate_room_type_id in Hrt as E. subst room_type'.
  destruct (fullmatch name_surname_pattern name_surname) eqn:Hname;
    [|eexists; reflexivity].
  destruct (validatecreditcard credit_card) as [cc|e] eqn:Hcc;
    [|exists e; reflexivity].
  apply validatecreditcard_id in Hcc as E. subst cc.
  destruct (validate_arrival_date arrival_date) as [ad|e] eqn:Had;
    [|exists e; reflexivity].
  apply validate_arrival_date_id in Had as E. subst ad.
  destruct (validate_numdays num_days) as [nd|e] eqn:Hnd;
    [|exists e; reflexivity].
  apply validate_numdays_id in Hnd as E. subst nd.
  destruct (validate_phonenumber phone_number) as [ph|e] eqn:Hph;
    [|exists e; reflexivity].
  apply validate_phonenumber_id in Hph as E. subst ph.
  exfalso. apply Hinvalid. now repeat split.
Qed.

(** The loop of [room_reservation] over a store that ends with a record of
    the same id card. *)
Lemma check_not_stored_same_id_card (r1 r2 : HotelReservation) (idc : pystr)
    (items : list pyval) :
  r_id_card r1 = PStr idc ->
  r_id_card r2 = PStr idc ->
  check_not_stored r1 items = Ok tt ->
  exists msg,
    (msg = "Reservation already exists"%string
     \/ msg = "This ID card has another reservation"%string)
    /\ check_not_stored r2 (items ++ [reservation_dict r1]) = HME msg.
Proof.
  intros H1 H2. induction items as [|item rest IH].
  - intros _. cbn [app check_not_stored].
    replace (py_getitem (reservation_dict r1) (str "_HotelReservation__localizer"))
      with (@Ok pyval (PStr (r_localizer r1))) by reflexivity.
    replace (py_getitem (reservation_dict r1) (str "_HotelReservation__id_card"))
      with (@Ok pyval (r_id_card r1)) by reflexivity.
    cbn [rbind]. rewrite H1, H2. cbn [py_eq].
    destruct (pystr_eqb (r_localizer r2) (r_localizer r1)).
    + eexists. split; [left; reflexivity | reflexivity].
    + rewrite pystr_eqb_refl.
      eexists. split; [right; reflexivity | reflexivity].
  - cbn [app check_not_stored].
    destruct (py_getitem item (str "_HotelReservation__localizer")) as [l|];
      [|discriminate].
    cbn [rbind].
    destruct (py_eq (PStr (r_localizer r1)) l); [discriminate|].
    destruct (py_getitem item (str "_HotelReservation__id_card")) as [i|];
      [|discriminate].
    cbn [rbind]. rewrite H1, H2.
    destruct (py_eq (PStr idc) i); [discriminate|].
    intros Hrest.
    destruct (py_eq (PStr (r_localizer r2)) l).
    + eexists. split; [left; reflexivity | reflexivity].
    + exact (IH Hrest).
Qed.

(** X9: one reservation for an id card.  After a call of
    [room_reservation] that returned, the next request under the same id
    card, valid and whatever its other fields, is refused with 'Reservation
    already exists' or 'This ID card has another reservation', and nothing
    is written. *)
Theorem second_reservation_refused
    (credit_card name_surname id_card phone_number room_type arrival_date : pystr)
    (num_days : pyval)
    (credit_card' name_surname' phone_number' room_type' arrival_date' : pystr)
    (num_days' : pyval) (w w' : World) (localizer : pystr) :
  room_reservation credit_card name_surname id_card phone_number room_type
    arrival_date num_days w = (Ok localizer, w') ->
  valid_request credit_card' name_surname' id_card phone_number' room_type'
    arrival_date' num_days' ->
  exists msg,
    (msg = "Reservation already exists"%string
     \/ msg = "This ID card has another reservation"%string)
    /\ room_reservation credit_card' name_surname' id_card phone_number'
         room_type' arrival_date' num_days' w'
       = (HME msg, tick w').
Proof.
  intros Hrun Hvalid'.
  apply room_reservation_inv in Hrun
    as (_ & _ & Hdir & items & Hrec & Hcheck & ->).
  set (r1 := reservation_of _ _ _ _ _ _ _ _) in *.
  set (w' := {| fs := _; ticks := _ |}).
  rewrite (room_reservation_valid w' Hvalid').
  set (r2 := reservation_of (clock (ticks w')) _ _ _ _ _ _ _).
  destruct (@check_not_stored_same_id_card r1 r2 id_card items
              eq_refl eq_refl Hcheck) as (msg & Hmsg & Hagain).
  exists msg. split; [assumption|].
  unfold bind at 1.
  rewrite (@load_or_empty_records (tick w')
             (items ++ [reservation_dict r1]) Hdir eq_refl).
  unfold bind at 1. unfold lift at 1. cbn [py_iter].
  unfold bind at 1. unfold lift at 1. rewrite Hagain. reflexivity.
Qed.

(** X10: a reservation store that holds a JSON value other than a list.
    A valid request then ends with the [TypeError] of the loop over the
    value or of the subscript of its first item, or, the value being an
    empty object or string, with the [AttributeError] of [append]: never
    with a HotelManagementException, and never with a reservation. *)
Theorem reservation_store_not_a_list
    (credit_card name_surname id_card phone_number room_type arrival_date : pystr)
    (num_days : pyval) (w : World) (v : pyval) :
  valid_request credit_card name_surname id_card phone_number room_type
    arrival_date num_days ->
  json_dir (fs w) = true ->
  store_reservation (fs w) = Some (Json v) ->
  (forall l, v <> PList l) ->
  room_reservation credit_card name_surname id_card phone_number room_type
    arrival_date num_days w
  = (Raise (match py_iter v with
            | Ok [] => AttributeError
            | _ => TypeError
            end), tick w).
Proof.
  intros Hvalid Hdir Hstore Hlist.
  rewrite (room_reservation_valid w Hvalid).
  unfold bind at 1.
  rewrite (@load_or_empty_json StoreReservation v (tick w))
    by (cbn; now rewrite Hdir).
  unfold bind at 1. unfold lift at 1.
  destruct v as [|b|z|f|s|items|d|o]; try reflexivity.
  - destruct s as [|c s]; reflexivity.
  - now destruct (Hlist items).
  - destruct d as [|[k x] d]; reflexivity.
Qed.

(** X22: without the directory of the stores a valid request finds no
    reservation store, takes the store for empty, and fails when it writes,
    with 'Wrong file  or file path'. *)
Theorem room_reservation_no_directory
    (credit_card name_surname id_card phone_number room_type arrival_date : pystr)
    (num_days : pyval) (w : World) :
  valid_request credit_card name_surname id_card phone_number room_type
    arrival_date num_days ->
  json_dir (fs w) = false ->
  room_reservation credit_card name_surname id_card phone_number room_type
    arrival_date num_days w
  = (HME "Wrong file  or file path", tick w).
Proof.
  intros Hvalid Hdir.
  rewrite (room_reservation_valid w Hvalid).
  unfold bind at 1.
  rewrite (@load_or_empty_absent StoreReservation (tick w))
    by (cbn; now rewrite Hdir).
  unfold bind, lift. cbn [py_iter check_not_stored py_append].
  rewrite write_into_json_run.
  cbn [write_file fs tick]. now rewrite Hdir.
Qed.

(** ** An arrival that is registered *)

Lemma create_new_reservation_returns (my_id_card my_localizer : pystr)
    (store_list arrival days room_type : pyval) :
  create_new_reservation my_id_card my_localizer store_list
  = Ok (arrival, days, room_type) ->
  exists items m,
    store_list = PList items
    /\ find_reservation my_localizer items None = Ok (Some m)
    /\ reservation_id_card m = PStr my_id_card
    /\ integrity_check my_localizer m = Ok tt
    /\ arrival = reservation_date_arrival m
    /\ days = reservation_days m
    /\ room_type = reservation_room_type m.
Proof.
  unfold create_new_reservation.
  destruct (py_iter store_list) as [items|] eqn:Hiter; [|discriminate].
  cbn [rbind].
  destruct (find_reservation my_localizer items None) as [[m|]|] eqn:Hfind;
    try discriminate.
  cbn [rbind].
  destruct (py_eq (PStr my_id_card) (reservation_id_card m)) eqn:Hown;
    [|discriminate].
  cbn [negb]. fold (integrity_check my_localizer m).
  destruct (integrity_check my_localizer m) as [[]|] eqn:Hint; [|discriminate].
  cbn [rbind]. intros [= <- <- <-].
  rewrite py_eq_str in Hown. apply is_str_true in Hown. injection Hown as Hown.
  exists items, m. repeat split; try assumption.
  destruct store_list as [|b|z|f|s|l|d|o]; try discriminate.
  - destruct s as [|c s]; injection Hiter as <-; discriminate.
  - now injection Hiter as <-.
  - destruct d as [|[k x] d]; injection Hiter as <-; discriminate.
Qed.

Lemma check_not_checked_in_ok (room_key : pystr) (items : list pyval) :
  check_not_checked_in room_key items = Ok tt ->
  forallb (fun item => negb (has_room_key room_key item)) items = true.
Proof.
  induction items as [|item rest IH]; [reflexivity|].
  cbn [check_not_checked_in forallb]. unfold has_room_key at 1.
  destruct (py_getitem item (str "_HotelStay__room_key")) as [k|];
    [|discriminate].
  cbn [rbind]. rewrite py_eq_str.
  destruct (is_str room_key (Ok k)); [discriminate|].
  intros H. now rewrite (IH H).
Qed.

Lemma save_checkin_returns (my_checkin : pystr * pyval) (w w' : World) :
  save_checkin my_checkin w = (Ok tt, w') ->
  json_dir (fs w) = true
  /\ exists checkins,
       records_of (store_check_in (fs w)) = Some checkins
       /\ check_not_checked_in (fst my_checkin) checkins = Ok tt
       /\ w' = {| fs := with_check_ins
                          (Some (Json (PList (checkins ++ [snd my_checkin]))))
                          (fs w);
                  ticks := ticks w |}.
Proof.
  unfold save_checkin. unfold bind at 1.
  unfold store_data_into_list_if_file_exists, try_except, json_load.
  cbn [read_file].
  destruct (json_dir (fs w)) eqn:Hdir.
  - destruct (store_check_in (fs w)) as [[|v| | |]|] eqn:Hstore;
      try discriminate.
    + unfold bind at 1. unfold lift at 1.
      destruct (py_iter v) as [its|] eqn:Hiter; [|discriminate].
      unfold bind at 1. unfold lift at 1.
      destruct (check_not_checked_in (fst my_checkin) its) as [[]|] eqn:Hcheck;
        [|discriminate].
      unfold bind at 1. unfold lift at 1.
      destruct v as [|b|z|f|s|items|d|o]; try discriminate.
      injection Hiter as <-. cbn [py_append].
      rewrite write_into_json_run. cbn [write_file fs]. rewrite Hdir.
      destruct (json_value _); [|discriminate].
      intros [= <-]. split; [reflexivity|].
      exists items. now repeat split.
    + unfold bind, lift, ret. cbn [py_iter check_not_checked_in py_append].
      rewrite write_into_json_run. cbn [write_file fs]. rewrite Hdir.
      destruct (json_value _); [|discriminate].
      intros [= <-]. split; [reflexivity|].
      exists []. now repeat split.
  - unfold bind, lift, ret. cbn [py_iter check_not_checked_in py_append].
    rewrite write_into_json_run. cbn [write_file fs]. rewrite Hdir.
    discriminate.
Qed.

Lemma check_equals_date_returns (v : pyval) (w w' : World) :
  check_equals_date v w = (Ok tt, w') ->
  w' = tick w
  /\ exists date_obj,
       strptime_dmy v = Ok date_obj
       /\ date_of date_obj = date_of (clock (ticks w)).
Proof.
  destruct (strptime_dmy v) as [date_obj|] eqn:Hd.
  - rewrite (check_equals_date_run w Hd).
    destruct (date_eqb _ _) eqn:E; [|discriminate].
    intros [= <-]. split; [reflexivity|].
    exists date_obj. split; [reflexivity|]. now apply date_eqb_eq.
  - unfold check_equals_date, bind, lift. rewrite Hd. discriminate.
Qed.

(** What a call of [guest_arrival] that returns has done. *)
Lemma guest_arrival_inv (file_input : pystr) (w w' : World)
    (room_key : pystr) :
  guest_arrival file_input w = (Ok room_key, w') ->
  exists input_list my_id_card my_localizer items m date_obj numdays stay
         checkins,
    input_files (fs w) file_input = Some (Json input_list)
    /\ get_and_validate_json input_list = Ok (my_id_card, my_localizer)
    /\ store_reservation (fs w) = Some (Json (PList items))
    /\ find_reservation my_localizer items None = Ok (Some m)
    /\ reservation_id_card m = PStr my_id_card
    /\ integrity_check my_localizer m = Ok tt
    /\ strptime_dmy (reservation_date_arrival m) = Ok date_obj
    /\ date_of date_obj = date_of (clock (ticks w))
    /\ py_int (reservation_days m) = Ok numdays
    /\ new_HotelStay (clock (S (ticks w))) (PStr my_id_card) numdays
         (PStr my_localizer) (reservation_room_type m) = Ok (room_key, stay)
    /\ records_of (store_check_in (fs w)) = Some checkins
    /\ forallb (fun item => negb (has_room_key room_key item)) checkins = true
    /\ w' = {| fs := with_check_ins
                       (Some (Json (PList (checkins ++ [stay])))) (fs w);
               ticks := S (S (ticks w)) |}.
Proof.
  unfold guest_arrival. unfold bind at 1.
  unfold store_json_into_list at 1. unfold try_except, json_load.
  cbn [read_file].
  destruct (input_files (fs w) file_input) as [[|input_list| | |]|] eqn:Hin;
    try discriminate.
  unfold bind at 1. unfold lift at 1.
  destruct (get_and_validate_json input_list)
    as [[my_id_card my_localizer]|] eqn:Hval; [|discriminate].
  unfold bind at 1.
  unfold store_json_into_list at 1. unfold try_except, json_load.
  destruct (read_file StoreReservation (fs w))
    as [[|store_list| | |]|] eqn:Hstore;
    try discriminate.
  unfold bind at 1. unfold lift at 1.
  destruct (create_new_reservation my_id_card my_localizer store_list)
    as [[[arrival days] room_type]|] eqn:Hcreate; [|discriminate].
  apply create_new_reservation_returns in Hcreate
    as (items & m & -> & Hfind & Hown & Hint & -> & -> & ->).
  unfold bind at 1.
  destruct (check_equals_date (reservation_date_arrival m) w)
    as [[[]|] w1] eqn:Hdate; [|discriminate].
  apply check_equals_date_returns in Hdate as (-> & date_obj & Hparse & Hday).
  unfold bind at 1. unfold lift at 1.
  destruct (py_int (reservation_days m)) as [numdays|] eqn:Hdays;
    [|discriminate].
  unfold bind at 1. unfold utcnow at 1. cbn [tick ticks fs].
  unfold bind at 1. unfold lift at 1.
  destruct (new_HotelStay (clock (S (ticks w))) (PStr my_id_card) numdays
              (PStr my_localizer) (reservation_room_type m))
    as [[key stay]|] eqn:Hstay; [|discriminate].
  unfold bind at 1.
  destruct (save_checkin (key, stay) _) as [[[]|] w2] eqn:Hsave;
    [|discriminate].
  apply save_checkin_returns in Hsave as (Hdir & checkins & Hrec & Hcheck & ->).
  cbn [tick fs] in Hdir. cbn [read_file] in Hstore. rewrite Hdir in Hstore.
  cbn [fst snd fs ticks] in *. unfold ret. intros [= <- <-].
  apply check_not_checked_in_ok in Hcheck.
  exists input_list, my_id_card, my_localizer, items, m, date_obj, numdays,
    stay, checkins.
  now repeat split.
Qed.

(** X11: a call of [guest_arrival] returns only when every check has
    passed.  The input file is a JSON object with a well-formed localizer
    and id card; the reservation store is a list, and the loop over it
    ended on a record
    under that localizer whose id card is the caller's, whose localizer is
    the one its fields give again, and whose arrival date is the day the
    clock shows; the stay built from it at the second reading of the clock
    has the room key returned, which no stored stay had.  The only effect
    is that stay at the end of the check-in store: the reservations, the
    check-outs and the input files are what they were. *)
Theorem guest_arrival_returns (file_input : pystr) (w w' : World)
    (room_key : pystr) :
  guest_arrival file_input w = (Ok room_key, w') ->
  exists input_list my_id_card my_localizer items m date_obj numdays stay
         checkins,
    input_files (fs w) file_input = Some (Json input_list)
    /\ get_and_validate_json input_list = Ok (my_id_card, my_localizer)
    /\ store_reservation (fs w) = Some (Json (PList items))
    /\ find_reservation my_localizer items None = Ok (Some m)
    /\ reservation_id_card m = PStr my_id_card
    /\ integrity_check my_localizer m = Ok tt
    /\ strptime_dmy (reservation_date_arrival m) = Ok date_obj
    /\ date_of date_obj = date_of (clock (ticks w))
    /\ py_int (reservation_days m) = Ok numdays
    /\ new_HotelStay (clock (S (ticks w))) (PStr my_id_card) numdays
         (PStr my_localizer) (reservation_room_type m) = Ok (room_key, stay)
    /\ records_of (store_check_in (fs w)) = Some checkins
    /\ forallb (fun item => negb (has_room_key room_key item)) checkins = true
    /\ w' = {| fs := with_check_ins
                       (Some (Json (PList (checkins ++ [stay])))) (fs w);
               ticks := S (S (ticks w)) |}.
Proof. exact (@guest_arrival_inv file_input w w' room_key). Qed.

Lemma read_reservation_dict (r : HotelReservation) :
  read_reservation (reservation_dict r) = Ok (fields_of_reservation r).
Proof. reflexivity. Qed.

(** The loop of [create_new_reservation] over a store that ends with the
    record of a reservation just made. *)
Lemma find_reservation_fresh (r : HotelReservation) (items : list pyval) :
  check_not_stored r items = Ok tt ->
  forall found,
    find_reservation (r_localizer r) (items ++ [reservation_dict r]) found
    = Ok (Some (fields_of_reservation r)).
Proof.
  induction items as [|item rest IH]; intros Hcheck found.
  - cbn [app find_reservation].
    replace (py_getitem (reservation_dict r) (str "_HotelReservation__localizer"))
      with (@Ok pyval (PStr (r_localizer r))) by reflexivity.
    cbn [rbind py_eq]. rewrite pystr_eqb_refl, read_reservation_dict.
    reflexivity.
  - cbn [app find_reservation]. cbn [check_not_stored] in Hcheck.
    destruct (py_getitem item (str "_HotelReservation__localizer")) as [l|];
      [|discriminate].
    cbn [rbind] in Hcheck |- *.
    destruct (py_eq (PStr (r_localizer r)) l); [discriminate|].
    destruct (py_getitem item (str "_HotelReservation__id_card")) as [i|];
      [|discriminate].
    cbn [rbind] in Hcheck.
    destruct (py_eq (r_id_card r) i); [discriminate|].
    now apply IH.
Qed.

(** X12: a reservation just made passes the checks of its arrival.  After
    a call of [room_reservation] that returned the localizer, and with an
    input file that names that localizer and the id card of the request,
    [guest_arrival] finds the new record, whatever else the store holds,
    takes the id card for the owner's and the record for intact, and goes on
    to the date check with the arrival date, the days and the room type of
    the request, provided the stored creation time is read back to the
    instant it was taken from. *)
Theorem reservation_then_arrival
    (credit_card name_surname id_card phone_number room_type arrival_date : pystr)
    (num_days : pyval) (w w' : World) (localizer file_input : pystr)
    (input_list : pyval) (reservation_date : datetime) :
  room_reservation credit_card name_surname id_card phone_number room_type
    arrival_date num_days w = (Ok localizer, w') ->
  input_files (fs w) file_input = Some (Json input_list) ->
  get_and_validate_json input_list = Ok (id_card, localizer) ->
  fromtimestamp (PFloat (timestamp (clock (ticks w)))) = Ok reservation_date ->
  timestamp reservation_date = timestamp (clock (ticks w)) ->
  let r := reservation_of (clock (ticks w)) credit_card name_surname id_card
             phone_number room_type arrival_date num_days in
  reservation_date_arrival (fields_of_reservation r) = PStr arrival_date
  /\ reservation_days (fields_of_reservation r) = num_days
  /\ reservation_room_type (fields_of_reservation r) = PStr room_type
  /\ guest_arrival file_input w'
     = arrival_after_integrity id_card localizer (fields_of_reservation r) w'.
Proof.
  intros Hrun Hin Hval Hts Hback r.
  repeat (split; [reflexivity|]).
  apply room_reservation_inv in Hrun
    as (_ & -> & Hdir & items & Hrec & Hcheck & ->).
  fold r in Hcheck |- *.
  set (w' := {| fs := _; ticks := _ |}).
  rewrite (@guest_arrival_lookup file_input w' input_list id_card
             (r_localizer r) (items ++ [reservation_dict r])
             (Some (fields_of_reservation r))).
  - unfold arrival_checks.
    replace (reservation_id_card (fields_of_reservation r))
      with (PStr id_card) by reflexivity.
    cbn [py_eq]. rewrite pystr_eqb_refl. cbn [negb].
    unfold bind at 1. unfold lift at 1.
    rewrite (@integrity_check_recomputed (r_localizer r)
               (fields_of_reservation r) reservation_date Hts).
    replace (r_localizer (recomputed reservation_date (fields_of_reservation r)))
      with (r_localizer r).
    + now rewrite pystr_eqb_refl.
    + unfold recomputed, new_HotelReservation. cbn [r_localizer].
      rewrite Hback. reflexivity.
  - exact Hin.
  - exact Hval.
  - cbn [read_file w' fs with_reservations json_dir store_reservation].
    now rewrite Hdir.
  - now apply find_reservation_fresh.
Qed.

(** X16: the input file of an arrival is checked before anything else.
    With no such file the call fails with 'Error: file input not found';
    with a file whose text is no JSON document, with 'JSON Decode Error -
    Wrong JSON Format'; with a file [json.load] cannot read for another
    reason, with the exception of that reading, which nothing catches: a
    [UnicodeDecodeError] for bytes that are no UTF-8, a [ValueError] for an
    integer of too many digits, a [RecursionError] for a document nested too
    deep; and with a document [get_and_validate_json] refuses, with the
    exception of that refusal.  In each case whatever the stores hold,
    without a reading of the clock, and the world is left as it was. *)
Theorem guest_arrival_input_errors (file_input : pystr) (w : World) :
  (input_files (fs w) file_input = None ->
   guest_arrival file_input w = (HME "Error: file input not found", w))
  /\ (input_files (fs w) file_input = Some NotJson ->
      guest_arrival file_input w
      = (HME "JSON Decode Error - Wrong JSON Format", w))
  /\ (input_files (fs w) file_input = Some NotUtf8 ->
      guest_arrival file_input w = (Raise UnicodeDecodeError, w))
  /\ (input_files (fs w) file_input = Some HugeInt ->
      guest_arrival file_input w = (Raise ValueError, w))
  /\ (input_files (fs w) file_input = Some TooDeep ->
      guest_arrival file_input w = (Raise RecursionError, w))
  /\ (forall input_list e,
        input_files (fs w) file_input = Some (Json input_list) ->
        get_and_validate_json input_list = Raise e ->
        guest_arrival file_input w = (Raise e, w)).
Proof.
  unfold guest_arrival. repeat split.
  - intros H. unfold bind at 1.
    now rewrite (@load_absent (InputFile file_input) _ w H).
  - intros H. unfold bind at 1.
    now rewrite (@load_malformed (InputFile file_input) _ w H).
  - intros H. unfold bind at 1.
    now rewrite (@load_uncaught (InputFile file_input) _ _ _ w H eq_refl).
  - intros H. unfold bind at 1.
    now rewrite (@load_uncaught (InputFile file_input) _ _ _ w H eq_refl).
  - intros H. unfold bind at 1.
    now rewrite (@load_uncaught (InputFile file_input) _ _ _ w H eq_refl).
  - intros input_list e H Hval. unfold bind at 1.
    rewrite (@load_json (InputFile file_input) _ input_list w H).
    unfold bind at 1. unfold lift at 1. now rewrite Hval.
Qed.

(** ** A departure that is registered *)

Lemma check_not_out_ok (room_key : pystr) (items : list pyval) :
  check_not_out room_key items = Ok tt ->
  forallb (fun item => negb (checked_out room_key item)) items = true.
Proof.
  induction items as [|item rest IH]; [reflexivity|].
  cbn [check_not_out forallb]. unfold checked_out at 1.
  destruct (py_getitem item (str "room_key")) as [k|]; [|discriminate].
  cbn [rbind]. rewrite py_eq_str_r.
  destruct (is_str room_key (Ok k)); [discriminate|].
  intros H. now rewrite (IH H).
Qed.

Lemma check_not_out_again (room_key : pystr) (now : datetime)
    (items : list pyval) :
  check_not_out room_key items = Ok tt ->
  check_not_out room_key (items ++ [checkout_record room_key now])
  = HME "Guest is already out".
Proof.
  induction items as [|item rest IH].
  - intros _. cbn [app check_not_out].
    replace (py_getitem (checkout_record room_key now) (str "room_key"))
      with (@Ok pyval (PStr room_key)) by reflexivity.
    cbn [rbind py_eq]. now rewrite pystr_eqb_refl.
  - cbn [app check_not_out].
    destruct (py_getitem item (str "room_key")) as [k|]; [|discriminate].
    cbn [rbind]. destruct (py_eq k (PStr room_key)); [discriminate|].
    exact IH.
Qed.

(** A check-in store in which the loop of [checkout] finds a stay is a
    list. *)
Lemma find_departure_list (room_key : pystr) (store_list : pyval)
    (items : list pyval) (departure : pyval) :
  py_iter store_list = Ok items ->
  find_departure room_key items None = Ok (Some departure) ->
  store_list = PList items.
Proof.
  destruct store_list as [|b|z|f|s|l|d|o]; try discriminate.
  - destruct s as [|c s]; intros [= <-]; discriminate.
  - now intros [= <-].
  - destruct d as [|[k x] d]; intros [= <-]; discriminate.
Qed.

Lemma checkout_of_stay_returns (room_key : pystr) (w w' : World) (b : bool) :
  checkout_of_stay room_key w = (Ok b, w') ->
  b = true
  /\ json_dir (fs w) = true
  /\ exists checkouts,
       records_of (store_check_out (fs w)) = Some checkouts
       /\ check_not_out room_key checkouts = Ok tt
       /\ w' = {| fs := with_check_outs
                          (Some (Json (PList
                             (checkouts
                              ++ [checkout_record room_key (clock (ticks w))]))))
                          (fs w);
                  ticks := S (ticks w) |}.
Proof.
  unfold checkout_of_stay. unfold bind at 1.
  unfold store_data_into_list_if_file_exists, try_except, json_load.
  cbn [read_file].
  destruct (json_dir (fs w)) eqn:Hdir.
  - destruct (store_check_out (fs w)) as [[|v| | |]|] eqn:Hstore;
      try discriminate.
    + unfold bind at 1. unfold lift at 1.
      destruct (py_iter v) as [its|] eqn:Hiter; [|discriminate].
      unfold bind at 1. unfold lift at 1.
      destruct (check_not_out room_key its) as [[]|] eqn:Hcheck;
        [|discriminate].
      unfold bind at 1. unfold utcnow at 1.
      unfold bind at 1. unfold lift at 1.
      destruct v as [|b'|z|f|s|items|d|o]; try discriminate.
      injection Hiter as <-. cbn [py_append].
      unfold bind at 1. rewrite write_into_json_run.
      cbn [write_file fs ticks]. rewrite Hdir.
      destruct (json_value _); [|discriminate]. unfold ret.
      intros [= <- <-]. repeat split.
      exists items. now repeat split.
    + unfold bind, lift, ret, utcnow.
      cbn [py_iter check_not_out py_append].
      rewrite write_into_json_run.
      cbn [write_file fs ticks json_value forallb snd andb]. rewrite Hdir.
      intros [= <- <-]. repeat split.
      exists []. now repeat split.
  - unfold bind, lift, ret, utcnow.
    cbn [py_iter check_not_out py_append].
    rewrite write_into_json_run.
    cbn [write_file fs ticks]. rewrite Hdir. discriminate.
Qed.

(** What a call of [guest_checkout] that returns has done. *)
Lemma guest_checkout_inv (room_key : pystr) (w w' : World) (b : bool) :
  guest_checkout room_key w = (Ok b, w') ->
  b = true
  /\ validate_roomkey room_key = Ok room_key
  /\ json_dir (fs w) = true
  /\ exists items departure_date_timestamp departure checkouts,
       store_check_in (fs w) = Some (Json (PList items))
       /\ find_departure room_key items None = Ok (Some departure_date_timestamp)
       /\ fromtimestamp departure_date_timestamp = Ok departure
       /\ date_of departure = date_of (clock (ticks w))
       /\ records_of (store_check_out (fs w)) = Some checkouts
       /\ check_not_out room_key checkouts = Ok tt
       /\ w' = {| fs := with_check_outs
                          (Some (Json (PList
                             (checkouts
                              ++ [checkout_record room_key
                                    (clock (S (ticks w)))]))))
                          (fs w);
                  ticks := S (S (ticks w)) |}.
Proof.
  intros Hrun.
  destruct (validate_roomkey room_key) as [key|] eqn:Hval;
    [|unfold guest_checkout, checkout, bind, lift in Hrun;
      rewrite Hval in Hrun; discriminate].
  assert (key = room_key) as ->.
  { unfold validate_roomkey in Hval. destruct (negb _); [discriminate|].
    now injection Hval. }
  destruct (read_file StoreCheckIn (fs w))
    as [[|store_list| | |]|] eqn:Hstore;
    try (unfold guest_checkout, checkout, bind, lift, store_json_into_list,
           try_except, json_load in Hrun;
         rewrite Hval, Hstore in Hrun; discriminate).
  destruct (py_iter store_list) as [items|] eqn:Hiter;
    [|unfold guest_checkout, checkout, bind, lift, store_json_into_list,
        try_except, json_load in Hrun;
      rewrite Hval, Hstore, Hiter in Hrun; discriminate].
  destruct (find_departure room_key items None) as [[departure_ts|]|] eqn:Hfind;
    try (unfold guest_checkout, checkout, bind, lift, store_json_into_list,
           try_except, json_load in Hrun;
         rewrite Hval, Hstore, Hiter, Hfind in Hrun; discriminate).
  pose proof (find_departure_list _ _ Hiter Hfind) as ->.
  rewrite (@checkout_lookup room_key w items (Some departure_ts) Hval Hstore Hfind)
    in Hrun.
  destruct (fromtimestamp departure_ts) as [departure|] eqn:Hts;
    [|unfold checkout_checks, bind, lift, utcnow in Hrun;
      rewrite Hts in Hrun; discriminate].
  rewrite (@checkout_checks_run room_key departure_ts departure w Hts) in Hrun.
  destruct (date_eqb _ _) eqn:Hday; [|discriminate].
  apply date_eqb_eq in Hday.
  apply checkout_of_stay_returns in Hrun
    as (-> & Hdir & checkouts & Hrec & Hcheck & ->).
  cbn [tick fs ticks] in *.
  cbn [read_file] in Hstore. rewrite Hdir in Hstore.
  repeat split; try assumption.
  exists items, departure_ts, departure, checkouts. now repeat split.
Qed.

(** X13: a call of [guest_checkout] returns only [True], and only when the
    room key has the 64 hexadecimal digits, the check-in store is a list in
    which the loop ended on a stay under the key, the departure of that stay
    falls on the day the clock shows, and no stored checkout was under the
    key.  The only effect is one record at the end of the check-out store,
    the room key with the time of the second reading of the clock: the
    reservations, the check-ins and the input files are what they were. *)
Theorem guest_checkout_returns (room_key : pystr) (w w' : World) (b : bool) :
  guest_checkout room_key w = (Ok b, w') ->
  b = true
  /\ all_of 64 hex_digit room_key = true
  /\ ticks w' = S (S (ticks w))
  /\ (exists items departure_date_timestamp departure,
        store_check_in (fs w) = Some (Json (PList items))
        /\ find_departure room_key items None = Ok (Some departure_date_timestamp)
        /\ fromtimestamp departure_date_timestamp = Ok departure
        /\ date_of departure = date_of (clock (ticks w)))
  /\ (exists checkouts,
        records_of (store_check_out (fs w)) = Some checkouts
        /\ forallb (fun item => negb (checked_out room_key item)) checkouts = true
        /\ store_check_out (fs w')
           = Some (Json (PList
                (checkouts ++ [checkout_record room_key (clock (S (ticks w)))]))))
  /\ store_reservation (fs w') = store_reservation (fs w)
  /\ store_check_in (fs w') = store_check_in (fs w)
  /\ input_files (fs w') = input_files (fs w)
  /\ json_dir (fs w') = json_dir (fs w).
Proof.
  intros Hrun.
  apply guest_checkout_inv in Hrun
    as (-> & Hval & Hdir & items & ts & departure & checkouts
        & Hstore & Hfind & Hts & Hday & Hrec & Hcheck & ->).
  split; [reflexivity|]. split.
  { unfold validate_roomkey in Hval.
    rewrite fullmatch_caret_exactly_dollar in Hval.
    now destruct (all_of 64 hex_digit room_key). }
  split; [reflexivity|]. split.
  { exists items, ts, departure. now repeat split. }
  split; [|repeat split].
  exists checkouts. split; [assumption|]. split; [|reflexivity].
  now apply check_not_out_ok.
Qed.

(** X14: a guest leaves once.  After a call of [guest_checkout] that
    returned, the next call for the same room key fails: with 'Guest is
    already out' while the clock shows the same day, with 'Error: today is
    not the departure day' once it shows another.  Nothing is written. *)
Theorem second_checkout_refused (room_key : pystr) (w w' : World) (b : bool) :
  guest_checkout room_key w = (Ok b, w') ->
  guest_checkout room_key w'
  = (HME (if date_eqb (date_of (clock (ticks w))) (date_of (clock (ticks w')))
          then "Guest is already out"
          else "Error: today is not the departure day"),
     tick w').
Proof.
  intros Hrun.
  apply guest_checkout_inv in Hrun
    as (_ & Hval & Hdir & items & ts & departure & checkouts
        & Hstore & Hfind & Hts & Hday & Hrec & Hcheck & ->).
  set (w' := {| fs := _; ticks := _ |}).
  assert (Hstore' : read_file StoreCheckIn (fs w') = Some (Json (PList items)))
    by (cbn; now rewrite Hdir).
  rewrite (@checkout_lookup room_key w' items (Some ts) Hval Hstore' Hfind).
  rewrite (@checkout_checks_run room_key ts departure w' Hts). rewrite Hday.
  destruct (date_eqb _ _); [|reflexivity].
  unfold checkout_of_stay. unfold bind at 1.
  rewrite (@load_or_empty_json StoreCheckOut
             (PList (checkouts ++ [checkout_record room_key (clock (S (ticks w)))]))
             (tick w')) by (cbn; now rewrite Hdir).
  unfold bind at 1. unfold lift at 1. cbn [py_iter].
  unfold bind at 1. unfold lift at 1.
  now rewrite check_not_out_again.
Qed.

(** X15: no room key is checked out twice.  Whatever the call of
    [guest_checkout] and however it ends, a check-out store in which no two
    records are under one room key is such a store afterwards. *)
Theorem checkouts_stay_unique (room_key : pystr) (w w' : World)
    (res : result bool) :
  guest_checkout room_key w = (res, w') ->
  unique_checkouts (fs w) -> unique_checkouts (fs w').
Proof.
  intros Hrun Huniq. destruct res as [b|e].
  - apply guest_checkout_inv in Hrun
      as (_ & _ & _ & items & ts & departure & checkouts
          & _ & _ & _ & _ & Hrec & Hcheck & ->).
    intros items' Hrec'. cbn in Hrec'. injection Hrec' as <-.
    rewrite map_app. apply NoDup_snoc; [now apply Huniq|].
    replace (map (fun item => py_getitem item (str "room_key"))
               [checkout_record room_key (clock (S (ticks w)))])
      with [@Ok pyval (PStr room_key)] by reflexivity.
    intros Hin. apply check_not_out_ok in Hcheck.
    revert Hin. apply not_in_map_str. exact Hcheck.
  - destruct (@cut_guest_checkout room_key w e w' Hrun) as [Hfs | [_ Hfs]];
      rewrite Hfs; [assumption|].
    intros items' Hrec'. cbn in Hrec'. discriminate.
Qed.

(** X17: a room key that has not the 64 hexadecimal digits is refused
    with 'Invalid room key format' before any file is opened and before the
    clock is read: the same in every world, which is left as it was. *)
Theorem guest_checkout_invalid_key (room_key : pystr) :
  all_of 64 hex_digit room_key = false ->
  forall w,
    guest_checkout room_key w = (HME "Invalid room key format", w).
Proof.
  intros H w. unfold guest_checkout, checkout.
  unfold bind at 1. unfold bind at 1. unfold lift at 1.
  unfold validate_roomkey. rewrite fullmatch_caret_exactly_dollar, H.
  reflexivity.
Qed.

(** ** The request read from a file *)

(** [read_data_from_json] on a document that is a JSON object. *)
Lemma read_data_from_json_object (json_file : pystr) (w : World)
    (d : list (pystr * pyval)) :
  input_files (fs w) json_file = Some (Json (PDict d)) ->
  read_data_from_json json_file w
  = match dict_get d (str "CreditCard"), dict_get d (str "phoneNumber") with
    | Some credit_card, Some phone_number =>
        match credit_card with
        | PStr s =>
            match validatecreditcard_spec s with
            | Ok _ =>
                (Ok (new_HotelReservation (clock (ticks w))
                       (PStr (str "12345678Z")) credit_card
                       (PStr (str "John Doe")) phone_number
                       (PStr (str "single")) (PStr (str "20/01/2024"))
                       (PInt 3)),
                 tick w)
            | Raise e => (Raise e, tick w)
            end
        | _ => (Raise TypeError, tick w)
        end
    | _, _ => (HME "JSON Decode Error - Invalid JSON Key", w)
    end.
Proof.
  intros Hin. unfold read_data_from_json.
  unfold bind at 1.
  rewrite (@load_json (InputFile json_file) _ (PDict d) w Hin).
  unfold bind at 1. unfold try_except.
  unfold bind at 1. unfold lift at 1. cbn [py_getitem].
  destruct (dict_get d (str "CreditCard")) as [credit_card|]; [|reflexivity].
  unfold bind at 1. unfold lift at 1.
  destruct (dict_get d (str "phoneNumber")) as [phone_number|];
    [|reflexivity].
  unfold bind at 1. unfold utcnow at 1. unfold ret at 1.
  unfold bind at 1. unfold lift at 1.
  destruct credit_card as [|b|z|f|s|l|d'|o]; try reflexivity.
  cbn [as_str rbind]. rewrite validatecreditcard_run.
  unfold validatecreditcard_spec.
  destruct (all_of 16 ascii_digit s) eqn:Hshape; [|reflexivity].
  destruct (luhn_sum s mod 10 =? 0)%Z; [|reflexivity].
  apply all_of_length in Hshape as [Hlen _].
  destruct s as [|c s]; [discriminate Hlen|]. reflexivity.
Qed.

(** X18: what [read_data_from_json] returns, and when.  It returns
    exactly when the file holds a JSON object whose ["CreditCard"] is a
    string that [validatecreditcard] accepts and that has a
    ["phoneNumber"]; the reservation returned is made at the one reading of
    the clock from that card number, from the phone number as the document
    has it, whatever it is, and from the fixed id card, name, room type
    ['single'], arrival date and three days. *)
Theorem read_data_from_json_returns (json_file : pystr) (w w' : World)
    (req : HotelReservation) :
  read_data_from_json json_file w = (Ok req, w') <->
  exists d credit_card phone_number,
    input_files (fs w) json_file = Some (Json (PDict d))
    /\ dict_get d (str "CreditCard") = Some (PStr credit_card)
    /\ dict_get d (str "phoneNumber") = Some phone_number
    /\ validatecreditcard credit_card = Ok credit_card
    /\ req = new_HotelReservation (clock (ticks w)) (PStr (str "12345678Z"))
               (PStr credit_card) (PStr (str "John Doe")) phone_number
               (PStr (str "single")) (PStr (str "20/01/2024")) (PInt 3)
    /\ w' = tick w.
Proof.
  split.
  - destruct (input_files (fs w) json_file) as [[|v| | |]|] eqn:Hin;
      try (unfold read_data_from_json, bind at 1;
           rewrite (@load_uncaught (InputFile json_file) _ _ _ w Hin eq_refl);
           discriminate).
    + unfold read_data_from_json, bind at 1.
      rewrite (@load_malformed (InputFile json_file) _ w Hin). discriminate.
    + destruct v as [|b|z|f|s|l|d|o];
        try (unfold read_data_from_json, bind at 1;
             rewrite (@load_json (InputFile json_file) _ _ w Hin);
             discriminate).
      rewrite (read_data_from_json_object _ _ Hin).
      destruct (dict_get d (str "CreditCard")) as [credit_card|] eqn:Hcc;
        [|discriminate].
      destruct (dict_get d (str "phoneNumber")) as [phone_number|] eqn:Hph;
        [|discriminate].
      destruct credit_card as [|b|z|f|s|l|d'|o]; try discriminate.
      destruct (validatecreditcard_spec s) as [s'|] eqn:Hval; [|discriminate].
      intros [= <- <-]. exists d, s, phone_number.
      repeat split; try reflexivity; try assumption.
      rewrite validatecreditcard_run, Hval. f_equal.
      unfold validatecreditcard_spec in Hval.
      destruct (all_of 16 ascii_digit s); [|discriminate].
      destruct (luhn_sum s mod 10 =? 0)%Z; [|discriminate].
      now injection Hval.
    + unfold read_data_from_json, bind at 1.
      rewrite (@load_absent (InputFile json_file) _ w Hin). discriminate.
  - intros (d & credit_card & phone_number & Hin & Hcc & Hph & Hval & -> & ->).
    rewrite (read_data_from_json_object _ _ Hin), Hcc, Hph.
    rewrite validatecreditcard_run in Hval. now rewrite Hval.
Qed.

(** X19: the last check of [read_data_from_json] never fires.
    [validatecreditcard] returns the card number, a string of sixteen
    digits, or raises: no file and no world make the call end with
    'Invalid credit card number'. *)
Theorem read_data_from_json_number_error_unreachable
    (json_file : pystr) (w : World) :
  fst (read_data_from_json json_file w) <> HME "Invalid credit card number".
Proof.
  destruct (input_files (fs w) json_file) as [[|v| | |]|] eqn:Hin;
    try (unfold read_data_from_json, bind at 1;
         rewrite (@load_uncaught (InputFile json_file) _ _ _ w Hin eq_refl);
         discriminate).
  - unfold read_data_from_json, bind at 1.
    rewrite (@load_malformed (InputFile json_file) _ w Hin). discriminate.
  - destruct v as [|b|z|f|s|l|d|o];
      try (unfold read_data_from_json, bind at 1;
           rewrite (@load_json (InputFile json_file) _ _ w Hin);
           discriminate).
    rewrite (read_data_from_json_object _ _ Hin).
    destruct (dict_get d (str "CreditCard")) as [credit_card|];
      [|discriminate].
    destruct (dict_get d (str "phoneNumber")) as [phone_number|];
      [|discriminate].
    destruct credit_card as [|b|z|f|s|l|d'|o]; try discriminate.
    unfold validatecreditcard_spec.
    destruct (all_of 16 ascii_digit s); [|discriminate].
    destruct (luhn_sum s mod 10 =? 0)%Z; discriminate.
  - unfold read_data_from_json, bind at 1.
    rewrite (@load_absent (InputFile json_file) _ w Hin). discriminate.
Qed.

(** ** Absent, unreadable and ill-shaped stores *)

(** C9, as the code has it.  The store an operation appends to may be
    absent: [room_reservation] with no reservation store, [guest_arrival]
    with no check-in store and [guest_checkout] with no check-out store end
    as they do when that store holds the empty list, and write the same
    files when they return.  The store an operation looks a record up in
    must exist: with no reservation store [guest_arrival] fails with 'Error:
    store reservation not found' and with no check-in store [guest_checkout]
    fails with 'Error: store checkin not found', where an empty store gives
    'Error: localizer not found' and 'Error: room key not found'.  A store
    file whose text is no JSON document makes the load that reads it, and
    with it the operation, fail with 'JSON Decode Error - Wrong JSON
    Format'.  A store file [json.load] cannot read for another reason makes
    both loaders end with the exception of that reading, which they do not
    catch: [UnicodeDecodeError], [ValueError], [RecursionError].  A store
    that holds a JSON value other than a list is not recognised as such:
    in the store of the lookup an empty object or string counts as an empty
    store, and any other value ends in a [TypeError]; in the reservation
    store a valid request ends in a [TypeError] or an [AttributeError].
    In every case the operation does not return: one that returns has
    found a JSON list in the store of its lookup, and a JSON list or no
    file in the store it appends to. *)
Theorem absent_and_malformed_stores :
  (forall credit_card name_surname id_card phone_number room_type arrival_date
          num_days w1 w2,
      absent_vs_empty Reservations w1 w2 ->
      let run := room_reservation credit_card name_surname id_card phone_number
                   room_type arrival_date num_days in
      fst (run w1) = fst (run w2)
      /\ forall localizer, fst (run w1) = Ok localizer -> snd (run w1) = snd (run w2))
  /\ (forall file_input w1 w2,
        absent_vs_empty CheckIns w1 w2 ->
        fst (guest_arrival file_input w1) = fst (guest_arrival file_input w2)
        /\ forall room_key,
             fst (guest_arrival file_input w1) = Ok room_key ->
             snd (guest_arrival file_input w1) = snd (guest_arrival file_input w2))
  /\ (forall room_key w1 w2,
        absent_vs_empty CheckOuts w1 w2 ->
        fst (guest_checkout room_key w1) = fst (guest_checkout room_key w2)
        /\ forall b,
             fst (guest_checkout room_key w1) = Ok b ->
             snd (guest_checkout room_key w1) = snd (guest_checkout room_key w2))
  /\ (forall file_input w input_list my_id_card my_localizer,
        input_files (fs w) file_input = Some (Json input_list) ->
        get_and_validate_json input_list = Ok (my_id_card, my_localizer) ->
        (read_file StoreReservation (fs w) = None ->
         guest_arrival file_input w
         = (HME "Error: store reservation not found", w))
        /\ (read_file StoreReservation (fs w) = Some (Json (PList [])) ->
            guest_arrival file_input w
            = (HME "Error: localizer not found", w))
        /\ (read_file StoreReservation (fs w) = Some NotJson ->
            guest_arrival file_input w
            = (HME "JSON Decode Error - Wrong JSON Format", w)))
  /\ (forall room_key w,
        validate_roomkey room_key = Ok room_key ->
        (read_file StoreCheckIn (fs w) = None ->
         guest_checkout room_key w = (HME "Error: store checkin not found", w))
        /\ (read_file StoreCheckIn (fs w) = Some (Json (PList [])) ->
            guest_checkout room_key w = (HME "Error: room key not found", w))
        /\ (read_file StoreCheckIn (fs w) = Some NotJson ->
            guest_checkout room_key w
            = (HME "JSON Decode Error - Wrong JSON Format", w)))
  /\ (forall credit_card name_surname id_card phone_number room_type
             arrival_date num_days w,
        valid_request credit_card name_surname id_card phone_number room_type
          arrival_date num_days ->
        read_file StoreReservation (fs w) = Some NotJson ->
        room_reservation credit_card name_surname id_card phone_number
          room_type arrival_date num_days w
        = (HME "JSON Decode Error - Wrong JSON Format", tick w))
  /\ (forall p msg w,
        read_file p (fs w) = Some NotJson ->
        store_json_into_list p msg w
        = (HME "JSON Decode Error - Wrong JSON Format", w)
        /\ store_data_into_list_if_file_exists p w
           = (HME "JSON Decode Error - Wrong JSON Format", w))
  /\ (forall p msg w,
        (read_file p (fs w) = Some NotUtf8 ->
         store_json_into_list p msg w = (Raise UnicodeDecodeError, w)
         /\ store_data_into_list_if_file_exists p w
            = (Raise UnicodeDecodeError, w))
        /\ (read_file p (fs w) = Some HugeInt ->
            store_json_into_list p msg w = (Raise ValueError, w)
            /\ store_data_into_list_if_file_exists p w = (Raise ValueError, w))
        /\ (read_file p (fs w) = Some TooDeep ->
            store_json_into_list p msg w = (Raise RecursionError, w)
            /\ store_data_into_list_if_file_exists p w
               = (Raise RecursionError, w)))
  /\ (forall file_input w input_list my_id_card my_localizer v,
        input_files (fs w) file_input = Some (Json input_list) ->
        get_and_validate_json input_list = Ok (my_id_card, my_localizer) ->
        read_file StoreReservation (fs w) = Some (Json v) ->
        (forall l, v <> PList l) ->
        guest_arrival file_input w
        = (match py_iter v with
           | Ok [] => HME "Error: localizer not found"
           | _ => Raise TypeError
           end, w))
  /\ (forall room_key w v,
        validate_roomkey room_key = Ok room_key ->
        read_file StoreCheckIn (fs w) = Some (Json v) ->
        (forall l, v <> PList l) ->
        guest_checkout room_key w
        = (match py_iter v with
           | Ok [] => HME "Error: room key not found"
           | _ => Raise TypeError
           end, w))
  /\ (forall credit_card name_surname id_card phone_number room_type
             arrival_date num_days w v,
        valid_request credit_card name_surname id_card phone_number room_type
          arrival_date num_days ->
        read_file StoreReservation (fs w) = Some (Json v) ->
        (forall l, v <> PList l) ->
        room_reservation credit_card name_surname id_card phone_number
          room_type arrival_date num_days w
        = (Raise (match py_iter v with
                  | Ok [] => AttributeError
                  | _ => TypeError
                  end), tick w))
  /\ (forall credit_card name_surname id_card phone_number room_type
             arrival_date num_days w w' localizer,
        room_reservation credit_card name_surname id_card phone_number
          room_type arrival_date num_days w = (Ok localizer, w') ->
        exists items, records_of (store_reservation (fs w)) = Some items)
  /\ (forall file_input w w' room_key,
        guest_arrival file_input w = (Ok room_key, w') ->
        (exists items, store_reservation (fs w) = Some (Json (PList items)))
        /\ exists checkins, records_of (store_check_in (fs w)) = Some checkins)
  /\ (forall room_key w w' b,
        guest_checkout room_key w = (Ok b, w') ->
        (exists items, store_check_in (fs w) = Some (Json (PList items)))
        /\ exists checkouts,
             records_of (store_check_out (fs w)) = Some checkouts).
Proof.
  split; [|split; [|split; [|split; [|split; [|split; [|split; [|split;
    [|split; [|split; [|split; [|split; [|split]]]]]]]]]]]].
  - intros. now apply converge_room_reservation.
  - intros. now apply converge_guest_arrival.
  - intros. now apply converge_guest_checkout.
  - intros file_input w input_list my_id_card my_localizer Hin Hval.
    assert (Hrun :
      guest_arrival file_input w
      = (store_list <- store_json_into_list StoreReservation
                         "Error: store reservation not found" ;;
         ' (reservation_date_arrival, reservation_days, reservation_room_type) <-
           lift (create_new_reservation my_id_card my_localizer store_list) ;;
         check_equals_date reservation_date_arrival ;;;
         numdays <- lift (py_int reservation_days) ;;
         justnow <- utcnow ;;
         my_checkin <- lift (new_HotelStay justnow (PStr my_id_card) numdays
                               (PStr my_localizer) reservation_room_type) ;;
         save_checkin my_checkin ;;;
         ret (fst my_checkin))%world w).
    { unfold guest_arrival. unfold bind at 1.
      rewrite (@load_json (InputFile file_input) _ input_list w Hin).
      unfold bind at 1. unfold lift at 1. rewrite Hval. reflexivity. }
    split; [|split]; intros Hstore; rewrite Hrun; unfold bind at 1.
    + now rewrite (load_absent _ _ _ Hstore).
    + now rewrite (@load_json StoreReservation _ (PList []) w Hstore).
    + now rewrite (load_malformed _ _ _ Hstore).
  - intros room_key w Hval.
    assert (Hrun :
      guest_checkout room_key w
      = (successful <-
           (room_key_list <- store_json_into_list StoreCheckIn
                               "Error: store checkin not found" ;;
            items <- lift (py_iter room_key_list) ;;
            found <- lift (find_departure room_key items None) ;;
            match found with
            | None => raiseHME "Error: room key not found"
            | Some departure_date_timestamp =>
                checkout_checks room_key departure_date_timestamp
            end) ;;
         ret successful)%world w).
    { unfold guest_checkout, checkout. unfold bind at 1. unfold bind at 1.
      unfold lift at 1. rewrite Hval. reflexivity. }
    split; [|split]; intros Hstore; rewrite Hrun; unfold bind at 1;
      unfold bind at 1.
    + now rewrite (load_absent _ _ _ Hstore).
    + now rewrite (@load_json StoreCheckIn _ (PList []) w Hstore).
    + now rewrite (load_malformed _ _ _ Hstore).
  - intros credit_card name_surname id_card phone_number room_type
      arrival_date num_days w Hvalid Hstore.
    rewrite (room_reservation_valid w Hvalid). unfold bind at 1.
    now rewrite (@load_or_empty_malformed StoreReservation (tick w) Hstore).
  - intros p msg w Hstore. split.
    + now apply load_malformed.
    + now apply load_or_empty_malformed.
  - intros p msg w. split; [|split]; intros Hstore;
      (split;
       [exact (@load_uncaught p msg _ _ w Hstore eq_refl)
       |exact (@load_or_empty_uncaught p _ _ w Hstore eq_refl)]).
  - intros file_input w input_list my_id_card my_localizer v
      Hin Hval Hstore Hlist.
    unfold guest_arrival. unfold bind at 1.
    rewrite (@load_json (InputFile file_input) _ input_list w Hin).
    unfold bind at 1. unfold lift at 1. rewrite Hval.
    unfold bind at 1.
    rewrite (@load_json StoreReservation _ v w Hstore).
    unfold bind at 1. unfold lift at 1.
    destruct v as [|b|z|f|s|items|d|o]; try reflexivity.
    + destruct s as [|c s]; reflexivity.
    + now destruct (Hlist items).
    + destruct d as [|[k x] d]; reflexivity.
  - intros room_key w v Hval Hstore Hlist.
    unfold guest_checkout, checkout.
    unfold bind at 1. unfold bind at 1. unfold lift at 1. rewrite Hval.
    unfold bind at 1.
    rewrite (@load_json StoreCheckIn _ v w Hstore).
    unfold bind at 1. unfold lift at 1.
    destruct v as [|b|z|f|s|items|d|o]; try reflexivity.
    + destruct s as [|c s]; reflexivity.
    + now destruct (Hlist items).
    + destruct d as [|[k x] d]; reflexivity.
  - intros credit_card name_surname id_card phone_number room_type
      arrival_date num_days w v Hvalid Hstore Hlist.
    rewrite (room_reservation_valid w Hvalid).
    unfold bind at 1.
    rewrite (@load_or_empty_json StoreReservation v (tick w) Hstore).
    unfold bind at 1. unfold lift at 1.
    destruct v as [|b|z|f|s|items|d|o]; try reflexivity.
    + destruct s as [|c s]; reflexivity.
    + now destruct (Hlist items).
    + destruct d as [|[k x] d]; reflexivity.
  - intros credit_card name_surname id_card phone_number room_type
      arrival_date num_days w w' localizer Hrun.
    apply room_reservation_inv in Hrun
      as (_ & _ & _ & items & Hrec & _).
    now exists items.
  - intros file_input w w' room_key Hrun.
    apply guest_arrival_inv in Hrun
      as (input_list & my_id_card & my_localizer & items & m & date_obj
          & numdays & stay & checkins & _ & _ & Hstore & _ & _ & _ & _ & _
          & _ & _ & Hrec & _).
    split; [now exists items | now exists checkins].
  - intros room_key w w' b Hrun.
    apply guest_checkout_inv in Hrun
      as (_ & _ & _ & items & ts & departure & checkouts
          & Hstore & _ & _ & _ & Hrec & _).
    split; [now exists items | now exists checkouts].
Qed.

End HotelManager.

(** * A sample installation

    One concrete runtime, clock and pair of absent classes, on which the
    operations run and the theorems above are applied.  Time is kept on a
    plain calendar of twelve months of thirty-one days counted in seconds;
    the digests are small mixing functions written out in hexadecimal. *)
Module Sample.

Definition uni_decimal (c : N) : bool := false.
Definition uni_space (c : N) : bool := false.
Definition builtin_int (s : pystr) : result Z := Raise ValueError.
Definition builtin_eq (a b : pyval) : bool := false.

Definition seconds_of (dt : datetime) : Z :=
  (((((year dt * 12 + (month dt - 1)) * 31 + (day dt - 1)) * 24 + hour dt) * 60
    + minute dt) * 60 + second dt)%Z.

Definition datetime_of (secs : Z) : datetime :=
  let days := (secs / 86400)%Z in
  {| year := days / 372;
     month := (days / 31) mod 12 + 1;
     day := days mod 31 + 1;
     hour := (secs / 3600) mod 24;
     minute := (secs / 60) mod 60;
     second := secs mod 60;
     microsecond := 0 |}%Z.

Definition timestamp (dt : datetime) : spec_float :=
  S754_finite false (Z.to_pos (seconds_of dt)) 0.

Definition fromtimestamp (v : pyval) : result datetime :=
  match v with
  | PFloat (S754_finite false m 0) => Ok (datetime_of (Z.pos m))
  | PFloat _ => Raise OverflowError
  | PInt z => Ok (datetime_of z)
  | _ => Raise TypeError
  end.

Definition strptime_dmy (v : pyval) : result datetime :=
  match v with
  | PStr [d1; d2; 47%N; m1; m2; 47%N; y1; y2; y3; y4] =>
      if forallb ascii_digit [d1; d2; m1; m2; y1; y2; y3; y4]
      then Ok {| year := decimal_value [y1; y2; y3; y4];
                 month := decimal_value [m1; m2];
                 day := decimal_value [d1; d2];
                 hour := 0; minute := 0; second := 0; microsecond := 0 |}
      else Raise ValueError
  | PStr _ => Raise ValueError
  | _ => Raise TypeError
  end.

(** The clock: three readings on 14 June 2024, the later ones on 16 June. *)
Definition clock (n : nat) : datetime :=
  {| year := 2024; month := 6;
     day := if (n <? 3)%nat then 14 else 16;
     hour := 9; minute := Z.of_nat n; second := 0; microsecond := 0 |}.

Definition hex_char (n : Z) : N :=
  if (n <? 10)%Z then Z.to_N (48 + n) else Z.to_N (87 + n).

Fixpoint hex_digits (k : nat) (z : Z) : pystr :=
  match k with
  | O => []
  | S k' => hex_digits k' (z / 16) ++ [hex_char (z mod 16)]
  end.

Fixpoint mix_str (s : pystr) (acc : Z) : Z :=
  match s with
  | [] => acc
  | c :: t => mix_str t ((acc * 257 + Z.of_N c + 1) mod 2 ^ 128)%Z
  end.

Definition mix (v : pyval) (acc : Z) : Z :=
  match v with
  | PStr s => mix_str s ((acc * 31 + 1) mod 2 ^ 128)%Z
  | PInt z => ((acc * 257 + z + 2) mod 2 ^ 128)%Z
  | PFloat (S754_finite _ m e) => ((acc * 257 + Z.pos m + 3) mod 2 ^ 128)%Z
  | _ => ((acc * 257 + 4) mod 2 ^ 128)%Z
  end.

Definition localizer_digest (a b c d e f g h : pyval) : pystr :=
  hex_digits 32 (mix h (mix g (mix f (mix e (mix d (mix c (mix b (mix a 7)))))))).

Definition new_HotelStay (justnow : datetime) (idcard : pyval) (numdays : Z)
    (localizer roomtype : pyval) : result (pystr * pyval) :=
  let arrival := seconds_of justnow in
  let departure := (arrival + numdays * 24 * 60 * 60)%Z in
  let h := mix roomtype (mix (PInt departure) (mix (PInt arrival)
             (mix localizer (mix idcard 11)))) in
  let room_key := (hex_digits 32 h ++ hex_digits 32 (mix_str (hex_digits 32 h) 13))%list in
  Ok (room_key,
      PDict [(str "_HotelStay__alg", PStr (str "SHA-256"));
             (str "_HotelStay__type", roomtype);
             (str "_HotelStay__idcard", idcard);
             (str "_HotelStay__localizer", localizer);
             (str "_HotelStay__arrival",
              PFloat (S754_finite false (Z.to_pos arrival) 0));
             (str "_HotelStay__departure",
              PFloat (S754_finite false (Z.to_pos departure) 0));
             (str "_HotelStay__room_key", PStr room_key)]).

(** The three operations on this installation. *)
Definition reserve :=
  room_reservation uni_decimal uni_space builtin_int builtin_eq clock timestamp
    localizer_digest.

Definition arrive :=
  guest_arrival builtin_int builtin_eq clock fromtimestamp timestamp
    strptime_dmy localizer_digest new_HotelStay.

Definition leave :=
  guest_checkout builtin_eq clock fromtimestamp timestamp.

(** A request, and the localizer its reservation gets at the first reading
    of the clock. *)
Definition credit_card : pystr := str "5105105105105100".
Definition name_surname : pystr := str "Pedro Jimenez".
Definition id_card : pystr := str "12345678Z".
Definition phone_number : pystr := str "+341234567".
Definition room_type : pystr := str "SINGLE".
Definition arrival_date : pystr := str "14/06/2024".
Definition num_days : pyval := PInt 2.

Definition the_reservation : HotelReservation :=
  reservation_of timestamp localizer_digest (clock 0) credit_card name_surname
    id_card phone_number room_type arrival_date num_days.

Definition the_localizer : pystr :=
  Eval vm_compute in r_localizer the_reservation.

(** The guest's arrival file. *)
Definition arrival_file : pystr := str "arrival.json".

Definition arrival_input : pyval :=
  PDict [(str "Localizer", PStr the_localizer); (str "IdCard", PStr id_card)].

(** The file system before anything is stored, and the world at the first
    reading of the clock. *)
Definition fs0 : FS :=
  {| json_dir := true;
     store_reservation := None;
     store_check_in := None;
     store_check_out := None;
     input_files := fun n => if pystr_eqb n arrival_file
                             then Some (Json arrival_input) else None |}.

Definition w0 : World := {| fs := fs0; ticks := 0 |}.

(** The record of the reservation, and the world once it is stored. *)
Definition the_record : pyval := reservation_dict the_reservation.

Definition w1 : World :=
  {| fs := with_reservations (Some (Json (PList [the_record]))) fs0;
     ticks := 1 |}.

(** The record with one field replaced. *)
Fixpoint dict_set (d : list (pystr * pyval)) (key : pystr) (v : pyval)
    : list (pystr * pyval) :=
  match d with
  | [] => []
  | (k, x) :: d' =>
      if pystr_eqb k key then (k, v) :: d' else (k, x) :: dict_set d' key v
  end.

Definition with_field (key : string) (v : pyval) (item : pyval) : pyval :=
  match item with
  | PDict d => PDict (dict_set d (str key) v)
  | _ => item
  end.

Definition storing (items : list pyval) (ticks : nat) : World :=
  {| fs := with_reservations (Some (Json (PList items))) fs0; ticks := ticks |}.


(** The stay the arrival produces from [w1], its room key, and the world
    once it is stored. *)
Definition the_room_key : pystr :=
  Eval vm_compute in
    match fst (arrive arrival_file w1) with
    | Ok key => key
    | Raise _ => []
    end.

Definition w2 : World := snd (arrive arrival_file w1).

(** The record of the reservation with its number of days changed, and
    with its id card changed. *)
Definition record_days_changed : pyval :=
  with_field "_HotelReservation__num_days" (PInt 5) the_record.

Definition record_id_changed : pyval :=
  with_field "_HotelReservation__id_card" (PStr (str "87654321X")) the_record.

(** The eight values the arrival takes from [record_days_changed]. *)
Definition fields_days_changed : matched_reservation :=
  {| reservation_days := PInt 5;
     reservation_room_type := PStr room_type;
     reservation_date_timestamp := PFloat (timestamp (clock 0));
     reservation_credit_card := PStr credit_card;
     reservation_date_arrival := PStr arrival_date;
     reservation_name := PStr name_surname;
     reservation_phone := PStr phone_number;
     reservation_id_card := PStr id_card |}.

(** The record of the reservation with its creation time, stored as the
    [float] of the seconds, rewritten as the [int] of the same seconds. *)
Definition record_time_rewritten : pyval :=
  with_field "_HotelReservation__reservation_date"
    (PInt (seconds_of (clock 0))) the_record.

(** The fields [guest_arrival] reads from a stored record. *)
Definition fields_of (item : pyval) : matched_reservation :=
  match read_reservation item with
  | Ok m => m
  | Raise _ =>
      {| reservation_days := PNone; reservation_room_type := PNone;
         reservation_date_timestamp := PNone; reservation_credit_card := PNone;
         reservation_date_arrival := PNone; reservation_name := PNone;
         reservation_phone := PNone; reservation_id_card := PNone |}
  end.


(** The world once the guest has left, two days later. *)
Definition w3 : World :=
  Eval vm_compute in snd (leave the_room_key w2).

(** A reservation store that holds the JSON value [v]. *)
Definition storing_value (v : pyval) : World :=
  {| fs := with_reservations (Some (Json v)) fs0; ticks := 0 |}.

(** The installation without the directory of the stores. *)
Definition no_directory : World :=
  {| fs := {| json_dir := false;
              store_reservation := None;
              store_check_in := None;
              store_check_out := None;
              input_files := fun _ => None |};
     ticks := 0 |}.

(** A request file for [read_data_from_json]. *)
Definition request_file : pystr := str "request.json".

Definition request_input : pyval :=
  PDict [(str "CreditCard", PStr credit_card);
         (str "phoneNumber", PStr (str "no number"))].

Definition w_request : World :=
  {| fs := with_input request_file (Some (Json request_input)) fs0;
     ticks := 0 |}.

(** A number of days that is no JSON value: [decimal.Decimal(3)], which
    [int()] turns into 3 and [json.dump] refuses; and a second guest. *)
Definition decimal_days : pyval := POther (Ok 3%Z).

Definition other_id_card : pystr := str "87654321X".

(** An arrival file saved as UTF-16. *)
Definition utf16_file : pystr := str "utf16.json".

Definition w_utf16 : World :=
  {| fs := with_input utf16_file (Some NotUtf8) (fs w1); ticks := 1 |}.

(** The installation after the reservation, with a check-out store that
    is no JSON document. *)
Definition w_checkouts_cut : World :=
  {| fs := with_check_outs (Some NotJson) (fs w1); ticks := 1 |}.

(** ** The theorems at work *)

Lemma sample_request_valid :
  valid_request uni_decimal uni_space builtin_int credit_card name_surname
    id_card phone_number room_type arrival_date num_days.
Proof. repeat split; vm_compute; reflexivity. Defined.

Lemma sample_input_valid :
  get_and_validate_json builtin_int arrival_input = Ok (id_card, the_localizer).
Proof. vm_compute. reflexivity. Defined.

(** C10 at work: the string ["3"] is accepted as a number of days and
    returned as that string; the integer parsed from it is 3. *)
Lemma validators_return_argument_witness :
  PStr (str "3") = PStr (str "3")
  /\ exists days,
       py_int builtin_int (PStr (str "3")) = Ok days /\ (1 <= days <= 10)%Z.
Proof.
  exact (proj1 (proj2 (proj2 (proj2 (proj2 (proj2
           (@validators_return_argument uni_decimal builtin_int))))))
           (PStr (str "3")) (PStr (str "3")) eq_refl).
Defined.

Lemma sample_stays_json : stays_json new_HotelStay.
Proof.
  intros justnow idcard numdays localizer roomtype room_key stay Hrt H.
  apply (f_equal (fun r => match r with
                           | Ok (_, s) => json_value s
                           | Raise _ => false
                           end)) in H.
  unfold new_HotelStay in H. cbv beta iota zeta in H.
  rewrite <- H. cbn [json_value forallb snd andb]. now rewrite Hrt.
Defined.

Lemma sample_other_request_valid :
  valid_request uni_decimal uni_space builtin_int credit_card name_surname
    other_id_card phone_number room_type arrival_date decimal_days.
Proof. repeat split; vm_compute; reflexivity. Defined.

(** C6 at work: an arrival whose input file does not exist raises and
    leaves the file system of [w1] as it was; a reservation that raises
    from [w1] has left the file system as it was, or has raised the
    [TypeError] of [json.dump] and left the reservation store a text that
    is no JSON document. *)
Lemma error_leaves_stores_unchanged_witness :
  fs (snd (arrive (str "nowhere.json") w1)) = fs w1
  /\ (fs (snd (reserve credit_card name_surname other_id_card phone_number
                 room_type arrival_date decimal_days w1)) = fs w1
      \/ (TypeError = TypeError
          /\ fs (snd (reserve credit_card name_surname other_id_card
                        phone_number room_type arrival_date decimal_days w1))
             = with_reservations (Some NotJson) (fs w1))).
Proof.
  pose proof
    (@error_leaves_stores_unchanged uni_decimal uni_space builtin_int
       builtin_eq clock fromtimestamp timestamp strptime_dmy
       localizer_digest new_HotelStay) as (Hreserve & Harrive & _).
  split.
  - refine (proj2
      (Harrive (str "nowhere.json") w1
         (HotelManagementException "Error: file input not found")
         (snd (arrive (str "nowhere.json") w1)) eq_refl)
      sample_stays_json _ _).
    + intros v [= <-]. vm_compute. reflexivity.
    + intros v. discriminate.
  - refine (proj1
      (Hreserve credit_card name_surname other_id_card phone_number room_type
         arrival_date decimal_days w1 TypeError
         (snd (reserve credit_card name_surname other_id_card phone_number
                 room_type arrival_date decimal_days w1)) _)).
    vm_compute. reflexivity.
Defined.

(** C6 refuted as stated: a second guest asks for a room with a number of
    days that passes the validation and that [json.dump] refuses.  The call
    raises [TypeError], and the reservation store, which held the record of
    the first guest, is left a text that is no JSON document. *)
Lemma unwritable_reservation_cuts_the_store :
  valid_request uni_decimal uni_space builtin_int credit_card name_surname
    other_id_card phone_number room_type arrival_date decimal_days
  /\ store_reservation (fs w1) = Some (Json (PList [the_record]))
  /\ reserve credit_card name_surname other_id_card phone_number room_type
       arrival_date decimal_days w1
     = (Raise TypeError,
        {| fs := with_reservations (Some NotJson) (fs w1); ticks := 2 |})
  /\ fs (snd (reserve credit_card name_surname other_id_card phone_number
                room_type arrival_date decimal_days w1)) <> fs w1.
Proof.
  split; [exact sample_other_request_valid|].
  split; [reflexivity|].
  split; [vm_compute; reflexivity|].
  vm_compute. discriminate.
Qed.

(** C5 at work: the request is stored in the empty installation and its
    localizer returned; made again, it is refused for its id card, and the
    store keeps its keys unique through the first call. *)
Lemma room_reservation_unique_witness :
  reserve credit_card name_surname id_card phone_number room_type arrival_date
    num_days w0 = (Ok the_localizer, w1)
  /\ reserve credit_card name_surname id_card phone_number room_type
       arrival_date num_days w1
     = (HME "This ID card has another reservation", tick w1)
  /\ unique_store (fs w1).
Proof.
  split; [|split].
  - exact (proj2 (proj1
      (@room_reservation_unique uni_decimal uni_space builtin_int builtin_eq
         clock timestamp localizer_digest credit_card name_surname id_card
         phone_number room_type arrival_date num_days w0)
      [] sample_request_valid eq_refl eq_refl eq_refl)).
  - exact (proj2 (proj2 (proj1
      (@room_reservation_unique uni_decimal uni_space builtin_int builtin_eq
         clock timestamp localizer_digest credit_card name_surname id_card
         phone_number room_type arrival_date num_days w1)
      [the_record] sample_request_valid eq_refl eq_refl eq_refl))).
  - refine (proj2
      (@room_reservation_unique uni_decimal uni_space builtin_int builtin_eq
         clock timestamp localizer_digest credit_card name_surname id_card
         phone_number room_type arrival_date num_days w0)
      (Ok the_localizer) w1 _ _).
    + vm_compute. reflexivity.
    + intros items [= <-]. split; constructor.
Defined.

(** C5 refuted as stated: in the empty installation a valid request
    whose number of days is a [Decimal] meets no duplicate, and yet no
    record is appended and no localizer returned: the call raises the
    [TypeError] of [json.dump] and leaves a store that is no JSON
    document. *)
Lemma unwritable_reservation_is_not_appended :
  valid_request uni_decimal uni_space builtin_int credit_card name_surname
    id_card phone_number room_type arrival_date decimal_days
  /\ records_of (store_reservation (fs w0)) = Some []
  /\ reserve credit_card name_surname id_card phone_number room_type
       arrival_date decimal_days w0
     = (Raise TypeError,
        {| fs := with_reservations (Some NotJson) (fs w0); ticks := 1 |}).
Proof.
  split; [repeat split; vm_compute; reflexivity|].
  split; [reflexivity|].
  vm_compute. reflexivity.
Qed.

Lemma sample_fields_days_changed :
  stored_fields record_days_changed fields_days_changed.
Proof. vm_compute. repeat split. Defined.

(** C7 at work: with the genuine record stored first and a changed copy
    under the same localizer stored last, the arrival goes on with the
    values of the copy, the last one: five days, where the first record
    has two. *)
Lemma last_match_wins_witness :
  exists m,
    reservation_days m = PInt 5
    /\ py_getitem the_record (str "_HotelReservation__num_days") = Ok (PInt 2)
    /\ arrive arrival_file (storing [the_record; record_days_changed] 1)
       = arrival_checks builtin_int builtin_eq clock fromtimestamp timestamp
           strptime_dmy localizer_digest new_HotelStay id_card the_localizer m
           (storing [the_record; record_days_changed] 1).
Proof.
  pose proof (proj1
    (@last_match_wins builtin_int builtin_eq clock fromtimestamp timestamp
       strptime_dmy localizer_digest new_HotelStay)
    arrival_file (storing [the_record; record_days_changed] 1) arrival_input
    id_card the_localizer [the_record; record_days_changed]
    eq_refl sample_input_valid eq_refl eq_refl) as H.
  change (exists m,
            stored_fields record_days_changed m
            /\ arrive arrival_file (storing [the_record; record_days_changed] 1)
               = arrival_checks builtin_int builtin_eq clock fromtimestamp
                   timestamp strptime_dmy localizer_digest new_HotelStay
                   id_card the_localizer m
                   (storing [the_record; record_days_changed] 1)) in H.
  destruct H as (m & (Hdays & _) & Hrun).
  exists m. split; [|split; [reflexivity | exact Hrun]].
  change (Ok (PInt 5) = Ok (reservation_days m)) in Hdays.
  now injection Hdays.
Defined.

(** C1 at work: the stored number of days changed from 2 to 5, the
    arrival fails with the manipulation error. *)
Lemma tamper_detection_witness :
  arrive arrival_file (storing [record_days_changed] 1)
  = (HME "Error: reservation has been manipulated",
     storing [record_days_changed] 1).
Proof.
  refine (proj1 (proj2 (proj2
    (@tamper_detection builtin_int builtin_eq clock fromtimestamp timestamp
       strptime_dmy localizer_digest new_HotelStay
       arrival_file (storing [record_days_changed] 1) arrival_input
       id_card the_localizer [record_days_changed] record_days_changed
       fields_days_changed (clock 0)
       eq_refl sample_input_valid eq_refl eq_refl eq_refl
       sample_fields_days_changed _))) eq_refl).
  vm_compute. reflexivity.
Defined.

(** C1 refuted as stated, twice.  The genuine record lets the guest in.
    The same record with its stored id card changed, localizer untouched,
    does not fail with the manipulation error but with the ownership
    error.  And the same record with its stored creation time rewritten
    from the [float] of the seconds to the [int] of the same seconds,
    localizer untouched, is another record and does not fail at all: the
    guest is let in with the same room key. *)
Lemma changed_fields_not_reported_as_manipulation :
  fst (arrive arrival_file (storing [the_record] 1)) = Ok the_room_key
  /\ fst (arrive arrival_file (storing [record_id_changed] 1))
     = HME "Error: Localizer is not correct for this IdCard"
  /\ fst (arrive arrival_file (storing [record_id_changed] 1))
     <> HME "Error: reservation has been manipulated"
  /\ py_getitem the_record (str "_HotelReservation__reservation_date")
     = Ok (PFloat (timestamp (clock 0)))
  /\ py_getitem record_time_rewritten (str "_HotelReservation__reservation_date")
     = Ok (PInt (seconds_of (clock 0)))
  /\ py_getitem record_time_rewritten (str "_HotelReservation__localizer")
     = py_getitem the_record (str "_HotelReservation__localizer")
  /\ record_time_rewritten <> the_record
  /\ fst (arrive arrival_file (storing [record_time_rewritten] 1))
     = Ok the_room_key.
Proof.
  split; [vm_compute; reflexivity|].
  split; [vm_compute; reflexivity|].
  split; [vm_compute; discriminate|].
  split; [reflexivity|].
  split; [reflexivity|].
  split; [reflexivity|].
  split; [vm_compute; discriminate|].
  vm_compute. reflexivity.
Qed.

(** C4 at work: on 16 June the reservation for 14 June is refused for its
    date, and on 14 June the stay that departs on 16 June is refused for
    its date. *)
Lemma date_gating_witness :
  arrive arrival_file (storing [the_record] 5)
  = (HME "Error: today is not reservation date", tick (storing [the_record] 5))
  /\ leave the_room_key {| fs := fs w2; ticks := 0 |}
     = (HME "Error: today is not the departure day",
        tick {| fs := fs w2; ticks := 0 |}).
Proof.
  split.
  - refine (proj1 (proj1
      (@date_gating builtin_int builtin_eq clock fromtimestamp timestamp
         strptime_dmy localizer_digest new_HotelStay)
      arrival_file (storing [the_record] 5) arrival_input id_card
      the_localizer [the_record] the_record (fields_of the_record)
      {| year := 2024; month := 6; day := 14; hour := 0; minute := 0;
         second := 0; microsecond := 0 |}
      eq_refl sample_input_valid eq_refl eq_refl eq_refl eq_refl eq_refl
      _ eq_refl) _).
    + vm_compute. reflexivity.
    + vm_compute. discriminate.
  - refine (proj1 (proj2
      (@date_gating builtin_int builtin_eq clock fromtimestamp timestamp
         strptime_dmy localizer_digest new_HotelStay)
      the_room_key {| fs := fs w2; ticks := 0 |}
      _ _ _ (datetime_of (seconds_of (clock 2) + 2 * 24 * 60 * 60))
      _ _ _ _ _ _) _).
    + vm_compute. reflexivity.
    + vm_compute. reflexivity.
    + vm_compute. reflexivity.
    + vm_compute. reflexivity.
    + vm_compute. reflexivity.
    + vm_compute. reflexivity.
    + vm_compute. discriminate.
Defined.

(** C9 at work: with no reservation store the arrival fails for the
    missing store; a reservation made with no store ends as one made on
    the empty store; a reservation store saved as UTF-16 makes the loaders
    end with [UnicodeDecodeError]; and with an empty JSON object for a
    reservation store the arrival fails as on an empty store. *)
Lemma absent_and_malformed_stores_witness :
  arrive arrival_file w0 = (HME "Error: store reservation not found", w0)
  /\ fst (reserve credit_card name_surname id_card phone_number room_type
            arrival_date num_days w0)
     = fst (reserve credit_card name_surname id_card phone_number room_type
              arrival_date num_days (storing [] 0))
  /\ store_data_into_list_if_file_exists (InputFile utf16_file) w_utf16
     = (Raise UnicodeDecodeError, w_utf16)
  /\ arrive arrival_file (storing_value (PDict []))
     = (HME "Error: localizer not found", storing_value (PDict [])).
Proof.
  pose proof
    (@absent_and_malformed_stores uni_decimal uni_space builtin_int builtin_eq
       clock fromtimestamp timestamp strptime_dmy localizer_digest
       new_HotelStay)
    as (Hreserve & _ & _ & Harrive & _ & _ & _ & Hload & Hshape & _).
  split; [|split; [|split]].
  - exact (proj1 (Harrive arrival_file w0 arrival_input id_card the_localizer
                    eq_refl sample_input_valid) eq_refl).
  - refine (proj1 (Hreserve credit_card name_surname id_card phone_number
                     room_type arrival_date num_days w0 (storing [] 0) _)).
    repeat split.
  - exact (proj2 (proj1 (Hload (InputFile utf16_file) EmptyString w_utf16)
                    eq_refl)).
  - refine (Hshape arrival_file (storing_value (PDict [])) arrival_input
              id_card the_localizer (PDict []) eq_refl sample_input_valid
              eq_refl _).
    discriminate.
Defined.

(** C9 refuted as stated, in both halves.  For the same valid arrival, no
    reservation store and an empty reservation store give two different
    errors.  And a store that is no record sequence is no fatal storage
    error for every operation: with an empty JSON object for a reservation
    store the arrival fails as on an empty store, and with a check-out
    store that is no JSON document the arrival returns the room key. *)
Lemma absent_store_differs_and_malformed_store_passes :
  fst (arrive arrival_file w0) = HME "Error: store reservation not found"
  /\ fst (arrive arrival_file (storing [] 0)) = HME "Error: localizer not found"
  /\ fst (arrive arrival_file w0) <> fst (arrive arrival_file (storing [] 0))
  /\ store_reservation (fs (storing_value (PDict []))) = Some (Json (PDict []))
  /\ fst (arrive arrival_file (storing_value (PDict [])))
     = HME "Error: localizer not found"
  /\ store_check_out (fs w_checkouts_cut) = Some NotJson
  /\ fst (arrive arrival_file w_checkouts_cut) = Ok the_room_key.
Proof.
  split; [vm_compute; reflexivity|].
  split; [vm_compute; reflexivity|].
  split; [vm_compute; discriminate|].
  split; [reflexivity|].
  split; [vm_compute; reflexivity|].
  split; [reflexivity|].
  vm_compute. reflexivity.
Qed.

(** ** The further properties at work *)

Lemma sample_reservation_run :
  reserve credit_card name_surname id_card phone_number room_type arrival_date
    num_days w0 = (Ok the_localizer, w1).
Proof. vm_compute. reflexivity. Defined.

Lemma sample_arrival_run :
  guest_arrival builtin_int builtin_eq clock fromtimestamp timestamp
    strptime_dmy localizer_digest new_HotelStay arrival_file w1
  = (Ok the_room_key, w2).
Proof. vm_compute. reflexivity. Defined.

Lemma sample_checkout_run :
  guest_checkout builtin_eq clock fromtimestamp timestamp the_room_key w2
  = (Ok true, w3).
Proof. vm_compute. reflexivity. Defined.

(** X3 at work: the last digit of the card number changed from 0 to 1. *)
Lemma luhn_detects_single_digit_witness :
  validatecreditcard builtin_int (replace_at 15 49 credit_card)
  = HME "Invalid credit card number (not luhn)".
Proof.
  refine (@luhn_detects_single_digit builtin_int credit_card 15 48 49
            _ eq_refl eq_refl _).
  - vm_compute. reflexivity.
  - discriminate.
Defined.

(** X4 at work: the first digit of the id card changed from 1 to 2, the
    letter no longer fits; the letter changed to a digit, the format is
    wrong. *)
Lemma check_id_card_detects_single_character_witness :
  check_id_card builtin_int (replace_at 0 50 id_card)
  = HME "Invalid IdCard letter"
  /\ check_id_card builtin_int (replace_at 8 50 id_card)
     = HME "Invalid IdCard format".
Proof.
  split.
  - refine (@check_id_card_detects_single_character builtin_int id_card 0 49 50
              _ eq_refl _).
    + vm_compute. reflexivity.
    + discriminate.
  - refine (@check_id_card_detects_single_character builtin_int id_card 8 90 50
              _ eq_refl _).
    + vm_compute. reflexivity.
    + discriminate.
Defined.

(** X7 at work: the reservation made in the empty installation. *)
Lemma room_reservation_returns_witness :
  valid_request uni_decimal uni_space builtin_int credit_card name_surname
    id_card phone_number room_type arrival_date num_days
  /\ the_localizer = r_localizer the_reservation
  /\ ticks w1 = 1%nat
  /\ store_check_in (fs w1) = store_check_in (fs w0).
Proof.
  pose proof
    (@room_reservation_returns uni_decimal uni_space builtin_int builtin_eq
       clock timestamp localizer_digest credit_card name_surname id_card
       phone_number room_type arrival_date num_days w0 w1 the_localizer
       sample_reservation_run)
    as (Hvalid & Hloc & Hticks & _ & Hin & _).
  exact (conj Hvalid (conj Hloc (conj Hticks Hin))).
Defined.

(** X8 at work: the room type in lower case. *)
Lemma room_reservation_invalid_witness :
  exists e, forall w,
    reserve credit_card name_surname id_card phone_number (str "single")
      arrival_date num_days w = (Raise e, w).
Proof.
  refine (@room_reservation_invalid uni_decimal uni_space builtin_int
            builtin_eq clock timestamp localizer_digest credit_card
            name_surname id_card phone_number (str "single") arrival_date
            num_days _).
  intros (_ & H & _). vm_compute in H. discriminate H.
Defined.

(** X9 at work: the same guest asks for a double room next. *)
Lemma second_reservation_refused_witness :
  exists msg,
    (msg = "Reservation already exists"%string
     \/ msg = "This ID card has another reservation"%string)
    /\ reserve credit_card name_surname id_card phone_number (str "DOUBLE")
         arrival_date num_days w1
       = (HME msg, tick w1).
Proof.
  refine (@second_reservation_refused uni_decimal uni_space builtin_int
            builtin_eq clock timestamp localizer_digest credit_card
            name_surname id_card phone_number room_type arrival_date num_days
            credit_card name_surname phone_number (str "DOUBLE") arrival_date
            num_days w0 w1 the_localizer sample_reservation_run _).
  repeat split; vm_compute; reflexivity.
Defined.

(** X10 at work: the reservation store holds an empty JSON object. *)
Lemma reservation_store_not_a_list_witness :
  reserve credit_card name_surname id_card phone_number room_type arrival_date
    num_days (storing_value (PDict []))
  = (Raise AttributeError, tick (storing_value (PDict []))).
Proof.
  refine (@reservation_store_not_a_list uni_decimal uni_space builtin_int
            builtin_eq clock timestamp localizer_digest credit_card
            name_surname id_card phone_number room_type arrival_date num_days
            (storing_value (PDict [])) (PDict [])
            sample_request_valid eq_refl eq_refl _).
  discriminate.
Defined.

(** X11 at work: the arrival of the guest on 14 June. *)
Lemma guest_arrival_returns_witness :
  exists stay checkins,
    records_of (store_check_in (fs w1)) = Some checkins
    /\ forallb (fun item => negb (has_room_key the_room_key item)) checkins
       = true
    /\ w2 = {| fs := with_check_ins
                       (Some (Json (PList (checkins ++ [stay])))) (fs w1);
               ticks := 3 |}.
Proof.
  destruct
    (@guest_arrival_returns builtin_int builtin_eq clock fromtimestamp
       timestamp strptime_dmy localizer_digest new_HotelStay arrival_file
       w1 w2 the_room_key sample_arrival_run)
    as (_ & _ & _ & _ & _ & _ & _ & stay & checkins
        & _ & _ & _ & _ & _ & _ & _ & _ & _ & _ & Hrec & Hnew & Hw).
  exists stay, checkins. exact (conj Hrec (conj Hnew Hw)).
Defined.

(** X12 at work: the reservation made at the first reading of the clock
    passes the lookup, the ownership check and the integrity check of the
    arrival that follows. *)
Lemma reservation_then_arrival_witness :
  arrive arrival_file w1
  = arrival_after_integrity builtin_int builtin_eq clock strptime_dmy
      new_HotelStay id_card the_localizer
      (fields_of_reservation the_reservation) w1.
Proof.
  refine (proj2 (proj2 (proj2
    (@reservation_then_arrival uni_decimal uni_space builtin_int builtin_eq
       clock fromtimestamp timestamp strptime_dmy localizer_digest
       new_HotelStay credit_card name_surname id_card phone_number room_type
       arrival_date num_days w0 w1 the_localizer arrival_file arrival_input
       (datetime_of (seconds_of (clock 0)))
       sample_reservation_run eq_refl sample_input_valid _ _)))).
  - vm_compute. reflexivity.
  - vm_compute. reflexivity.
Defined.

(** X13 at work: the departure of the guest on 16 June. *)
Lemma guest_checkout_returns_witness :
  all_of 64 hex_digit the_room_key = true
  /\ ticks w3 = 5%nat
  /\ store_check_in (fs w3) = store_check_in (fs w2)
  /\ store_reservation (fs w3) = store_reservation (fs w2).
Proof.
  pose proof
    (@guest_checkout_returns builtin_eq clock fromtimestamp timestamp
       the_room_key w2 w3 true sample_checkout_run)
    as (_ & Hkey & Hticks & _ & _ & Hres & Hin & _).
  exact (conj Hkey (conj Hticks (conj Hin Hres))).
Defined.

(** X14 at work: the guest who has left asks to leave again. *)
Lemma second_checkout_refused_witness :
  leave the_room_key w3
  = (HME (if date_eqb (date_of (clock (ticks w2))) (date_of (clock (ticks w3)))
          then "Guest is already out"
          else "Error: today is not the departure day"),
     tick w3).
Proof.
  unfold leave.
  exact (@second_checkout_refused builtin_eq clock fromtimestamp timestamp
           the_room_key w2 w3 true sample_checkout_run).
Defined.

(** X15 at work: the check-out store after the first departure. *)
Lemma checkouts_stay_unique_witness : unique_checkouts (fs w3).
Proof.
  refine (@checkouts_stay_unique builtin_eq clock fromtimestamp timestamp
            the_room_key w2 w3 (Ok true) sample_checkout_run _).
  intros items H. vm_compute in H. injection H as <-. constructor.
Defined.

(** X6 at work: the arrival file of the sample is accepted, and an object
    that has no ["IdCard"] is refused for its keys. *)
Lemma get_and_validate_json_accepts_witness :
  (exists d,
      arrival_input = PDict d
      /\ dict_get d (str "Localizer") = Some (PStr the_localizer)
      /\ dict_get d (str "IdCard") = Some (PStr id_card)
      /\ check_id_card builtin_int id_card = Ok tt
      /\ all_of 32 hex_digit the_localizer = true)
  /\ get_and_validate_json builtin_int
       (PDict [(str "Localizer", PStr the_localizer)])
     = HME "Error - Invalid Key in JSON".
Proof.
  split.
  - exact (proj1 (proj1
      (@get_and_validate_json_accepts builtin_int arrival_input)
      id_card the_localizer) sample_input_valid).
  - exact (proj1 (proj2
      (@get_and_validate_json_accepts builtin_int
         (PDict [(str "Localizer", PStr the_localizer)])))
      [(str "Localizer", PStr the_localizer)] eq_refl (or_intror eq_refl)).
Defined.

(** X16 at work: no such input file, and an input file saved as
    UTF-16. *)
Lemma guest_arrival_input_errors_witness :
  arrive (str "nowhere.json") w1 = (HME "Error: file input not found", w1)
  /\ arrive utf16_file w_utf16 = (Raise UnicodeDecodeError, w_utf16).
Proof.
  split.
  - exact (proj1
      (@guest_arrival_input_errors builtin_int builtin_eq clock fromtimestamp
         timestamp strptime_dmy localizer_digest new_HotelStay
         (str "nowhere.json") w1) eq_refl).
  - exact (proj1 (proj2 (proj2
      (@guest_arrival_input_errors builtin_int builtin_eq clock fromtimestamp
         timestamp strptime_dmy localizer_digest new_HotelStay
         utf16_file w_utf16))) eq_refl).
Defined.

(** X17 at work: a localizer is no room key. *)
Lemma guest_checkout_invalid_key_witness :
  leave the_localizer w2 = (HME "Invalid room key format", w2).
Proof.
  refine (@guest_checkout_invalid_key builtin_eq clock fromtimestamp timestamp
            the_localizer _ w2).
  vm_compute. reflexivity.
Defined.

(** X18 at work: the request file is read although its phone number is
    none. *)
Lemma read_data_from_json_returns_witness :
  read_data_from_json builtin_int clock timestamp localizer_digest
    request_file w_request
  = (Ok (new_HotelReservation timestamp localizer_digest (clock 0)
           (PStr (str "12345678Z")) (PStr credit_card) (PStr (str "John Doe"))
           (PStr (str "no number")) (PStr (str "single"))
           (PStr (str "20/01/2024")) (PInt 3)),
     tick w_request).
Proof.
  apply (proj2
    (@read_data_from_json_returns builtin_int clock timestamp localizer_digest
       request_file w_request (tick w_request) _)).
  exists [(str "CreditCard", PStr credit_card);
          (str "phoneNumber", PStr (str "no number"))],
    credit_card, (PStr (str "no number")).
  split; [reflexivity|]. split; [reflexivity|]. split; [reflexivity|].
  split; [vm_compute; reflexivity|]. split; reflexivity.
Defined.

(** X20 at work: a name of eight characters, and a name of one word. *)
Lemma name_surname_exact_witness :
  fullmatch (name_surname_pattern uni_space) name_surname = true
  /\ (forall w,
        check_data uni_decimal uni_space builtin_int clock timestamp
          localizer_digest arrival_date credit_card id_card (str "John Doe")
          num_days phone_number room_type w
        = (HME "Invalid name format", w))
  /\ (forall w,
        check_data uni_decimal uni_space builtin_int clock timestamp
          localizer_digest arrival_date credit_card id_card
          (str "PedroJimenez") num_days phone_number room_type w
        = (HME "Invalid name format", w)).
Proof.
  split; [|split].
  - rewrite (proj1 (@name_surname_exact uni_decimal uni_space builtin_int
                      clock timestamp localizer_digest name_surname)).
    vm_compute. reflexivity.
  - intros w.
    refine (proj2 (@name_surname_exact uni_decimal uni_space builtin_int
                     clock timestamp localizer_digest (str "John Doe"))
              _ arrival_date credit_card id_card num_days phone_number
              room_type w).
    vm_compute. reflexivity.
  - intros w.
    refine (proj2 (@name_surname_exact uni_decimal uni_space builtin_int
                     clock timestamp localizer_digest (str "PedroJimenez"))
              _ arrival_date credit_card id_card num_days phone_number
              room_type w).
    vm_compute. reflexivity.
Defined.

(** X22 at work: the request made where the directory is missing. *)
Lemma room_reservation_no_directory_witness :
  reserve credit_card name_surname id_card phone_number room_type arrival_date
    num_days no_directory
  = (HME "Wrong file  or file path", tick no_directory).
Proof.
  exact (@room_reservation_no_directory uni_decimal uni_space builtin_int
           builtin_eq clock timestamp localizer_digest credit_card
           name_surname id_card phone_number room_type arrival_date num_days
           no_directory sample_request_valid eq_refl).
Defined.

End Sample.
